(** * Compliance rule engines of fraudscan: frequency/temporal rules and TEA
      eligibility/coverage rules

    Shallow embedding of
      - src/rules/frequencia.py            (class RegraMotorFrequencia)
      - src/rules/elegibilidade_cobertura.py (class RegraMotorTEA)
      - src/image_analytics/duplicate.py   (hamming_distance)
      - src/image_analytics/metadados.py   (detect_suspect_software)
      - src/pdf_image_extractor.py         (ExtractConfig.validate,
        _parse_page_range, _safe_name, _make_filename)
    together with the parts of Python's [datetime] the rule engines call
    (proleptic Gregorian ordinals, ISO calendar, [strptime] for the format
    [%Y-%m-%d]).

    Python dictionaries with a fixed set of keys are records whose fields are
    options ([None] = key absent); dictionaries keyed by therapy type are
    association lists in insertion order; exceptions are the [Err] case of a
    result type. *)

From Stdlib Require Import ZArith List String Ascii Bool Lia Permutation.
From Stdlib Require DecimalString DecimalZ DecimalPos.
Import ListNotations.

Open Scope list_scope.
Open Scope string_scope.
Open Scope Z_scope.

(* ================================================================== *)
(** ** Python values, exceptions and the error monad *)
(* ================================================================== *)

Module Py.

(** Scalar values as they occur in the JSON configuration, in the request
    and in the evidence dictionaries. [bool] is a subclass of [int] in
    Python. Numbers are integers: JSON numbers with a fraction are outside
    the model. *)
Inductive pyval : Type :=
| PNone
| PBool (b : bool)
| PInt (z : Z)
| PStr (s : string).

(** What a [ValueError] raised by the modelled code is about. *)
Inductive motivo : Type :=
| SemConfig                                        (* "Forneça 'config' ou 'config_path'." *)
| PeriodoInvalido (tipo : string) (periodo : string)
| QuantidadeInvalida (tipo : string) (qtd : pyval)
| PeriodoNaoSuportado (periodo : string)           (* raised by _period_key *)
| DataForaDoFormato (data_string : string)
    (* strptime: "time data '...' does not match format '%Y-%m-%d'" *)
| DadosNaoConvertidos (resto : string)
    (* strptime: "unconverted data remains: ..." *)
| DataForaDoCalendario
    (* the date constructor strptime calls: year 0, or a day past the end
       of the month *)
| IntInvalido (s : string).
    (* int() on a str: "invalid literal for int() with base 10: '...'" *)

Inductive exn : Type :=
| KeyError (chave : string)
| ValueError (m : motivo)
| TypeError (v : pyval)
| AttributeError (v : pyval)
| OSError (caminho : string).

Inductive result (A : Type) : Type :=
| Ok (a : A)
| Err (e : exn).
Arguments Ok {A} a.
Arguments Err {A} e.

Definition bind {A B : Type} (m : result A) (k : A -> result B) : result B :=
  match m with
  | Ok a => k a
  | Err e => Err e
  end.

(** [d[k]] on a dictionary whose key [k] may be absent. *)
Definition item {A : Type} (chave : string) (o : option A) : result A :=
  match o with
  | Some a => Ok a
  | None => Err (KeyError chave)
  end.

(** [d.get(k, default)]. *)
Definition get {A : Type} (o : option A) (default : A) : A :=
  match o with
  | Some a => a
  | None => default
  end.

(** A [for] loop over a list that threads the loop's variables and stops at
    the first exception. *)
Fixpoint for_each {S A : Type} (body : S -> A -> result S) (xs : list A)
    (s : S) : result S :=
  match xs with
  | [] => Ok s
  | x :: xs' =>
      match body s x with
      | Ok s' => for_each body xs' s'
      | Err e => Err e
      end
  end.

(** Lookup in a dictionary keyed by strings, kept as an association list. *)
Fixpoint lookup {A : Type} (k : string) (d : list (string * A)) : option A :=
  match d with
  | [] => None
  | (k', v) :: d' => if String.eqb k' k then Some v else lookup k d'
  end.

(** Decimal rendering of an integer, as [str(n)] and [f"{n}"] give it. *)
Definition str_int (z : Z) : string :=
  DecimalString.NilZero.string_of_int (Z.to_int z).

(** [str(v)]. *)
Definition str (v : pyval) : string :=
  match v with
  | PNone => "None"
  | PBool true => "True"
  | PBool false => "False"
  | PInt z => str_int z
  | PStr s => s
  end.

(** [str.lower()], on the ASCII range. *)
Definition lower_ascii (c : ascii) : ascii :=
  let n := N_of_ascii c in
  if (65 <=? n)%N && (n <=? 90)%N then ascii_of_N (n + 32) else c.

Fixpoint lower (s : string) : string :=
  match s with
  | EmptyString => EmptyString
  | String c s' => String (lower_ascii c) (lower s')
  end.

(** [v.lower()] on an arbitrary value: only [str] has the method. *)
Definition lower_method (v : pyval) : result string :=
  match v with
  | PStr s => Ok (lower s)
  | _ => Err (AttributeError v)
  end.

Definition digit (c : ascii) : option Z :=
  let n := Z.of_N (N_of_ascii c) in
  if (48 <=? n) && (n <=? 57) then Some (n - 48) else None.

(** The white space [int] skips: blank, tab, line feed, vertical tab, form
    feed, carriage return. *)
Definition is_space (c : ascii) : bool :=
  let n := N_of_ascii c in
  ((9 <=? n) && (n <=? 13) || (n =? 32))%N.

Fixpoint lstrip (s : string) : string :=
  match s with
  | String c r => if is_space c then lstrip r else s
  | EmptyString => EmptyString
  end.

Fixpoint so_espacos (s : string) : bool :=
  match s with
  | EmptyString => true
  | String c r => is_space c && so_espacos r
  end.

(** The rest of a decimal literal after a digit: digits, each possibly
    preceded by one underscore, then white space to the end. [acc] is the
    value read so far. *)
Fixpoint literal (acc : Z) (s : string) : option Z :=
  match s with
  | EmptyString => Some acc
  | String c r =>
      match digit c with
      | Some d => literal (10 * acc + d) r
      | None =>
          if Ascii.eqb c "_" then
            match r with
            | String c' r' =>
                match digit c' with
                | Some d => literal (10 * acc + d) r'
                | None => None
                end
            | EmptyString => None
            end
          else if so_espacos s then Some acc else None
      end
  end.

(** The integer a string denotes for [int(s)]: white space around, an
    optional sign, decimal digits with single underscores between them.
    Digits and white space are those of the ASCII range. *)
Definition int_of_str (s : string) : option Z :=
  match lstrip s with
  | String "-" (String c r) =>
      match digit c with
      | Some d => option_map Z.opp (literal d r)
      | None => None
      end
  | String "+" (String c r) =>
      match digit c with
      | Some d => literal d r
      | None => None
      end
  | String c r =>
      match digit c with
      | Some d => literal d r
      | None => None
      end
  | EmptyString => None
  end.

(** Every character of the string is in the ASCII range. *)
Fixpoint ascii_puro (s : string) : bool :=
  match s with
  | EmptyString => true
  | String c r => (N_of_ascii c <? 128)%N && ascii_puro r
  end.

(** [int(v)]. *)
Definition int (v : pyval) : result Z :=
  match v with
  | PInt z => Ok z
  | PBool b => Ok (if b then 1 else 0)
  | PStr s =>
      match int_of_str s with
      | Some z => Ok z
      | None => Err (ValueError (IntInvalido s))
      end
  | PNone => Err (TypeError PNone)
  end.

(** [isinstance(v, int)]. *)
Definition isinstance_int (v : pyval) : bool :=
  match v with
  | PInt _ | PBool _ => true
  | _ => false
  end.

(** Integer value of an [int] instance. *)
Definition int_value (v : pyval) : Z :=
  match v with
  | PInt z => z
  | PBool true => 1
  | _ => 0
  end.

(** [v > n] for an integer [n]: instances of [int] compare by value, [None]
    and strings raise [TypeError]. *)
Definition gt_int (v : pyval) (n : Z) : result bool :=
  if isinstance_int v then Ok (n <? int_value v) else Err (TypeError v).

End Py.
Import Py.

Notation "x <- m ;; k" := (bind m (fun x => k))
  (at level 61, m at next level, right associativity).

(* ================================================================== *)
(** ** Calendar dates (datetime.date) *)
(* ================================================================== *)

Module Calendario.

Record date : Type := mkdate { year : Z; month : Z; day : Z }.

Definition _is_leap (y : Z) : bool :=
  (y mod 4 =? 0) && (negb (y mod 100 =? 0) || (y mod 400 =? 0)).

(** Number of days before January 1st of year [y]. *)
Definition _days_before_year (y : Z) : Z :=
  let y1 := y - 1 in
  y1 * 365 + y1 / 4 - y1 / 100 + y1 / 400.

Definition _days_in_month (y m : Z) : Z :=
  if (m =? 2) && _is_leap y then 29
  else match m with
       | 1 => 31 | 2 => 28 | 3 => 31 | 4 => 30 | 5 => 31 | 6 => 30
       | 7 => 31 | 8 => 31 | 9 => 30 | 10 => 31 | 11 => 30 | 12 => 31
       | _ => -1
       end.

(** Number of days in year [y] before the first day of month [m]. *)
Definition _days_before_month (y m : Z) : Z :=
  match m with
  | 1 => 0 | 2 => 31 | 3 => 59 | 4 => 90 | 5 => 120 | 6 => 151
  | 7 => 181 | 8 => 212 | 9 => 243 | 10 => 273 | 11 => 304 | 12 => 334
  | _ => -1
  end + (if (2 <? m) && _is_leap y then 1 else 0).

(** Proleptic Gregorian ordinal; 0001-01-01 is day 1. *)
Definition _ymd2ord (y m d : Z) : Z :=
  _days_before_year y + _days_before_month y m + d.

Definition toordinal (dt : date) : Z :=
  _ymd2ord (year dt) (month dt) (day dt).

(** The dates a [datetime.date] object can hold. *)
Definition date_valid (dt : date) : bool :=
  (1 <=? year dt) && (year dt <=? 9999) &&
  (1 <=? month dt) && (month dt <=? 12) &&
  (1 <=? day dt) && (day dt <=? _days_in_month (year dt) (month dt)).

(** Ordinal of the Monday that starts ISO week 1 of year [y]. *)
Definition _isoweek1monday (y : Z) : Z :=
  let firstday := _ymd2ord y 1 1 in
  let firstweekday := (firstday + 6) mod 7 in
  let week1monday := firstday - firstweekday in
  if 3 <? firstweekday then week1monday + 7 else week1monday.

(** [date.isocalendar()]: (ISO year, ISO week number, ISO weekday). *)
Definition isocalendar (dt : date) : Z * Z * Z :=
  let y := year dt in
  let week1monday := _isoweek1monday y in
  let today := toordinal dt in
  let week := (today - week1monday) / 7 in
  let wday := (today - week1monday) mod 7 in
  if week <? 0 then
    let y' := y - 1 in
    let week1monday' := _isoweek1monday y' in
    (y', (today - week1monday') / 7 + 1, (today - week1monday') mod 7 + 1)
  else if (52 <=? week) && (_isoweek1monday (y + 1) <=? today) then
    (y + 1, 1, wday + 1)
  else
    (y, week + 1, wday + 1).

(** Comparison of dates: lexicographic on (year, month, day). *)
Definition date_eqb (a b : date) : bool :=
  (year a =? year b) && (month a =? month b) && (day a =? day b).

Definition date_leb (a b : date) : bool :=
  (year a <? year b) ||
  ((year a =? year b) &&
   ((month a <? month b) || ((month a =? month b) && (day a <=? day b)))).

(** [(a - b).days]. *)
Definition days_between (a b : date) : Z := toordinal a - toordinal b.

(** Left-padding with zeros, as the format specs [04d] and [02d] do for
    non-negative numbers. *)
Fixpoint zeros (n : nat) : string :=
  match n with
  | O => ""
  | S n' => String "0" (zeros n')
  end.

Definition zfill (width : nat) (z : Z) : string :=
  let s := str_int z in
  zeros (width - String.length s) ++ s.

(** [date.isoformat()]. *)
Definition isoformat (dt : date) : string :=
  zfill 4 (year dt) ++ "-" ++ zfill 2 (month dt) ++ "-" ++ zfill 2 (day dt).

(** *** [datetime.strptime(s, "%Y-%m-%d")]

    The format is compiled by the library to the regular expression
    [(\d\d\d\d)-(1[0-2]|0[1-9]|[1-9])-(3[01]|[12]\d|0[1-9]|[1-9]| [1-9])],
    matched at the start of the string; input left over after the match and
    field values that do not form a date are errors, each with its own
    [ValueError].  Strings are byte strings and digits are the ASCII digits:
    on a string that holds other decimal digits, which the library's [\d]
    also accepts, the model is not the library. *)

Definition in_range (lo hi : Z) (c : ascii) : option Z :=
  match digit c with
  | Some d => if (lo <=? d) && (d <=? hi) then Some d else None
  | None => None
  end.

(** Alternatives of a directive, in the order the regular expression tries
    them: each is the value read and the input that remains. *)
Definition alt2 (v1 : Z) (lo hi : Z) (s : string) : list (Z * string) :=
  match s with
  | String c1 (String c2 r) =>
      match in_range v1 v1 c1, in_range lo hi c2 with
      | Some a, Some b => [(10 * a + b, r)]
      | _, _ => []
      end
  | _ => []
  end.

Definition alt1 (s : string) : list (Z * string) :=
  match s with
  | String c r =>
      match in_range 1 9 c with
      | Some a => [(a, r)]
      | None => []
      end
  | _ => []
  end.

Definition alt_blank (s : string) : list (Z * string) :=
  match s with
  | String " " r => alt1 r
  | _ => []
  end.

Definition month_alts (s : string) : list (Z * string) :=
  (alt2 1 0 2 s ++ alt2 0 1 9 s ++ alt1 s)%list.

Definition day_alts (s : string) : list (Z * string) :=
  (alt2 3 0 1 s ++ alt2 1 0 9 s ++ alt2 2 0 9 s ++ alt2 0 1 9 s
     ++ alt1 s ++ alt_blank s)%list.

(** First alternative after which a hyphen follows. *)
Fixpoint then_hyphen (alts : list (Z * string)) : option (Z * string) :=
  match alts with
  | [] => None
  | (v, String "-" r) :: _ => Some (v, r)
  | _ :: alts' => then_hyphen alts'
  end.

Definition strptime (s : string) : result date :=
  let nao_casa := Err (ValueError (DataForaDoFormato s)) in
  match s with
  | String y1 (String y2 (String y3 (String y4 (String "-" r)))) =>
      match digit y1, digit y2, digit y3, digit y4 with
      | Some a, Some b, Some c, Some d =>
          match then_hyphen (month_alts r) with
          | Some (m, r') =>
              match day_alts r' with
              | (dd, EmptyString) :: _ =>
                  let dt := mkdate (1000 * a + 100 * b + 10 * c + d) m dd in
                  if date_valid dt then Ok dt
                  else Err (ValueError DataForaDoCalendario)
              | (_, resto) :: _ => Err (ValueError (DadosNaoConvertidos resto))
              | [] => nao_casa
              end
          | None => nao_casa
          end
      | _, _, _, _ => nao_casa
      end
  | _ => nao_casa
  end.

End Calendario.
Import Calendario.


(* ================================================================== *)
(** ** The request context shared by both engines *)
(* ================================================================== *)

Module Entrada.

(** [DateLike = Union[str, date, datetime]]. *)
Inductive DateLike : Type :=
| DStr (s : string)
| DDate (d : date)
| DDateTime (d : date) (hora : Z * Z * Z).

(** [ctx["beneficiario"]]. *)
Record Beneficiario : Type := {
  ativo : option bool;
  idade : option Z;
  carencia_dias : option Z
}.

(** [ctx["procedimento"]]. The quantity is kept as the value written in the
    request: the frequency rules read it with [int(...)], the session-limit
    rule of the TEA engine compares it as it is. *)
Record Procedimento : Type := {
  cid : option string;
  tipo : option string;
  quantidade : option pyval;
  data_solicitacao : option DateLike
}.

(** One entry of [ctx["historico_sessoes"]], keys ["tipo"] and ["data"]. *)
Record Sessao : Type := {
  sessao_tipo : option string;
  sessao_data : option DateLike
}.

Record Contexto : Type := {
  beneficiario : option Beneficiario;
  procedimento : option Procedimento;
  historico_sessoes : option (list Sessao)
}.

(** The dictionary every rule returns. The TEA rules return no
    ["evidencias"] key: [evidencias = None]. *)
Record RuleResult : Type := {
  conforme : bool;
  mensagem : string;
  evidencias : option (list (string * pyval))
}.

End Entrada.
Import Entrada.

(* ================================================================== *)
(** ** src/rules/frequencia.py *)
(* ================================================================== *)

Module Frequencia.

(** One value of [config["frequencia_maxima"]], keys ["periodo"] and
    ["quantidade"]. *)
Record RegraFrequencia : Type := {
  cfg_periodo : option pyval;
  cfg_quantidade : option pyval
}.

(** The configuration as [json.load] gives it. The values of
    ["intervalo_minimo_dias"] and ["periodo_repeticao_proibida"] are kept as
    they are written: [__init__] does not look at them and the rules read
    them with [int(...)]. *)
Record Config : Type := {
  frequencia_maxima : option (list (string * RegraFrequencia));
  intervalo_minimo_dias : option (list (string * pyval));
  periodo_repeticao_proibida : option (list (string * pyval));
  nao_permitir_mesmo_dia : option (list string)
}.

Record RegraMotorFrequencia : Type := {
  config : Config;
  _freq_max : list (string * RegraFrequencia);
  _int_min : list (string * pyval);
  _rep_proib : list (string * pyval);
  _no_same_day : list string
}.

Definition PERIODOS_SUPORTADOS : list string :=
  ["diario"; "semanal"; "mensal"; "anual"].

Definition mem (s : string) (l : list string) : bool :=
  existsb (String.eqb s) l.

(** Body of the validation loop of [__init__] for one item. *)
Definition init_item (_ : unit) (it : string * RegraFrequencia) : result unit :=
  let '(tipo, regra) := it in
  let periodo := lower (str (get (cfg_periodo regra) (PStr ""))) in
  if negb (mem periodo PERIODOS_SUPORTADOS) then
    Err (ValueError (PeriodoInvalido tipo periodo))
  else
    let qtd := get (cfg_quantidade regra) PNone in
    if negb (isinstance_int qtd) || (int_value qtd <? 0) then
      Err (ValueError (QuantidadeInvalida tipo qtd))
    else Ok tt.

(** [__init__]; [arquivo] stands for [json.load(open(config_path))]. *)
Definition init (arquivo : string -> option Config)
    (config : option Config) (config_path : option string)
    : result RegraMotorFrequencia :=
  cfg <- match config, config_path with
         | None, None => Err (ValueError SemConfig)
         | None, Some path =>
             match arquivo path with
             | Some c => Ok c
             | None => Err (OSError path)
             end
         | Some c, _ => Ok c
         end;;
  let freq_max := get (frequencia_maxima cfg) [] in
  _ <- for_each init_item freq_max tt;;
  Ok {| config := cfg;
        _freq_max := freq_max;
        _int_min := get (intervalo_minimo_dias cfg) [];
        _rep_proib := get (periodo_repeticao_proibida cfg) [];
        _no_same_day := get (nao_permitir_mesmo_dia cfg) [] |}.

Definition _parse_date (d : DateLike) : result date :=
  match d with
  | DDate dt => Ok dt
  | DDateTime dt _ => Ok dt
  | DStr s => strptime s
  end.

Definition _week_year_key (dt : date) : Z * Z :=
  let '(iso_year, iso_week, _) := isocalendar dt in
  (iso_year, iso_week).

Definition _month_year_key (dt : date) : Z * Z := (year dt, month dt).

Definition _year_key (dt : date) : Z := year dt.

(** Period keys are tuples of integers of length 1, 2 or 3. *)
Definition _period_key (dt : date) (periodo : string) : result (list Z) :=
  let periodo := lower periodo in
  if (periodo =? "diario")%string then Ok [year dt; month dt; day dt]
  else if (periodo =? "semanal")%string then
    let '(y, w) := _week_year_key dt in Ok [y; w]
  else if (periodo =? "mensal")%string then
    let '(y, m) := _month_year_key dt in Ok [y; m]
  else if (periodo =? "anual")%string then Ok [_year_key dt]
  else Err (ValueError (PeriodoNaoSuportado periodo)).

Fixpoint key_eqb (a b : list Z) : bool :=
  match a, b with
  | [], [] => true
  | x :: a', y :: b' => (x =? y) && key_eqb a' b'
  | _, _ => false
  end.

(** [sess.get("tipo") == tipo]. *)
Definition tipo_eqb (o : option string) (t : string) : bool :=
  match o with
  | Some t' => String.eqb t' t
  | None => false
  end.

Definition _count_in_period (historico : list Sessao) (tipo : string)
    (periodo : string) (data_ref : date) : result Z :=
  key_ref <- _period_key data_ref periodo;;
  for_each
    (fun count sess =>
       if negb (tipo_eqb (sessao_tipo sess) tipo) then Ok count
       else
         raw <- item "data" (sessao_data sess);;
         d <- _parse_date raw;;
         k <- _period_key d periodo;;
         Ok (if key_eqb k key_ref then count + 1 else count))
    historico 0.

(** [max] of a non-empty list of dates: the first greatest element. *)
Definition max_date (d : date) (ds : list date) : date :=
  fold_left (fun m x => if date_leb x m then m else x) ds d.

Definition _last_session_date (historico : list Sessao) (tipo : string)
    (ate_data : date) : result (option date) :=
  datas <- for_each
    (fun (datas : list date) s =>
       if negb (tipo_eqb (sessao_tipo s) tipo) then Ok datas
       else
         raw <- item "data" (sessao_data s);;
         d <- _parse_date raw;;
         if date_leb d ate_data then
           raw' <- item "data" (sessao_data s);;
           d' <- _parse_date raw';;
           Ok (datas ++ [d'])%list
         else Ok datas)
    historico [];;
  Ok match datas with
     | [] => None
     | d :: ds => Some (max_date d ds)
     end.

Definition _same_day_count (historico : list Sessao) (tipo : string)
    (data_ref : date) : result Z :=
  for_each
    (fun total s =>
       if negb (tipo_eqb (sessao_tipo s) tipo) then Ok total
       else
         raw <- item "data" (sessao_data s);;
         d <- _parse_date raw;;
         Ok (if date_eqb d data_ref then total + 1 else total))
    historico 0.

Definition _rule_frequencia_maxima (self : RegraMotorFrequencia)
    (ctx : Contexto) : result RuleResult :=
  proc <- item "procedimento" (procedimento ctx);;
  tipo <- item "tipo" (tipo proc);;
  qtd_solic <- int (get (quantidade proc) (PInt 1));;
  raw <- item "data_solicitacao" (data_solicitacao proc);;
  data_sol <- _parse_date raw;;
  let hist := get (historico_sessoes ctx) [] in
  match lookup tipo (_freq_max self) with
  | None =>
      Ok {| conforme := true;
            mensagem := "Sem regra de frequência configurada para '" ++ tipo ++ "'.";
            evidencias := Some [("atual_no_periodo", PInt 0); ("limite", PNone)] |}
  | Some regra =>
      p <- item "periodo" (cfg_periodo regra);;
      periodo <- lower_method p;;
      q <- item "quantidade" (cfg_quantidade regra);;
      limite <- int q;;
      atual <- _count_in_period hist tipo periodo data_sol;;
      let total_pos_exec := atual + qtd_solic in
      let conforme := total_pos_exec <=? limite in
      let msg :=
        if conforme then
          "Frequência OK: " ++ str_int total_pos_exec ++ "/" ++ str_int limite
            ++ " no período " ++ periodo ++ "."
        else
          "Excede frequência: " ++ str_int total_pos_exec ++ "/" ++ str_int limite
            ++ " no período " ++ periodo ++ "." in
      Ok {| conforme := conforme;
            mensagem := msg;
            evidencias := Some [("periodo", PStr periodo);
                                ("consumido_no_periodo", PInt atual);
                                ("solicitado", PInt qtd_solic);
                                ("total_pos_execucao", PInt total_pos_exec);
                                ("limite", PInt limite)] |}
  end.

Definition _rule_intervalo_minimo (self : RegraMotorFrequencia)
    (ctx : Contexto) : result RuleResult :=
  proc <- item "procedimento" (procedimento ctx);;
  tipo <- item "tipo" (tipo proc);;
  qtd_solic <- int (get (quantidade proc) (PInt 1));;
  raw <- item "data_solicitacao" (data_solicitacao proc);;
  data_sol <- _parse_date raw;;
  let hist := get (historico_sessoes ctx) [] in
  min_days <- int (get (lookup tipo (_int_min self)) (PInt 0));;
  if min_days <=? 0 then
    Ok {| conforme := true;
          mensagem := "Sem intervalo mínimo configurado para '" ++ tipo ++ "'.";
          evidencias := Some [("intervalo_minimo_dias", PInt 0)] |}
  else
    last <- _last_session_date hist tipo data_sol;;
    match last with
    | None =>
        Ok {| conforme := true;
              mensagem := "Não há sessões anteriores; intervalo mínimo atendido.";
              evidencias := Some [("intervalo_minimo_dias", PInt min_days);
                                  ("dias_desde_ultima", PNone)] |}
    | Some last_dt =>
        let dias := days_between data_sol last_dt in
        let conforme :=
          (min_days <=? dias) && ((qtd_solic =? 1) || (min_days =? 0)) in
        let msg :=
          if negb conforme then
            "Intervalo não atendido: " ++ str_int dias
              ++ "d desde a última; mínimo exigido: " ++ str_int min_days ++ "d."
          else
            "Intervalo atendido: " ++ str_int dias ++ "d ≥ "
              ++ str_int min_days ++ "d." in
        Ok {| conforme := conforme;
              mensagem := msg;
              evidencias := Some [("ultima_sessao_em", PStr (isoformat last_dt));
                                  ("dias_desde_ultima", PInt dias);
                                  ("intervalo_minimo_dias", PInt min_days);
                                  ("quantidade_solicitada_mesmo_dia", PInt qtd_solic)] |}
    end.

Definition _rule_repeticao_proibida (self : RegraMotorFrequencia)
    (ctx : Contexto) : result RuleResult :=
  proc <- item "procedimento" (procedimento ctx);;
  tipo <- item "tipo" (tipo proc);;
  raw <- item "data_solicitacao" (data_solicitacao proc);;
  data_sol <- _parse_date raw;;
  let hist := get (historico_sessoes ctx) [] in
  dias_proib <- int (get (lookup tipo (_rep_proib self)) (PInt 0));;
  if dias_proib <=? 0 then
    Ok {| conforme := true;
          mensagem := "Sem janela de repetição proibida para '" ++ tipo ++ "'.";
          evidencias := Some [("janela_dias", PInt 0)] |}
  else
    last <- _last_session_date hist tipo data_sol;;
    match last with
    | None =>
        Ok {| conforme := true;
              mensagem := "Primeira ocorrência; janela respeitada.";
              evidencias := Some [("janela_dias", PInt dias_proib);
                                  ("dias_desde_ultima", PNone)] |}
    | Some last_dt =>
        let dias := days_between data_sol last_dt in
        let conforme := dias_proib <=? dias in
        let msg :=
          if conforme then
            "Janela respeitada: " ++ str_int dias ++ "d ≥ "
              ++ str_int dias_proib ++ "d."
          else
            "Repetição proibida: " ++ str_int dias ++ "d < "
              ++ str_int dias_proib ++ "d desde a última." in
        Ok {| conforme := conforme;
              mensagem := msg;
              evidencias := Some [("ultima_ocorrencia_em", PStr (isoformat last_dt));
                                  ("dias_desde_ultima", PInt dias);
                                  ("janela_repeticao_proibida_dias", PInt dias_proib)] |}
    end.

Definition _rule_mesmo_dia (self : RegraMotorFrequencia)
    (ctx : Contexto) : result RuleResult :=
  proc <- item "procedimento" (procedimento ctx);;
  tipo <- item "tipo" (tipo proc);;
  qtd_solic <- int (get (quantidade proc) (PInt 1));;
  raw <- item "data_solicitacao" (data_solicitacao proc);;
  data_sol <- _parse_date raw;;
  let hist := get (historico_sessoes ctx) [] in
  if mem tipo (_no_same_day self) then
    ja_realizadas_hoje <- _same_day_count hist tipo data_sol;;
    let total_no_dia := ja_realizadas_hoje + qtd_solic in
    let conforme := total_no_dia <=? 1 in
    let msg :=
      if conforme then "Regra de 'não permitir mesmo dia' atendida."
      else "Violação: " ++ str_int total_no_dia
             ++ " sessões no mesmo dia para '" ++ tipo ++ "'." in
    Ok {| conforme := conforme;
          mensagem := msg;
          evidencias := Some [("tipo", PStr tipo);
                              ("ja_realizadas_no_dia", PInt ja_realizadas_hoje);
                              ("solicitadas_no_dia", PInt qtd_solic);
                              ("total_no_dia", PInt total_no_dia)] |}
  else
    Ok {| conforme := true;
          mensagem := "Sem restrição de mesmo dia para este tipo.";
          evidencias := Some [] |}.

(** The report: [{"conforme": ..., "regras": {...}}]. *)
Record Relatorio : Type := {
  rel_conforme : bool;
  regras : list (string * RuleResult)
}.

Definition validar (self : RegraMotorFrequencia) (contexto : Contexto)
    : result Relatorio :=
  r1 <- _rule_frequencia_maxima self contexto;;
  r2 <- _rule_intervalo_minimo self contexto;;
  r3 <- _rule_repeticao_proibida self contexto;;
  r4 <- _rule_mesmo_dia self contexto;;
  let resultados := [("frequencia_maxima", r1); ("intervalo_minimo", r2);
                     ("repeticao_proibida", r3); ("mesmo_dia", r4)] in
  let conforme_geral := forallb conforme (map snd resultados) in
  Ok {| rel_conforme := conforme_geral; regras := resultados |}.

End Frequencia.

(* ================================================================== *)
(** ** src/rules/elegibilidade_cobertura.py *)
(* ================================================================== *)

Module TEA.

(** The configuration file, with the keys the rules read:
    [elegibilidade.idade_maxima], [cobertura.cid_validos],
    [cobertura.tipos_terapia], [limites_sessoes]. The age-band keys of a
    session limit are read with [.get(faixa, 0)] and may be absent. *)
Record Elegibilidade : Type := { idade_maxima : Z }.

Record Cobertura : Type := {
  cid_validos : list string;
  tipos_terapia : list string
}.

Record LimiteFaixas : Type := {
  ate_12 : option Z;
  acima_12 : option Z
}.

Record Config : Type := {
  elegibilidade : Elegibilidade;
  cobertura : Cobertura;
  limites_sessoes : list (string * LimiteFaixas)
}.

Record RegraMotorTEA : Type := { config : Config }.

(** [__init__]; [arquivo] stands for [json.load(open(config_path))]. *)
Definition init (arquivo : string -> option Config) (config_path : string)
    : result RegraMotorTEA :=
  match arquivo config_path with
  | Some c => Ok {| config := c |}
  | None => Err (OSError config_path)
  end.

Definition regra_elegibilidade (self : RegraMotorTEA) (ctx : Contexto)
    : result RuleResult :=
  b <- item "beneficiario" (beneficiario ctx);;
  a <- item "ativo" (ativo b);;
  if negb a then
    Ok {| conforme := false; mensagem := "Beneficiário inativo";
          evidencias := None |}
  else
    idade <- item "idade" (idade b);;
    let idade_max := idade_maxima (elegibilidade (config self)) in
    if idade_max <? idade then
      Ok {| conforme := false;
            mensagem := "Idade do beneficiário excede o limite de "
                          ++ str_int idade_max ++ " anos";
            evidencias := None |}
    else
      carencia <- item "carencia_dias" (carencia_dias b);;
      if 0 <? carencia then
        Ok {| conforme := false;
              mensagem := "Carência de " ++ str_int carencia
                            ++ " dias não cumprida";
              evidencias := None |}
      else
        Ok {| conforme := true; mensagem := "Beneficiário elegível";
              evidencias := None |}.

Definition regra_cobertura_tea (self : RegraMotorTEA) (ctx : Contexto)
    : result RuleResult :=
  p <- item "procedimento" (procedimento ctx);;
  cid <- item "cid" (cid p);;
  tipo <- item "tipo" (tipo p);;
  if negb (existsb (fun prefixo => String.prefix prefixo cid)
                   (cid_validos (cobertura (config self)))) then
    Ok {| conforme := false;
          mensagem := "CID " ++ cid ++ " não compatível com TEA";
          evidencias := None |}
  else if negb (existsb (String.eqb tipo)
                        (tipos_terapia (cobertura (config self)))) then
    Ok {| conforme := false;
          mensagem := "Terapia '" ++ tipo ++ "' não coberta para TEA";
          evidencias := None |}
  else
    Ok {| conforme := true; mensagem := "Procedimento compatível com TEA";
          evidencias := None |}.

Definition regra_limite_sessoes (self : RegraMotorTEA) (ctx : Contexto)
    : result RuleResult :=
  b <- item "beneficiario" (beneficiario ctx);;
  idade <- item "idade" (idade b);;
  p <- item "procedimento" (procedimento ctx);;
  tipo <- item "tipo" (tipo p);;
  solicitadas <- item "quantidade" (quantidade p);;
  let limites := limites_sessoes (config self) in
  match lookup tipo limites with
  | None =>
      Ok {| conforme := false;
            mensagem := "Tipo de terapia '" ++ tipo ++ "' não parametrizado";
            evidencias := None |}
  | Some faixas =>
      let limite := get (if idade <=? 12 then ate_12 faixas
                         else acima_12 faixas) 0 in
      excede <- gt_int solicitadas limite;;
      if excede then
        Ok {| conforme := false;
              mensagem := str solicitadas ++ " sessões excedem o limite de "
                            ++ str_int limite ++ " para '" ++ tipo
                            ++ "' na faixa etária";
              evidencias := None |}
      else
        Ok {| conforme := true;
              mensagem := str solicitadas
                            ++ " sessões estão dentro do limite autorizado para '"
                            ++ tipo ++ "'";
              evidencias := None |}
  end.

(** [self.regras]: the registry of named rules, in insertion order. *)
Definition regras (self : RegraMotorTEA)
    : list (string * (Contexto -> result RuleResult)) :=
  [("elegibilidade", regra_elegibilidade self);
   ("cobertura", regra_cobertura_tea self);
   ("limites", regra_limite_sessoes self)].

(** [d[k] = v]: replaces the value of an existing key in place, appends a
    new key. *)
Fixpoint setitem {A : Type} (k : string) (v : A) (d : list (string * A))
    : list (string * A) :=
  match d with
  | [] => [(k, v)]
  | (k', v') :: d' =>
      if String.eqb k' k then (k, v) :: d' else (k', v') :: setitem k v d'
  end.

(** The report is one flat dictionary: a rule result under each rule name
    and a boolean under ["conforme"]. *)
Inductive valor : Type :=
| VRegra (r : RuleResult)
| VBool (b : bool).

Definition validar (self : RegraMotorTEA) (contexto : Contexto)
    : result (list (string * valor)) :=
  resultado <- for_each
    (fun (resultado : list (string * RuleResult)) nome_regra =>
       let '(nome, regra) := nome_regra in
       r <- regra contexto;;
       Ok (setitem nome r resultado))
    (regras self) [];;
  let geral := forallb conforme (map snd resultado) in
  Ok (setitem "conforme" (VBool geral)
        (map (fun nr => (fst nr, VRegra (snd nr))) resultado)).

End TEA.

Import Frequencia.

(* ================================================================== *)
(** ** src/image_analytics/duplicate.py (class NFImageDuplicateAnalyzer) *)
(* ================================================================== *)

Module Duplicata.

(** [zip(hash1, hash2)] over the characters of two strings: it stops at the
    end of the shorter one. *)
Fixpoint zip (a b : string) : list (ascii * ascii) :=
  match a, b with
  | String c1 a', String c2 b' => (c1, c2) :: zip a' b'
  | _, _ => []
  end.

(** [sum(...)] of integers, from 0. *)
Definition sum (l : list Z) : Z := fold_left Z.add l 0.

(** [NFImageDuplicateAnalyzer.hamming_distance]. *)
Definition hamming_distance (hash1 hash2 : string) : Z :=
  sum (map (fun p => if Ascii.eqb (fst p) (snd p) then 0 else 1)
           (zip hash1 hash2)).

End Duplicata.

(* ================================================================== *)
(** ** src/image_analytics/metadados.py (class NFImageMetadataAnalyzer) *)
(* ================================================================== *)

Module Metadados.

Definition SUSPECT_SOFTWARES : list string :=
  ["Adobe Photoshop"; "GIMP"; "Corel"; "Paint.NET"; "Pixelmator";
   "Snapseed"; "Photoscape"; "Photopea"; "Lightroom"; "VSCO"; "Canva"].

(** [needle in hay] for strings. *)
Fixpoint contains (needle hay : string) : bool :=
  String.prefix needle hay ||
  match hay with
  | EmptyString => false
  | String _ hay' => contains needle hay'
  end.

(** The dictionary [detect_suspect_software] returns. *)
Record SoftwareInfo : Type := {
  editado_por_software_suspeito : bool;
  nome_software_detectado : option string
}.

(** The loop of [detect_suspect_software] over the remaining names. *)
Fixpoint detect_loop (suspects : list string) (software_str : string)
    : SoftwareInfo :=
  match suspects with
  | [] => {| editado_por_software_suspeito := false;
             nome_software_detectado := None |}
  | suspect :: rest =>
      if contains (lower suspect) (lower software_str) then
        {| editado_por_software_suspeito := true;
           nome_software_detectado := Some suspect |}
      else detect_loop rest software_str
  end.

Definition detect_suspect_software (software_str : string) : SoftwareInfo :=
  detect_loop SUSPECT_SOFTWARES software_str.

End Metadados.

(* ================================================================== *)
(** ** src/pdf_image_extractor.py (ExtractConfig, PDFImageExtractor) *)
(* ================================================================== *)

Module PdfExtractor.

Record ExtractConfig : Type := {
  input_dir : option string;
  input_file : option string;
  file_glob : string;
  output_dir : string;
  image_format : string;
  overwrite : bool;
  prefix_with_pdf_name : bool;
  page_range : string;
  include_regex : option string;
  exclude_regex : option string;
  mode : string;
  dpi : Z;
  render_alpha : bool;
  flatten_transparency : bool
}.

(** The four [ValueError]s of [ExtractConfig.validate]. *)
Inductive erro_validacao : Type :=
| SemEntrada          (* "Informe 'input_dir' OU 'input_file' no JSON." *)
| FormatoInvalido     (* "image_format deve ser 'png' ou 'jpg'/'jpeg'." *)
| ModoInvalido        (* "mode deve ser 'embedded' ou 'render'." *)
| DpiBaixo.           (* "dpi muito baixo para render: use >= 72." *)

(** Truth value of an optional string: [None] and [""] are false. *)
Definition truthy (o : option string) : bool :=
  match o with
  | Some (String _ _) => true
  | _ => false
  end.

(** [validate]: the checks, then the normalisation of [image_format], which
    the method writes back into the object. *)
Definition validate (self : ExtractConfig) : erro_validacao + ExtractConfig :=
  if negb (truthy (input_dir self)) && negb (truthy (input_file self)) then
    inl SemEntrada
  else if negb (mem (lower (image_format self)) ["png"; "jpg"; "jpeg"]) then
    inl FormatoInvalido
  else if negb (mem (mode self) ["embedded"; "render"]) then
    inl ModoInvalido
  else if (dpi self <? 72) && (mode self =? "render")%string then
    inl DpiBaixo
  else
    inr {| input_dir := input_dir self;
           input_file := input_file self;
           file_glob := file_glob self;
           output_dir := output_dir self;
           image_format :=
             if (lower (image_format self) =? "jpeg")%string then "jpg"
             else lower (image_format self);
           overwrite := overwrite self;
           prefix_with_pdf_name := prefix_with_pdf_name self;
           page_range := page_range self;
           include_regex := include_regex self;
           exclude_regex := exclude_regex self;
           mode := mode self;
           dpi := dpi self;
           render_alpha := render_alpha self;
           flatten_transparency := flatten_transparency self |}.

(** The character class [[a-zA-Z0-9._-]]. *)
Definition permitido (c : ascii) : bool :=
  let n := N_of_ascii c in
  ((97 <=? n) && (n <=? 122) || (65 <=? n) && (n <=? 90) ||
   (48 <=? n) && (n <=? 57) || (n =? 46) || (n =? 95) || (n =? 45))%N.

(** [re.sub(r"[^a-zA-Z0-9._-]+", "_", text)]: every maximal run of
    characters outside the class becomes one underscore. [em_bloco] tells
    that the previous character was outside the class. *)
Fixpoint safe_name_aux (em_bloco : bool) (text : string) : string :=
  match text with
  | EmptyString => EmptyString
  | String c r =>
      if permitido c then String c (safe_name_aux false r)
      else if em_bloco then safe_name_aux true r
      else String "_" (safe_name_aux true r)
  end.

Definition _safe_name (text : string) : string := safe_name_aux false text.

(** [text.split(sep)] for a one-character separator. *)
Fixpoint split (sep : ascii) (text : string) : list string :=
  match text with
  | EmptyString => [EmptyString]
  | String c r =>
      if Ascii.eqb c sep then EmptyString :: split sep r
      else match split sep r with
           | [] => [String c EmptyString]
           | x :: xs => String c x :: xs
           end
  end.

(** [text.split(sep, 1)] when [sep] occurs in [text]: the parts before and
    after the first occurrence; [None] when it does not occur. *)
Fixpoint split_once (sep : ascii) (text : string) : option (string * string) :=
  match text with
  | EmptyString => None
  | String c r =>
      if Ascii.eqb c sep then Some (EmptyString, r)
      else match split_once sep r with
           | Some (a, b) => Some (String c a, b)
           | None => None
           end
  end.

(** [list(range(start, end))]. *)
Definition range (start stop : Z) : list Z :=
  map (fun k => start + Z.of_nat k) (seq 0 (Z.to_nat (stop - start))).

(** [int(s)], with the library's parser of integer literals [py_int]
    ([None] when it raises [ValueError]). *)
Definition int_de (py_int : string -> option Z) (s : string) : result Z :=
  match py_int s with
  | Some z => Ok z
  | None => Err (ValueError (IntInvalido s))
  end.

(** Body of the loop over the tokens of the page specification. *)
Definition token_paginas (strip : string -> string)
    (py_int : string -> option Z) (page_count : Z)
    (selected : list Z) (token : string) : result (list Z) :=
  let token := strip token in
  match split_once "-" token with
  | Some (a, b) =>
      va <- int_de py_int a;;
      let start := Z.max (va - 1) 0 in
      vb <- int_de py_int b;;
      let stop := Z.min vb page_count in
      Ok (selected ++ range start stop)%list
  | None =>
      v <- int_de py_int token;;
      let idx := v - 1 in
      if (0 <=? idx) && (idx <? page_count) then Ok (selected ++ [idx])%list
      else Ok selected
  end.

(** The loop that removes duplicates and keeps the order: the state is the
    set [seen] and the list [unique]. *)
Definition sem_duplicatas (selected : list Z) : list Z :=
  snd (fold_left
         (fun (st : list Z * list Z) i =>
            let '(seen, unique) := st in
            if existsb (Z.eqb i) seen then (seen, unique)
            else (i :: seen, (unique ++ [i])%list))
         selected ([], [])).

(** [_parse_page_range]; [strip] and [py_int] are [str.strip] and the
    parser of [int]. *)
Definition _parse_page_range (strip : string -> string)
    (py_int : string -> option Z) (spec : string) (page_count : Z)
    : result (list Z) :=
  if (lower spec =? "all")%string then Ok (range 0 page_count)
  else
    selected <- for_each (token_paginas strip py_int page_count)
                         (split "," spec) [];;
    Ok (sem_duplicatas selected).

(** The format spec [03d]: the sign, then zeros up to width 3. *)
Definition formato_03d (z : Z) : string :=
  if z <? 0 then String "-" (zfill 2 (- z)) else zfill 3 z.

(** [_make_filename]; an empty [base_name] is false. *)
Definition _make_filename (base_name : string) (page_idx : Z)
    (img_idx : option Z) (suffix : string) : string :=
  let base := match base_name with
              | EmptyString => "pdf"
              | _ => _safe_name base_name
              end in
  let p := formato_03d (page_idx + 1) in
  match img_idx with
  | None => base ++ "__" ++ suffix ++ "_" ++ p
  | Some j => base ++ "__" ++ suffix ++ "_" ++ p ++ "_img_" ++ formato_03d j
  end.

End PdfExtractor.

(* ================================================================== *)
(** ** Specification-side notions and examples *)
(* ================================================================== *)

(** Ordinal of January 1st of year [y]. *)
Definition jan1 (y : Z) : Z := _ymd2ord y 1 1.

(** Ordinal of the Monday that opens the week of [dt]; weekdays count from
    Monday, and ordinal 1 is a Monday ([date.weekday()] is
    [(toordinal + 6) % 7]). *)
Definition monday_of (dt : date) : Z := toordinal dt - (toordinal dt + 6) mod 7.

(** Two dates lie in the same ISO week: the same Monday-to-Sunday span. *)
Definition same_iso_week (a b : date) : Prop := monday_of a = monday_of b.

(** The date of a history record, when it has one that parses. *)
Definition data_da_sessao (s : Sessao) : option date :=
  match sessao_data s with
  | Some raw =>
      match _parse_date raw with
      | Ok d => Some d
      | Err _ => None
      end
  | None => None
  end.

(** Every record of therapy type [tipo] carries a date that parses. *)
Definition historico_legivel (tipo : string) (historico : list Sessao) : Prop :=
  forall s, In s historico -> sessao_tipo s = Some tipo ->
            exists d, data_da_sessao s = Some d.

(** The record is of type [tipo] and its period key is [key_ref]. *)
Definition no_periodo (tipo periodo : string) (key_ref : list Z) (s : Sessao)
    : bool :=
  tipo_eqb (sessao_tipo s) tipo &&
  match data_da_sessao s with
  | Some d =>
      match _period_key d periodo with
      | Ok k => key_eqb k key_ref
      | Err _ => false
      end
  | None => false
  end.

(** The date of a record of type [tipo] dated on or before [ate]. *)
Definition sessao_ate (tipo : string) (ate : date) (s : Sessao) : option date :=
  if tipo_eqb (sessao_tipo s) tipo then
    match data_da_sessao s with
    | Some d => if date_leb d ate then Some d else None
    | None => None
    end
  else None.

(** Dates of the records of type [tipo] dated on or before [ate], in
    history order. *)
Fixpoint datas_ate (tipo : string) (ate : date) (historico : list Sessao)
    : list date :=
  match historico with
  | [] => []
  | s :: r =>
      match sessao_ate tipo ate s with
      | Some d => d :: datas_ate tipo ate r
      | None => datas_ate tipo ate r
      end
  end.

(** What the frequency rules read from a context: therapy type, requested
    quantity ([int] of the value written, 1 when absent), request date and
    history (empty when absent). *)
Definition pedido (ctx : Contexto) (t : string) (q : Z) (data_sol : date)
    (hist : list Sessao) : Prop :=
  exists proc raw,
    procedimento ctx = Some proc /\ tipo proc = Some t /\
    int (get (quantidade proc) (PInt 1)) = Ok q /\
    data_solicitacao proc = Some raw /\ _parse_date raw = Ok data_sol /\
    get (historico_sessoes ctx) [] = hist.

(** The period of a [frequencia_maxima] entry is a string that, in lower
    case, is one of the supported names. *)
Definition periodo_aceito (regra : RegraFrequencia) : Prop :=
  exists p, cfg_periodo regra = Some (PStr p) /\
            In (lower p) PERIODOS_SUPORTADOS.

(** The quantity of an entry is a non-negative integer; a boolean is an
    instance of [int] (0 or 1). *)
Definition quantidade_aceita (regra : RegraFrequencia) : Prop :=
  (exists n, cfg_quantidade regra = Some (PInt n) /\ 0 <= n) \/
  (exists b, cfg_quantidade regra = Some (PBool b)).

(** A [frequencia_maxima] entry that [__init__] accepts. *)
Definition entrada_valida (regra : RegraFrequencia) : Prop :=
  periodo_aceito regra /\ quantidade_aceita regra.

(** The three errors of [strptime]. *)
Definition erro_de_data (e : exn) : Prop :=
  (exists s, e = ValueError (DataForaDoFormato s)) \/
  (exists resto, e = ValueError (DadosNaoConvertidos resto)) \/
  e = ValueError DataForaDoCalendario.

(** The two errors of [int(...)]. *)
Definition erro_de_int (e : exn) : Prop :=
  (exists s, e = ValueError (IntInvalido s)) \/ (exists v, e = TypeError v).

(** Errors of reading the request and the configured numbers of days: a
    missing key the rules index, a date string [strptime] rejects, a value
    [int] rejects. *)
Definition erro_de_leitura (e : exn) : Prop :=
  (exists k, e = KeyError k /\
             In k ["procedimento"; "tipo"; "data_solicitacao"; "data"]) \/
  erro_de_data e \/ erro_de_int e.

(** What the history says about the last session of type [tipo] on or before
    [ate]: [None] when no record of the type is dated on or before [ate],
    otherwise the date of such a record that no other such record exceeds. *)
Definition ultima_sessao_ate (tipo : string) (ate : date)
    (historico : list Sessao) (u : option date) : Prop :=
  match u with
  | None =>
      forall s d, In s historico -> sessao_tipo s = Some tipo ->
                  data_da_sessao s = Some d -> date_leb d ate = false
  | Some last =>
      date_leb last ate = true /\
      (exists s, In s historico /\ sessao_tipo s = Some tipo /\
                 data_da_sessao s = Some last) /\
      (forall s d, In s historico -> sessao_tipo s = Some tipo ->
                   data_da_sessao s = Some d -> date_leb d ate = true ->
                   date_leb d last = true)
  end.

(** [__init__] raised one of its two configuration errors about the entry
    of therapy type [tipo]. *)
Definition falha_nomeando (r : result RegraMotorFrequencia) (tipo : string)
    : Prop :=
  (exists p, r = Err (ValueError (PeriodoInvalido tipo p))) \/
  (exists v, r = Err (ValueError (QuantidadeInvalida tipo v))).

(** The entry check as the specification words it: the period, as written,
    is one of the four supported names. *)
Definition periodo_literal_aceito (regra : RegraFrequencia) : Prop :=
  exists p, cfg_periodo regra = Some (PStr p) /\ In p PERIODOS_SUPORTADOS.

(** An entry whose period is, as written, a supported name. *)
Definition entrada_valida_literal (regra : RegraFrequencia) : Prop :=
  periodo_literal_aceito regra /\ quantidade_aceita regra.

(** A configuration whose period is written in capitals. *)
Definition config_maiusculas : Config :=
  {| frequencia_maxima :=
       Some [("ABA", {| cfg_periodo := Some (PStr "MENSAL");
                        cfg_quantidade := Some (PInt 10) |})];
     intervalo_minimo_dias := None;
     periodo_repeticao_proibida := None;
     nao_permitir_mesmo_dia := None |}.

(** A configuration whose minimum interval is written in words. *)
Definition config_intervalo_por_extenso : Config :=
  {| frequencia_maxima := None;
     intervalo_minimo_dias := Some [("Fono", PStr "sete")];
     periodo_repeticao_proibida := None;
     nao_permitir_mesmo_dia := None |}.

(** A configuration whose minimum interval is negative. *)
Definition config_intervalo_negativo : Config :=
  {| frequencia_maxima := None;
     intervalo_minimo_dias := Some [("Fono", PInt (-3))];
     periodo_repeticao_proibida := None;
     nao_permitir_mesmo_dia := None |}.

(** No configuration file is available. *)
Definition sem_arquivo : string -> option Config := fun _ => None.

(** The empty context [{}]. *)
Definition contexto_vazio : Contexto :=
  {| beneficiario := None; procedimento := None; historico_sessoes := None |}.

(** Rule names of the two registries, in order. *)
Definition nomes_frequencia : list string :=
  ["frequencia_maxima"; "intervalo_minimo"; "repeticao_proibida"; "mesmo_dia"].

Definition nomes_tea : list string := ["elegibilidade"; "cobertura"; "limites"].

(** A context in which every field the TEA rules read is present, the
    quantity being an integer. *)
Definition contexto_tea_completo (ctx : Contexto) : Prop :=
  exists b p a i c cd t q,
    beneficiario ctx = Some b /\ ativo b = Some a /\ idade b = Some i /\
    carencia_dias b = Some c /\
    procedimento ctx = Some p /\ cid p = Some cd /\ tipo p = Some t /\
    quantidade p = Some (PInt q).

(** A result with a message and an evidence mapping. *)
Definition com_evidencias (r : RuleResult) : Prop :=
  mensagem r <> "" /\ exists ev, evidencias r = Some ev.

(** A sample policy: ABA at most 10 per month, Fono at most 2 per week and
    at least 7 days apart, Psicologia never twice on a day. *)
Definition config_exemplo : Config :=
  {| frequencia_maxima :=
       Some [("ABA", {| cfg_periodo := Some (PStr "mensal");
                        cfg_quantidade := Some (PInt 10) |});
             ("Fono", {| cfg_periodo := Some (PStr "Semanal");
                         cfg_quantidade := Some (PInt 2) |})];
     intervalo_minimo_dias := Some [("Fono", PInt 7)];
     periodo_repeticao_proibida :=
       Some [("Fono", PInt 3); ("Avaliacao", PInt 180)];
     nao_permitir_mesmo_dia := Some ["Psicologia"] |}.

(** The engine [__init__] builds from [config_exemplo]. *)
Definition motor_exemplo : RegraMotorFrequencia :=
  {| config := config_exemplo;
     _freq_max := get (frequencia_maxima config_exemplo) [];
     _int_min := get (intervalo_minimo_dias config_exemplo) [];
     _rep_proib := get (periodo_repeticao_proibida config_exemplo) [];
     _no_same_day := get (nao_permitir_mesmo_dia config_exemplo) [] |}.

(** A history record [{"tipo": t, "data": d}]. *)
Definition sessao (t d : string) : Sessao :=
  {| sessao_tipo := Some t; sessao_data := Some (DStr d) |}.

(** A context with the given beneficiary, diagnosis code, therapy type,
    quantity, request date and history. *)
Definition contexto_de (b : option Beneficiario) (c : option string)
    (t : string) (q : option Z) (d : string) (h : option (list Sessao))
    : Contexto :=
  {| beneficiario := b;
     procedimento := Some {| cid := c; tipo := Some t;
                             quantidade := option_map PInt q;
                             data_solicitacao := Some (DStr d) |};
     historico_sessoes := h |}.

(** Eight ABA sessions in March 2024. *)
Definition oito_sessoes_aba : list Sessao :=
  [sessao "ABA" "2024-03-01"; sessao "ABA" "2024-03-04";
   sessao "ABA" "2024-03-05"; sessao "ABA" "2024-03-06";
   sessao "ABA" "2024-03-07"; sessao "ABA" "2024-03-08";
   sessao "ABA" "2024-03-11"; sessao "ABA" "2024-03-12"].

(** A sample TEA policy: maximum age 21, diagnosis prefix F84, ABA limited
    to 8 sessions up to age 12 and 4 above. *)
Definition motor_tea_exemplo : TEA.RegraMotorTEA :=
  {| TEA.config :=
       {| TEA.elegibilidade := {| TEA.idade_maxima := 21 |};
          TEA.cobertura := {| TEA.cid_validos := ["F84"];
                              TEA.tipos_terapia := ["ABA"; "Fono"; "Psicologia"] |};
          TEA.limites_sessoes :=
            [("ABA", {| TEA.ate_12 := Some 8; TEA.acima_12 := Some 4 |})] |} |}.

(** A beneficiary with all three fields present. *)
Definition beneficiario_de (a : bool) (i c : Z) : Beneficiario :=
  {| ativo := Some a; idade := Some i; carencia_dias := Some c |}.

(** Boolean check of [historico_legivel]. *)
Definition historico_legivelb (t : string) (h : list Sessao) : bool :=
  forallb (fun s => negb (tipo_eqb (sessao_tipo s) t) ||
                    match data_da_sessao s with Some _ => true | None => false end)
          h.

(** The context with the defaults of the frequency engine written in:
    quantity 1 and empty history when absent. *)
Definition com_padroes (ctx : Contexto) (proc : Procedimento) : Contexto :=
  {| beneficiario := beneficiario ctx;
     procedimento :=
       Some {| cid := cid proc; tipo := tipo proc;
               quantidade := Some (get (quantidade proc) (PInt 1));
               data_solicitacao := data_solicitacao proc |};
     historico_sessoes := Some (get (historico_sessoes ctx) []) |}.

(* ---------- notions of the further properties ---------- *)

(** The four digits of a year as [isoformat] prints it give back the year. *)
Definition ano_legivel (y : Z) : bool :=
  match zfill 4 y with
  | String a (String b (String c (String e EmptyString))) =>
      match digit a, digit b, digit c, digit e with
      | Some va, Some vb, Some vc, Some ve =>
          1000 * va + 100 * vb + 10 * vc + ve =? y
      | _, _, _, _ => false
      end
  | _ => false
  end.

(** A date-like value that holds a date of the calendar; strings are checked
    by [strptime], [date] and [datetime] objects by their constructors. *)
Definition data_valida (raw : DateLike) : Prop :=
  match raw with
  | DStr _ => True
  | DDate d => date_valid d = true
  | DDateTime d _ => date_valid d = true
  end.

(** A record of type [t] has a date that parses. *)
Definition sessao_legivel (t : string) (s : Sessao) : Prop :=
  sessao_tipo s = Some t -> exists d, data_da_sessao s = Some d.

(** The record is of type [t] and dated [d]. *)
Definition no_dia (t : string) (d : date) (s : Sessao) : bool :=
  tipo_eqb (sessao_tipo s) t &&
  match data_da_sessao s with
  | Some d' => date_eqb d' d
  | None => false
  end.

(** Every date written in the history is a date of the calendar. *)
Definition historico_valido (h : list Sessao) : Prop :=
  forall s raw, In s h -> sessao_data s = Some raw -> data_valida raw.

(** The context [ctx] with its history replaced. *)
Definition com_historico (ctx : Contexto) (h : list Sessao) : Contexto :=
  {| beneficiario := beneficiario ctx;
     procedimento := procedimento ctx;
     historico_sessoes := Some h |}.

(** The diagnosis code starts with one of the configured prefixes. *)
Definition cid_coberto (self : TEA.RegraMotorTEA) (c : string) : Prop :=
  exists prefixo resto,
    In prefixo (TEA.cid_validos (TEA.cobertura (TEA.config self))) /\
    c = prefixo ++ resto.

(** The session limit that applies to an age: the band up to 12 years or
    the band above, 0 when the band is not written. *)
Definition limite_da_faixa (faixas : TEA.LimiteFaixas) (i : Z) : Z :=
  get (if i <=? 12 then TEA.ate_12 faixas else TEA.acima_12 faixas) 0.

(** The top-level flag of a TEA report. *)
Definition conforme_geral (rep : list (string * TEA.valor)) : option bool :=
  match lookup "conforme" rep with
  | Some (TEA.VBool b) => Some b
  | _ => None
  end.

(** [needle] occurs in [hay]. *)
Definition ocorre (needle hay : string) : Prop :=
  exists antes depois, hay = antes ++ needle ++ depois.

(** Every character of the string is in the class [[a-zA-Z0-9._-]]. *)
Fixpoint so_permitidos (s : string) : bool :=
  match s with
  | EmptyString => true
  | String c r => PdfExtractor.permitido c && so_permitidos r
  end.

(** Every index of the list is a page of the document. *)
Definition paginas_validas (page_count : Z) (l : list Z) : Prop :=
  forall i, In i l -> 0 <= i < page_count.

(** Every character of the string is a decimal digit. *)
Fixpoint so_digitos (s : string) : bool :=
  match s with
  | EmptyString => true
  | String c r => match digit c with Some _ => true | None => false end
                  && so_digitos r
  end.

(** Value of a string of decimal digits. *)
Definition valor_decimal (s : string) : option Z :=
  option_map Z.of_uint (DecimalString.NilEmpty.uint_of_string s).

(** A history with an unreadable date under another therapy type. *)
Definition historico_misto : list Sessao :=
  [sessao "ABA" "2024-03-01"; sessao "Fono" "ontem"; sessao "ABA" "2024-03-05"].

(** A configuration whose second entry has an unsupported period and whose
    third entry has a negative quantity. *)
Definition config_duas_invalidas : Config :=
  {| frequencia_maxima :=
       Some [("ABA", {| cfg_periodo := Some (PStr "mensal");
                        cfg_quantidade := Some (PInt 10) |});
             ("Fono", {| cfg_periodo := Some (PStr "quinzenal");
                         cfg_quantidade := Some (PInt (-1)) |});
             ("TO", {| cfg_periodo := Some (PStr "anual");
                       cfg_quantidade := Some (PInt (-5)) |})];
     intervalo_minimo_dias := None;
     periodo_repeticao_proibida := None;
     nao_permitir_mesmo_dia := None |}.

(** A configuration that asks for JPEG pages rendered at 150 dpi. *)
Definition config_pdf_exemplo : PdfExtractor.ExtractConfig :=
  {| PdfExtractor.input_dir := None;
     PdfExtractor.input_file := Some "nota.pdf";
     PdfExtractor.file_glob := "*.pdf";
     PdfExtractor.output_dir := "output";
     PdfExtractor.image_format := "JPEG";
     PdfExtractor.overwrite := false;
     PdfExtractor.prefix_with_pdf_name := true;
     PdfExtractor.page_range := "1-3,5";
     PdfExtractor.include_regex := None;
     PdfExtractor.exclude_regex := None;
     PdfExtractor.mode := "render";
     PdfExtractor.dpi := 150;
     PdfExtractor.render_alpha := false;
     PdfExtractor.flatten_transparency := true |}.

(* ================================================================== *)
(** ** Lemmas and theorems *)
(* ================================================================== *)

(* ---------- the calendar on known dates ---------- *)

Example isocalendar_2021_01_01 : isocalendar (mkdate 2021 1 1) = (2020, 53, 5).
Proof. reflexivity. Qed.

Example isocalendar_2024_12_30 : isocalendar (mkdate 2024 12 30) = (2025, 1, 1).
Proof. reflexivity. Qed.

Example toordinal_2024_03_01 : toordinal (mkdate 2024 3 1) = 738946.
Proof. reflexivity. Qed.

Example strptime_iso : strptime "2024-03-15" = Ok (mkdate 2024 3 15).
Proof. reflexivity. Qed.

Example strptime_sem_zeros : strptime "2024-3-5" = Ok (mkdate 2024 3 5).
Proof. reflexivity. Qed.

Example strptime_barras :
  strptime "15/03/2024" = Err (ValueError (DataForaDoFormato "15/03/2024")).
Proof. reflexivity. Qed.

Example strptime_30_de_fevereiro :
  strptime "2023-02-30" = Err (ValueError DataForaDoCalendario).
Proof. reflexivity. Qed.

Example strptime_ano_zero :
  strptime "0000-01-01" = Err (ValueError DataForaDoCalendario).
Proof. reflexivity. Qed.

Example strptime_com_hora :
  strptime "2024-03-15T10:00" = Err (ValueError (DadosNaoConvertidos "T10:00")).
Proof. reflexivity. Qed.

Example strptime_dia_311 :
  strptime "2024-01-311" = Err (ValueError (DadosNaoConvertidos "1")).
Proof. reflexivity. Qed.

Example int_com_brancos : int (PStr " +1_000 ") = Ok 1000.
Proof. reflexivity. Qed.

Example int_por_extenso : int (PStr "sete") = Err (ValueError (IntInvalido "sete")).
Proof. reflexivity. Qed.

Example int_sublinhado_duplo :
  int (PStr "1__0") = Err (ValueError (IntInvalido "1__0")).
Proof. reflexivity. Qed.

Example isoformat_2024_03_05 : isoformat (mkdate 2024 3 5) = "2024-03-05".
Proof. reflexivity. Qed.

Example lower_mensal : lower "MENSAL" = "mensal".
Proof. reflexivity. Qed.

(* ---------- the ISO calendar ---------- *)

Lemma jan1_eq y : jan1 y = _days_before_year y + 1.
Proof. unfold jan1, _ymd2ord, _days_before_month. simpl. lia. Qed.

Lemma jan1_step y :
  jan1 (y + 1) - jan1 y = if _is_leap y then 366 else 365.
Proof.
  rewrite !jan1_eq. unfold _days_before_year, _is_leap.
  replace (y + 1 - 1) with y by lia.
  destruct (Z.eqb_spec (y mod 4) 0), (Z.eqb_spec (y mod 100) 0),
    (Z.eqb_spec (y mod 400) 0); simpl;
    Z.div_mod_to_equations; lia.
Qed.

Lemma jan1_mono a b : a <= b -> jan1 a <= jan1 b.
Proof.
  rewrite !jan1_eq. unfold _days_before_year. intros H.
  Z.div_mod_to_equations. lia.
Qed.

Lemma ord_in_year dt :
  date_valid dt = true ->
  jan1 (year dt) <= toordinal dt < jan1 (year dt + 1).
Proof.
  destruct dt as [y m d]. unfold date_valid, toordinal, _ymd2ord. simpl.
  rewrite !andb_true_iff, !Z.leb_le.
  intros [[[[[Hy1 Hy2] Hm1] Hm2] Hd1] Hd2].
  pose proof (jan1_step y) as Hs.
  rewrite !jan1_eq in *.
  unfold _days_in_month, _days_before_month in *.
  assert (Hm : m = 1 \/ m = 2 \/ m = 3 \/ m = 4 \/ m = 5 \/ m = 6 \/
               m = 7 \/ m = 8 \/ m = 9 \/ m = 10 \/ m = 11 \/ m = 12) by lia.
  destruct (_is_leap y);
    intuition (subst m; simpl in *; lia).
Qed.

Lemma week1_thursday y :
  (_isoweek1monday y + 6) mod 7 = 0 /\
  jan1 y <= _isoweek1monday y + 3 <= jan1 y + 6.
Proof.
  unfold _isoweek1monday. fold (jan1 y).
  destruct (Z.ltb_spec 3 ((jan1 y + 6) mod 7));
    Z.div_mod_to_equations; lia.
Qed.

Lemma jan1_unique a b t :
  jan1 a <= t < jan1 (a + 1) -> jan1 b <= t < jan1 (b + 1) -> a = b.
Proof.
  intros Ha Hb.
  destruct (Z.lt_trichotomy a b) as [H | [H | H]]; [| assumption |].
  - pose proof (jan1_mono (a + 1) b). lia.
  - pose proof (jan1_mono (b + 1) a). lia.
Qed.

(** The ISO year of a date is the calendar year of the Thursday of its week,
    and the ISO week counts the Thursdays of that year. *)
Lemma isocalendar_thursday dt :
  date_valid dt = true ->
  let '(y, w, wd) := isocalendar dt in
  jan1 y <= monday_of dt + 3 < jan1 (y + 1) /\
  w = (monday_of dt + 3 - jan1 y) / 7 + 1 /\
  wd = (toordinal dt + 6) mod 7 + 1.
Proof.
  intros Hv. pose proof (ord_in_year dt Hv) as Ho.
  unfold isocalendar, monday_of.
  generalize dependent (toordinal dt). generalize (year dt). clear dt Hv.
  intros y t Ho.
  pose proof (week1_thursday y) as [Hm0 Hw0].
  pose proof (week1_thursday (y - 1)) as [Hm1 Hw1].
  pose proof (week1_thursday (y + 1)) as [Hm2 Hw2].
  pose proof (jan1_step y) as Hs0.
  pose proof (jan1_step (y - 1)) as Hs1.
  pose proof (jan1_step (y + 1)) as Hs2.
  replace (y - 1 + 1) with y in * by lia.
  assert (Hl0 : 365 <= jan1 (y + 1) - jan1 y <= 366)
    by (destruct (_is_leap y); lia).
  assert (Hl1 : 365 <= jan1 y - jan1 (y - 1) <= 366)
    by (destruct (_is_leap (y - 1)); lia).
  assert (Hl2 : 365 <= jan1 (y + 1 + 1) - jan1 (y + 1) <= 366)
    by (destruct (_is_leap (y + 1)); lia).
  clear Hs0 Hs1 Hs2.
  destruct (Z.ltb_spec ((t - _isoweek1monday y) / 7) 0) as [Hneg | Hpos].
  - replace (y - 1 + 1) with y by lia.
    repeat split; Z.div_mod_to_equations; lia.
  - destruct (Z.leb_spec 52 ((t - _isoweek1monday y) / 7)) as [H52 | H52];
      [destruct (Z.leb_spec (_isoweek1monday (y + 1)) t) as [Hn | Hn] |];
      simpl; repeat split; Z.div_mod_to_equations; lia.
Qed.

(* ---------- strings ---------- *)

Lemma lower_ascii_idem c : lower_ascii (lower_ascii c) = lower_ascii c.
Proof.
  destruct c as [[] [] [] [] [] [] [] []]; reflexivity.
Qed.

Lemma lower_idem s : lower (lower s) = lower s.
Proof.
  induction s as [| c s IH]; simpl; [reflexivity |].
  now rewrite lower_ascii_idem, IH.
Qed.

Lemma period_key_lower dt p : _period_key dt (lower p) = _period_key dt p.
Proof. unfold _period_key. now rewrite lower_idem. Qed.

Lemma period_key_ok_iff dt p :
  (exists k, _period_key dt p = Ok k) <-> mem (lower p) PERIODOS_SUPORTADOS = true.
Proof.
  unfold _period_key, mem, PERIODOS_SUPORTADOS, _week_year_key, _month_year_key.
  simpl. rewrite !(String.eqb_sym (lower p)).
  destruct (isocalendar dt) as [[iy iw] iwd].
  destruct ("diario" =? lower p)%string; [split; eauto |].
  destruct ("semanal" =? lower p)%string; [split; eauto |].
  destruct ("mensal" =? lower p)%string; [split; eauto |].
  destruct ("anual" =? lower p)%string; [split; eauto |].
  simpl. split; [intros [k Hk]; discriminate | discriminate].
Qed.

Lemma period_key_any_date dt dt' p k :
  _period_key dt p = Ok k -> exists k', _period_key dt' p = Ok k'.
Proof.
  intros H. apply period_key_ok_iff. apply (period_key_ok_iff dt). eauto.
Qed.

Lemma period_key_err dt p e :
  _period_key dt p = Err e -> e = ValueError (PeriodoNaoSuportado (lower p)).
Proof.
  unfold _period_key, _week_year_key, _month_year_key.
  destruct (isocalendar dt) as [[iy iw] iwd].
  repeat match goal with
         | |- context [if ?b then _ else _] => destruct b; [discriminate |]
         end.
  congruence.
Qed.

Lemma key_eqb_eq a b : key_eqb a b = true <-> a = b.
Proof.
  revert b. induction a as [| x a IH]; destruct b as [| y b]; simpl;
    try (split; [discriminate | congruence]); [tauto |].
  rewrite andb_true_iff, Z.eqb_eq, IH. split; [intros []; congruence |].
  intros H; inversion H; auto.
Qed.

Lemma tipo_eqb_true o t : tipo_eqb o t = true <-> o = Some t.
Proof.
  destruct o as [t' |]; simpl; [| split; discriminate].
  rewrite String.eqb_eq. split; congruence.
Qed.

(* ---------- order on dates ---------- *)

Lemma date_leb_le a b :
  date_leb a b = true <->
  year a < year b \/
  (year a = year b /\ (month a < month b \/ (month a = month b /\ day a <= day b))).
Proof.
  unfold date_leb.
  rewrite !orb_true_iff, !andb_true_iff, !orb_true_iff, !andb_true_iff,
    !Z.ltb_lt, !Z.eqb_eq, Z.leb_le. tauto.
Qed.

Lemma date_leb_refl a : date_leb a a = true.
Proof. apply date_leb_le. lia. Qed.

Lemma date_leb_total a b : date_leb a b = false -> date_leb b a = true.
Proof.
  intros H. apply date_leb_le. apply not_true_iff_false in H.
  rewrite date_leb_le in H. lia.
Qed.

Lemma date_leb_trans a b c :
  date_leb a b = true -> date_leb b c = true -> date_leb a c = true.
Proof. rewrite !date_leb_le. lia. Qed.

Lemma date_leb_antisym a b :
  date_leb a b = true -> date_leb b a = true -> a = b.
Proof.
  rewrite !date_leb_le. destruct a, b; simpl. intros H1 H2.
  f_equal; lia.
Qed.

Lemma date_eqb_eq a b : date_eqb a b = true <-> a = b.
Proof.
  unfold date_eqb. rewrite !andb_true_iff, !Z.eqb_eq.
  destruct a, b; simpl. split; [intros [[] ]; congruence |].
  intros H; inversion H; auto.
Qed.

Lemma max_date_spec ds : forall d,
  In (max_date d ds) (d :: ds) /\
  forall x, In x (d :: ds) -> date_leb x (max_date d ds) = true.
Proof.
  unfold max_date. induction ds as [| y ds IH]; intros d; simpl.
  - split; [auto |]. intros x [<- | []]. apply date_leb_refl.
  - destruct (date_leb y d) eqn:Hyd.
    + destruct (IH d) as [Hin Hmax]. split.
      * destruct Hin as [<- | Hin]; auto.
      * intros x [<- | [<- | Hx]].
        -- apply Hmax; now left.
        -- eapply date_leb_trans; [exact Hyd | apply Hmax; now left].
        -- apply Hmax; now right.
    + destruct (IH y) as [Hin Hmax]. split.
      * destruct Hin as [<- | Hin]; auto.
      * intros x [<- | [<- | Hx]].
        -- eapply date_leb_trans; [apply date_leb_total; exact Hyd |].
           apply Hmax; now left.
        -- apply Hmax; now left.
        -- apply Hmax; now right.
Qed.

(* ---------- loops over the history ---------- *)

Lemma for_each_app {S A : Type} (body : S -> A -> result S) xs ys s :
  for_each body (xs ++ ys)%list s =
  bind (for_each body xs s) (for_each body ys).
Proof.
  revert s. induction xs as [| x xs IH]; intros s; simpl; [reflexivity |].
  destruct (body s x); simpl; auto.
Qed.

Lemma historico_legivel_cons t s h :
  historico_legivel t (s :: h) ->
  (sessao_tipo s = Some t -> exists d, data_da_sessao s = Some d) /\
  historico_legivel t h.
Proof.
  intros H. split.
  - intros Ht. apply H; simpl; auto.
  - intros s' Hin. apply H. simpl; auto.
Qed.

Lemma data_da_sessao_some s d :
  data_da_sessao s = Some d ->
  exists raw, sessao_data s = Some raw /\ _parse_date raw = Ok d.
Proof.
  unfold data_da_sessao. destruct (sessao_data s) as [raw |]; [| discriminate].
  destruct (_parse_date raw) eqn:Hp; [| discriminate].
  intros [= <-]. eauto.
Qed.

Lemma no_periodo_true t p kref s :
  no_periodo t p kref s = true <->
  sessao_tipo s = Some t /\
  exists d, data_da_sessao s = Some d /\ _period_key d p = Ok kref.
Proof.
  unfold no_periodo. rewrite andb_true_iff, tipo_eqb_true.
  destruct (data_da_sessao s) as [d |].
  - destruct (_period_key d p) as [k | e] eqn:Hk.
    + rewrite key_eqb_eq. split.
      * intros [Ht ->]. eauto.
      * intros [Ht (d' & [= <-] & Hk')]. split; congruence.
    + split; [intros [_ [=]] |].
      intros [_ (d' & [= <-] & Hk')]. congruence.
  - split; [intros [_ [=]] | intros [_ (d' & [=] & _)]].
Qed.

Lemma count_loop t p kref h :
  (exists dt, _period_key dt p = Ok kref) ->
  historico_legivel t h ->
  forall c,
    for_each
      (fun count sess =>
         if negb (tipo_eqb (sessao_tipo sess) t) then Ok count
         else
           raw <- item "data" (sessao_data sess);;
           d <- _parse_date raw;;
           k <- _period_key d p;;
           Ok (if key_eqb k kref then count + 1 else count))
      h c
    = Ok (c + Z.of_nat (List.length (filter (no_periodo t p kref) h))).
Proof.
  intros [dt Hk]. induction h as [| s h IH]; intros Hl c.
  - simpl. f_equal. lia.
  - apply historico_legivel_cons in Hl as [Hs Hl].
    cbn [for_each filter].
    destruct (tipo_eqb (sessao_tipo s) t) eqn:Ht; cbn [negb].
    + pose proof Ht as Ht'. apply tipo_eqb_true in Ht'.
      destruct (Hs Ht') as [d Hd].
      destruct (period_key_any_date dt d p kref Hk) as [k' Hk'].
      assert (Hnp : no_periodo t p kref s = key_eqb k' kref)
        by (unfold no_periodo; now rewrite Ht, Hd, Hk').
      apply data_da_sessao_some in Hd as (raw & Hraw & Hparse).
      rewrite Hraw. cbn [item bind]. rewrite Hparse. cbn [bind].
      rewrite Hk'. cbn [bind].
      rewrite (IH Hl), Hnp. f_equal.
      destruct (key_eqb k' kref); cbn [List.length]; lia.
    + assert (Hnp : no_periodo t p kref s = false)
        by (unfold no_periodo; now rewrite Ht).
      rewrite (IH Hl), Hnp. reflexivity.
Qed.

Lemma count_in_period_spec h t p data_ref kref :
  _period_key data_ref p = Ok kref ->
  historico_legivel t h ->
  _count_in_period h t p data_ref =
  Ok (Z.of_nat (List.length (filter (no_periodo t p kref) h))).
Proof.
  intros Hk Hl. unfold _count_in_period. rewrite Hk. cbn [bind].
  rewrite (count_loop t p kref h); eauto.
Qed.

Lemma for_each_ext {S A : Type} (f g : S -> A -> result S) xs :
  (forall s x, f s x = g s x) ->
  forall s, for_each f xs s = for_each g xs s.
Proof.
  intros Hfg. induction xs as [| x xs IH]; intros s; simpl; [reflexivity |].
  rewrite Hfg. destruct (g s x); auto.
Qed.

Lemma count_in_period_lower h t p data_ref :
  _count_in_period h t (lower p) data_ref = _count_in_period h t p data_ref.
Proof.
  unfold _count_in_period. rewrite period_key_lower.
  destruct (_period_key data_ref p) as [kref | e]; [| reflexivity].
  cbn [bind]. apply for_each_ext. intros c s.
  destruct (negb (tipo_eqb (sessao_tipo s) t)); [reflexivity |].
  destruct (item "data" (sessao_data s)) as [raw |]; [| reflexivity].
  cbn [bind]. destruct (_parse_date raw) as [d |]; [| reflexivity].
  cbn [bind]. now rewrite period_key_lower.
Qed.

Lemma last_loop t ate h :
  historico_legivel t h ->
  forall acc,
    for_each
      (fun (datas : list date) s =>
         if negb (tipo_eqb (sessao_tipo s) t) then Ok datas
         else
           raw <- item "data" (sessao_data s);;
           d <- _parse_date raw;;
           if date_leb d ate then
             raw' <- item "data" (sessao_data s);;
             d' <- _parse_date raw';;
             Ok (datas ++ [d'])%list
           else Ok datas)
      h acc
    = Ok (acc ++ datas_ate t ate h)%list.
Proof.
  induction h as [| s h IH]; intros Hl acc.
  - simpl. now rewrite app_nil_r.
  - apply historico_legivel_cons in Hl as [Hs Hl].
    cbn [for_each datas_ate]. unfold sessao_ate.
    destruct (tipo_eqb (sessao_tipo s) t) eqn:Ht; cbn [negb].
    + apply tipo_eqb_true in Ht. destruct (Hs Ht) as [d Hd].
      rewrite Hd.
      apply data_da_sessao_some in Hd as (raw & Hraw & Hparse).
      rewrite Hraw. cbn [item bind]. rewrite Hparse. cbn [bind].
      destruct (date_leb d ate).
      * cbn [bind]. rewrite (IH Hl). now rewrite <- app_assoc.
      * apply (IH Hl).
    + apply (IH Hl).
Qed.

Lemma last_session_date_eq h t ate :
  historico_legivel t h ->
  _last_session_date h t ate =
  Ok match datas_ate t ate h with
     | [] => None
     | d :: ds => Some (max_date d ds)
     end.
Proof.
  intros Hl. unfold _last_session_date.
  rewrite (last_loop t ate h Hl). reflexivity.
Qed.

Lemma in_datas_ate t ate h d :
  In d (datas_ate t ate h) <->
  exists s, In s h /\ sessao_tipo s = Some t /\ data_da_sessao s = Some d /\
            date_leb d ate = true.
Proof.
  induction h as [| s h IH]; simpl.
  - split; [tauto | intros (s & [] & _)].
  - unfold sessao_ate at 1.
    destruct (tipo_eqb (sessao_tipo s) t) eqn:Ht.
    + apply tipo_eqb_true in Ht.
      destruct (data_da_sessao s) as [d' |] eqn:Hd.
      * destruct (date_leb d' ate) eqn:Hle.
        -- simpl. rewrite IH. split.
           ++ intros [<- | (s' & Hin & H)]; [exists s; auto |].
              exists s'; auto.
           ++ intros (s' & [<- | Hin] & Ht' & Hd' & Hle').
              ** left. congruence.
              ** right. exists s'; auto.
        -- rewrite IH. split.
           ++ intros (s' & Hin & H). exists s'; auto.
           ++ intros (s' & [<- | Hin] & Ht' & Hd' & Hle'); [congruence |].
              exists s'; auto.
      * rewrite IH. split.
        -- intros (s' & Hin & H). exists s'; auto.
        -- intros (s' & [<- | Hin] & Ht' & Hd' & Hle'); [congruence |].
           exists s'; auto.
    + rewrite IH. split.
      * intros (s' & Hin & H). exists s'; auto.
      * intros (s' & [<- | Hin] & Ht' & Hd' & Hle').
        -- apply tipo_eqb_true in Ht'. congruence.
        -- exists s'; auto.
Qed.

(** What [_last_session_date] returns on a readable history. *)
Lemma last_session_date_spec h t ate :
  historico_legivel t h ->
  exists r, _last_session_date h t ate = Ok r /\
    match r with
    | None =>
        forall s d, In s h -> sessao_tipo s = Some t ->
                    data_da_sessao s = Some d -> date_leb d ate = false
    | Some last =>
        date_leb last ate = true /\
        (exists s, In s h /\ sessao_tipo s = Some t /\
                   data_da_sessao s = Some last) /\
        (forall s d, In s h -> sessao_tipo s = Some t ->
                     data_da_sessao s = Some d -> date_leb d ate = true ->
                     date_leb d last = true)
    end.
Proof.
  intros Hl. rewrite (last_session_date_eq h t ate Hl).
  eexists; split; [reflexivity |].
  destruct (datas_ate t ate h) as [| d ds] eqn:Hds.
  - intros s d Hin Ht Hd. destruct (date_leb d ate) eqn:Hle; [| reflexivity].
    assert (In d (datas_ate t ate h)) as Hc by (apply in_datas_ate; eauto).
    rewrite Hds in Hc. destruct Hc.
  - destruct (max_date_spec ds d) as [Hin Hmax].
    rewrite <- Hds in Hin.
    apply in_datas_ate in Hin as (s & Hs & Ht & Hd & Hle).
    split; [exact Hle |]. split; [eauto |].
    intros s' d' Hs' Ht' Hd' Hle'. apply Hmax. rewrite <- Hds.
    apply in_datas_ate. eauto.
Qed.

(* ---------- the daily bucket and the last session ---------- *)

Lemma key_eqb_diario a b :
  key_eqb [year a; month a; day a] [year b; month b; day b] = date_eqb a b.
Proof. unfold date_eqb. cbn. now rewrite andb_true_r, andb_assoc. Qed.

Lemma period_key_diario dt : _period_key dt "diario" = Ok [year dt; month dt; day dt].
Proof. reflexivity. Qed.

Lemma same_day_count_diario h t d :
  _same_day_count h t d = _count_in_period h t "diario" d.
Proof.
  unfold _same_day_count, _count_in_period. rewrite period_key_diario.
  cbn [bind]. apply for_each_ext. intros c s.
  destruct (negb (tipo_eqb (sessao_tipo s) t)); [reflexivity |].
  destruct (item "data" (sessao_data s)) as [raw |]; [| reflexivity].
  cbn [bind]. destruct (_parse_date raw) as [d' |]; [| reflexivity].
  cbn [bind]. rewrite period_key_diario. cbn [bind].
  now rewrite key_eqb_diario.
Qed.

Lemma no_periodo_diario t d s :
  no_periodo t "diario" [year d; month d; day d] s = no_dia t d s.
Proof.
  unfold no_periodo, no_dia. destruct (data_da_sessao s) as [d' |]; [| reflexivity].
  rewrite period_key_diario. now rewrite key_eqb_diario.
Qed.

Lemma filter_ext_length {A : Type} (f g : A -> bool) l :
  (forall x, f x = g x) -> List.length (filter f l) = List.length (filter g l).
Proof.
  intros H. induction l as [| x l IH]; simpl; [reflexivity |].
  rewrite H. destruct (g x); simpl; now rewrite IH.
Qed.

Lemma same_day_count_spec h t d :
  historico_legivel t h ->
  _same_day_count h t d = Ok (Z.of_nat (List.length (filter (no_dia t d) h))).
Proof.
  intros Hl. rewrite same_day_count_diario.
  rewrite (count_in_period_spec h t "diario" d _ (period_key_diario d) Hl).
  do 2 f_equal. apply filter_ext_length. apply no_periodo_diario.
Qed.

Lemma no_dia_true t d s :
  no_dia t d s = true <-> sessao_tipo s = Some t /\ data_da_sessao s = Some d.
Proof.
  unfold no_dia. rewrite andb_true_iff, tipo_eqb_true.
  destruct (data_da_sessao s) as [d' |].
  - rewrite date_eqb_eq. split; intros [H1 H2]; split; congruence.
  - split; intros [_ H]; discriminate.
Qed.

Lemma last_session_date_ultima h t ate :
  historico_legivel t h ->
  exists u, _last_session_date h t ate = Ok u /\ ultima_sessao_ate t ate h u.
Proof. exact (last_session_date_spec h t ate). Qed.

(* ---------- the request read by the frequency rules ---------- *)

Ltac usar_pedido H :=
  let proc := fresh "proc" in
  let raw := fresh "raw" in
  let Hproc := fresh "Hproc" in
  let Htipo := fresh "Htipo" in
  let Hq := fresh "Hq" in
  let Hraw := fresh "Hraw" in
  let Hparse := fresh "Hparse" in
  let Hhist := fresh "Hhist" in
  destruct H as (proc & raw & Hproc & Htipo & Hq & Hraw & Hparse & Hhist);
  rewrite Hproc; cbn [item bind]; rewrite Htipo; cbn [item bind];
  rewrite ?Hq; cbn [bind];
  rewrite Hraw; cbn [item bind]; rewrite Hparse; cbn [bind];
  rewrite ?Hhist.

(* ---------- what __init__ guarantees ---------- *)

Lemma mem_In s l : mem s l = true <-> In s l.
Proof.
  unfold mem. rewrite existsb_exists. split.
  - intros (x & Hin & Heq). apply String.eqb_eq in Heq. now subst.
  - intros Hin. exists s. split; [exact Hin | apply String.eqb_refl].
Qed.

Lemma str_int_not_periodo z : mem (lower (str_int z)) PERIODOS_SUPORTADOS = false.
Proof.
  unfold str_int. destruct (Z.to_int z) as [d | d]; destruct d; reflexivity.
Qed.

Lemma periodo_aceito_iff regra :
  mem (lower (str (get (cfg_periodo regra) (PStr "")))) PERIODOS_SUPORTADOS = true
  <-> periodo_aceito regra.
Proof.
  unfold periodo_aceito. destruct (cfg_periodo regra) as [[| [] | z | p] |];
    cbn [get str].
  1-3, 6: split; [discriminate | intros (p & [=] & _)].
  - rewrite str_int_not_periodo. split; [discriminate | intros (p & [=] & _)].
  - rewrite mem_In. split; [eauto |]. now intros (p' & [= <-] & H).
Qed.

Lemma quantidade_aceita_iff regra :
  (let qtd := get (cfg_quantidade regra) PNone in
   negb (isinstance_int qtd) || (int_value qtd <? 0)) = false
  <-> quantidade_aceita regra.
Proof.
  unfold quantidade_aceita.
  destruct (cfg_quantidade regra) as [[| b | z | p] |]; cbn.
  1, 4, 5: split; [discriminate | intros [(n & [=] & _) | (b & [=])]].
  - split; [eauto | intros _]. now destruct b.
  - rewrite Z.ltb_ge. split; [eauto |].
    intros [(n & [= <-] & H) | (b & [=])]; exact H.
Qed.

Lemma init_item_ok tipo regra :
  init_item tt (tipo, regra) = Ok tt <-> entrada_valida regra.
Proof.
  unfold entrada_valida. rewrite <- periodo_aceito_iff, <- quantidade_aceita_iff.
  unfold init_item.
  destruct (mem _ PERIODOS_SUPORTADOS); cbn [negb].
  - cbv zeta.
    destruct (negb _ || _); split; try discriminate; intuition discriminate.
  - split; [discriminate | intros [[=] _]].
Qed.

Lemma init_item_err tipo regra e :
  init_item tt (tipo, regra) = Err e ->
  ~ entrada_valida regra /\
  ((exists p, e = ValueError (PeriodoInvalido tipo p)) \/
   (exists v, e = ValueError (QuantidadeInvalida tipo v))).
Proof.
  intros H. split.
  - intros Hv. apply (init_item_ok tipo) in Hv. congruence.
  - unfold init_item in H.
    destruct (negb (mem _ PERIODOS_SUPORTADOS)); [injection H as <-; eauto |].
    cbv zeta in H. destruct (negb _ || _); [injection H as <-; eauto |].
    discriminate.
Qed.

Lemma init_loop_ok items :
  for_each init_item items tt = Ok tt <->
  Forall (fun it => entrada_valida (snd it)) items.
Proof.
  induction items as [| [tipo regra] items IH]; cbn [for_each].
  - split; auto.
  - destruct (init_item tt (tipo, regra)) as [[] | e] eqn:Hit.
    + rewrite IH. apply init_item_ok in Hit. split.
      * intros H. constructor; assumption.
      * intros H. now inversion H.
    + split; [discriminate |]. intros H. inversion H as [| ? ? Hv _]; subst.
      apply init_item_err in Hit as [Hn _]. now destruct Hn.
Qed.

Lemma init_loop_err items e :
  for_each init_item items tt = Err e ->
  exists tipo regra, In (tipo, regra) items /\ ~ entrada_valida regra /\
    ((exists p, e = ValueError (PeriodoInvalido tipo p)) \/
     (exists v, e = ValueError (QuantidadeInvalida tipo v))).
Proof.
  induction items as [| [tipo regra] items IH]; cbn [for_each]; [discriminate |].
  destruct (init_item tt (tipo, regra)) as [[] | e'] eqn:Hit.
  - intros H. destruct (IH H) as (t' & r' & Hin & Hrest).
    exists t', r'. split; [now right | exact Hrest].
  - intros [= <-]. apply init_item_err in Hit as [Hn He].
    exists tipo, regra. split; [now left | auto].
Qed.

Lemma lookup_In {A : Type} k (d : list (string * A)) v :
  lookup k d = Some v -> In (k, v) d.
Proof.
  induction d as [| [k' v'] d IH]; simpl; [discriminate |].
  destruct (String.eqb_spec k' k) as [-> | Hne].
  - intros [= ->]. now left.
  - intros H. right. auto.
Qed.

Lemma unit_result_ok (r : result unit) u : r = Ok u -> r = Ok tt.
Proof. now destruct u. Qed.

Lemma init_ok_entries arquivo cfg path self :
  init arquivo cfg path = Ok self ->
  Forall (fun it => entrada_valida (snd it)) (_freq_max self).
Proof.
  unfold init. intros H.
  destruct (match cfg, path with
            | None, None => Err (ValueError SemConfig)
            | None, Some p =>
                match arquivo p with Some c => Ok c | None => Err (OSError p) end
            | Some c, _ => Ok c
            end) as [c | e]; [| discriminate].
  cbn [bind] in H.
  destruct (for_each init_item (get (frequencia_maxima c) []) tt) as [u | e] eqn:Hl;
    [| discriminate].
  cbn [bind] in H. injection H as <-. cbn [_freq_max].
  apply init_loop_ok. now destruct u.
Qed.

Lemma init_ok_lookup arquivo cfg path self t regra :
  init arquivo cfg path = Ok self ->
  lookup t (_freq_max self) = Some regra ->
  entrada_valida regra.
Proof.
  intros Hi Hl. apply init_ok_entries in Hi.
  rewrite Forall_forall in Hi. apply (Hi (t, regra)). now apply lookup_In.
Qed.

Lemma quantidade_aceita_int regra :
  quantidade_aceita regra ->
  exists v L, cfg_quantidade regra = Some v /\ int v = Ok L /\ 0 <= L.
Proof.
  intros [(n & H & Hn) | (b & H)].
  - exists (PInt n), n. auto.
  - exists (PBool b), (if b then 1 else 0). repeat split; auto.
    destruct b; lia.
Qed.

(* ---------- FrequencyMax ---------- *)

Lemma rule_frequencia_maxima_configurada
    arquivo cfg path self ctx t q data_sol hist regra :
  init arquivo cfg path = Ok self ->
  pedido ctx t q data_sol hist ->
  historico_legivel t hist ->
  lookup t (_freq_max self) = Some regra ->
  exists P vq L consumed r,
    cfg_periodo regra = Some (PStr P) /\
    cfg_quantidade regra = Some vq /\ int vq = Ok L /\
    _count_in_period hist t P data_sol = Ok consumed /\
    _rule_frequencia_maxima self ctx = Ok r /\
    conforme r = (consumed + q <=? L).
Proof.
  intros Hinit Hped Hleg Hlk.
  destruct (init_ok_lookup _ _ _ _ _ _ Hinit Hlk) as [(P & HP & Hsup) Hq].
  apply quantidade_aceita_int in Hq as (vq & L & Hvq & HL & _).
  apply mem_In in Hsup.
  apply (period_key_ok_iff data_sol) in Hsup as [kref Hkref].
  pose proof (count_in_period_spec hist t P data_sol kref Hkref Hleg) as Hc.
  exists P, vq, L. eexists; eexists.
  split; [exact HP |]. split; [exact Hvq |]. split; [exact HL |].
  split; [exact Hc |].
  unfold _rule_frequencia_maxima. usar_pedido Hped.
  rewrite Hlk, HP. cbn [item bind lower_method]. rewrite Hvq.
  cbn [item bind]. rewrite HL. cbn [bind].
  rewrite count_in_period_lower, Hc. cbn [bind].
  split; reflexivity.
Qed.

Lemma rule_frequencia_maxima_sem_regra self ctx t q data_sol hist :
  pedido ctx t q data_sol hist ->
  lookup t (_freq_max self) = None ->
  exists r,
    _rule_frequencia_maxima self ctx = Ok r /\ conforme r = true /\
    evidencias r = Some [("atual_no_periodo", PInt 0); ("limite", PNone)].
Proof.
  intros Hped Hlk. unfold _rule_frequencia_maxima. usar_pedido Hped.
  rewrite Hlk. eexists. split; [reflexivity |]. split; reflexivity.
Qed.

(** C2. For a therapy type with a [frequencia_maxima] entry of period [P] and
    limit [L], the FrequencyMax rule is compliant iff
    [countInPeriod(history, type, P, requestDate) + requestedQuantity <= L],
    where the count is the number of history records of the type whose
    period key is that of the request date: a projected total equal to [L]
    is compliant, [L + 1] is not. For a type without entry the rule is
    compliant with evidence [{atual_no_periodo: 0, limite: None}]. *)
Theorem frequencia_maxima_limite
    arquivo cfg path self ctx t q data_sol hist :
  init arquivo cfg path = Ok self ->
  pedido ctx t q data_sol hist ->
  historico_legivel t hist ->
  (forall regra P vq L,
      lookup t (_freq_max self) = Some regra ->
      cfg_periodo regra = Some (PStr P) ->
      cfg_quantidade regra = Some vq -> int vq = Ok L ->
      exists kref r,
        _period_key data_sol P = Ok kref /\
        let consumed :=
          Z.of_nat (List.length (filter (no_periodo t P kref) hist)) in
        _count_in_period hist t P data_sol = Ok consumed /\
        (forall s, no_periodo t P kref s = true <->
                   sessao_tipo s = Some t /\
                   exists d, data_da_sessao s = Some d /\
                             _period_key d P = Ok kref) /\
        _rule_frequencia_maxima self ctx = Ok r /\
        (conforme r = true <-> consumed + q <= L) /\
        (consumed + q = L -> conforme r = true) /\
        (consumed + q = L + 1 -> conforme r = false)) /\
  (lookup t (_freq_max self) = None ->
   exists r,
     _rule_frequencia_maxima self ctx = Ok r /\ conforme r = true /\
     evidencias r = Some [("atual_no_periodo", PInt 0); ("limite", PNone)]).
Proof.
  intros Hinit Hped Hleg. split.
  - intros regra P vq L Hlk HP Hvq HL.
    destruct (rule_frequencia_maxima_configurada _ _ _ _ _ _ _ _ _ _
                Hinit Hped Hleg Hlk)
      as (P' & vq' & L' & consumed & r & HP' & Hvq' & HL' & Hc & Hr & Hconf).
    assert (P' = P) by congruence. assert (vq' = vq) by congruence.
    subst P' vq'. assert (L' = L) by congruence. subst L'.
    assert (Hk : exists kref, _period_key data_sol P = Ok kref).
    { destruct (_period_key data_sol P) as [k |] eqn:Hk; [eauto |].
      unfold _count_in_period in Hc. rewrite Hk in Hc. discriminate. }
    destruct Hk as [kref Hk].
    pose proof (count_in_period_spec hist t P data_sol kref Hk Hleg) as Hspec.
    rewrite Hspec in Hc. injection Hc as <-.
    exists kref, r. split; [exact Hk |]. cbv zeta.
    split; [exact Hspec |]. split; [intros s; apply no_periodo_true |].
    split; [exact Hr |].
    rewrite Hconf, Z.leb_le. split; [tauto |]. split; intros H.
    + lia.
    + apply Z.leb_gt. lia.
  - intros Hlk.
    exact (rule_frequencia_maxima_sem_regra self ctx t q data_sol hist Hped Hlk).
Qed.

(* ---------- MinimumInterval ---------- *)

(** C3. MinimumInterval, with [min_days] the configured number of days
    ([int(self._int_min.get(tipo, 0))], 0 when unset). With [min_days <= 0]
    the rule is compliant; so it is when no session of the type is dated on or
    before the request date. Otherwise, with [last] the date of the latest
    such session, the rule is compliant iff
    [requestDate - last >= min_days] and ([requestedQuantity = 1] or
    [min_days = 0]); hence every request for more than one session is
    non-compliant on this branch. *)
Theorem intervalo_minimo_decisao self ctx t q data_sol hist min_days :
  pedido ctx t q data_sol hist ->
  int (get (lookup t (_int_min self)) (PInt 0)) = Ok min_days ->
  (lookup t (_int_min self) = None -> min_days = 0) /\
  (min_days <= 0 ->
   exists r, _rule_intervalo_minimo self ctx = Ok r /\ conforme r = true) /\
  (0 < min_days -> historico_legivel t hist ->
   (forall s d, In s hist -> sessao_tipo s = Some t ->
                data_da_sessao s = Some d -> date_leb d data_sol = false) ->
   exists r, _rule_intervalo_minimo self ctx = Ok r /\ conforme r = true) /\
  (0 < min_days -> historico_legivel t hist ->
   (exists s d, In s hist /\ sessao_tipo s = Some t /\
                data_da_sessao s = Some d /\ date_leb d data_sol = true) ->
   exists r last,
     _rule_intervalo_minimo self ctx = Ok r /\
     _last_session_date hist t data_sol = Ok (Some last) /\
     date_leb last data_sol = true /\
     (exists s, In s hist /\ sessao_tipo s = Some t /\
                data_da_sessao s = Some last) /\
     (forall s d, In s hist -> sessao_tipo s = Some t ->
                  data_da_sessao s = Some d -> date_leb d data_sol = true ->
                  date_leb d last = true) /\
     (conforme r = true <->
      min_days <= days_between data_sol last /\ (q = 1 \/ min_days = 0)) /\
     (1 < q -> conforme r = false)).
Proof.
  intros Hped Hint. split; [| split; [| split]].
  - intros Hnone. rewrite Hnone in Hint. now injection Hint as <-.
  - intros Hmin. unfold _rule_intervalo_minimo. usar_pedido Hped.
    rewrite Hint. cbn [bind].
    apply Z.leb_le in Hmin. rewrite Hmin. eexists. split; reflexivity.
  - intros Hmin Hleg Hnone. unfold _rule_intervalo_minimo. usar_pedido Hped.
    rewrite Hint. cbn [bind].
    apply Z.leb_gt in Hmin. rewrite Hmin.
    destruct (last_session_date_spec hist t data_sol Hleg) as (r & Hr & Hspec).
    rewrite Hr. cbn [bind]. destruct r as [last |].
    + destruct Hspec as (Hle & (s & Hin & Ht & Hd) & _).
      rewrite (Hnone s last Hin Ht Hd) in Hle. discriminate.
    + eexists. split; reflexivity.
  - intros Hmin Hleg (s & d & Hin & Ht & Hd & Hle).
    unfold _rule_intervalo_minimo. usar_pedido Hped.
    rewrite Hint. cbn [bind].
    pose proof Hmin as Hmin'. apply Z.leb_gt in Hmin'. rewrite Hmin'.
    destruct (last_session_date_spec hist t data_sol Hleg) as (r & Hr & Hspec).
    rewrite Hr. cbn [bind]. destruct r as [last |].
    + destruct Hspec as (Hlast & Hsess & Hmax).
      eexists; exists last. split; [reflexivity |]. split; [reflexivity |].
      split; [exact Hlast |]. split; [exact Hsess |].
      split; [exact Hmax |]. cbn [conforme].
      rewrite andb_true_iff, orb_true_iff, Z.leb_le, !Z.eqb_eq.
      split; [tauto |]. intros Hgt.
      apply andb_false_iff. right. apply orb_false_iff.
      split; apply Z.eqb_neq; lia.
    + rewrite (Hspec s d Hin Ht Hd) in Hle. discriminate.
Qed.

(* ---------- same-day prior session ---------- *)

(** C10. A history session of the requested type dated on the request date
    is the last session on or before it, the day gap is 0, and the
    MinimumInterval and ForbiddenRepetitionWindow rules are non-compliant
    whenever their configured number of days is strictly positive. *)
Theorem sessao_no_mesmo_dia_viola_intervalos self ctx t q data_sol hist :
  pedido ctx t q data_sol hist ->
  historico_legivel t hist ->
  (exists s, In s hist /\ sessao_tipo s = Some t /\
             data_da_sessao s = Some data_sol) ->
  _last_session_date hist t data_sol = Ok (Some data_sol) /\
  days_between data_sol data_sol = 0 /\
  (forall min_days,
      int (get (lookup t (_int_min self)) (PInt 0)) = Ok min_days ->
      0 < min_days ->
      exists r, _rule_intervalo_minimo self ctx = Ok r /\ conforme r = false /\
        exists ev, evidencias r = Some ev /\
                   lookup "dias_desde_ultima" ev = Some (PInt 0)) /\
  (forall janela,
      int (get (lookup t (_rep_proib self)) (PInt 0)) = Ok janela ->
      0 < janela ->
      exists r, _rule_repeticao_proibida self ctx = Ok r /\ conforme r = false /\
        exists ev, evidencias r = Some ev /\
                   lookup "dias_desde_ultima" ev = Some (PInt 0)).
Proof.
  intros Hped Hleg (s & Hin & Ht & Hd).
  assert (Hlast : _last_session_date hist t data_sol = Ok (Some data_sol)).
  { destruct (last_session_date_spec hist t data_sol Hleg) as (r & Hr & Hspec).
    rewrite Hr. destruct r as [last |].
    - destruct Hspec as (Hle & _ & Hmax).
      pose proof (Hmax s data_sol Hin Ht Hd (date_leb_refl data_sol)) as Hge.
      now rewrite (date_leb_antisym _ _ Hle Hge).
    - pose proof (date_leb_refl data_sol) as Hrefl.
      rewrite (Hspec s data_sol Hin Ht Hd) in Hrefl. discriminate. }
  assert (Hzero : days_between data_sol data_sol = 0)
    by (unfold days_between; lia).
  split; [exact Hlast |]. split; [exact Hzero |]. split.
  - intros min_days Hint Hmin. unfold _rule_intervalo_minimo. usar_pedido Hped.
    rewrite Hint. cbn [bind].
    pose proof Hmin as Hmin'. apply Z.leb_gt in Hmin'. rewrite Hmin'.
    rewrite Hlast. cbn [bind]. rewrite Hzero.
    eexists. split; [reflexivity |]. cbn [conforme evidencias]. split.
    + rewrite Hmin'. reflexivity.
    + eexists. split; reflexivity.
  - intros janela Hint Hmin. unfold _rule_repeticao_proibida. usar_pedido Hped.
    rewrite Hint. cbn [bind].
    pose proof Hmin as Hmin'. apply Z.leb_gt in Hmin'. rewrite Hmin'.
    rewrite Hlast. cbn [bind]. rewrite Hzero.
    eexists. split; [reflexivity |]. cbn [conforme evidencias]. split.
    + exact Hmin'.
    + eexists. split; reflexivity.
Qed.

(* ---------- period keys ---------- *)

Lemma period_key_semanal dt :
  _period_key dt "semanal" =
  Ok [fst (fst (isocalendar dt)); snd (fst (isocalendar dt))].
Proof.
  unfold _period_key, _week_year_key. cbn.
  destruct (isocalendar dt) as [[y w] wd]. reflexivity.
Qed.

Lemma isocalendar_jan1 y :
  let '(Y, W, _) := isocalendar (mkdate y 1 1) in
  (Y = y /\ W = 1) \/ (Y = y - 1 /\ 52 <= W).
Proof.
  unfold isocalendar, toordinal. cbn [year month day]. fold (jan1 y).
  pose proof (week1_thursday y) as [Hm0 Hw0].
  pose proof (week1_thursday (y - 1)) as [Hm1 Hw1].
  pose proof (jan1_step (y - 1)) as Hs1.
  replace (y - 1 + 1) with y in Hs1 by lia.
  assert (Hl1 : 365 <= jan1 y - jan1 (y - 1) <= 366)
    by (destruct (_is_leap (y - 1)); lia).
  clear Hs1.
  destruct (Z.ltb_spec ((jan1 y - _isoweek1monday y) / 7) 0) as [Hneg | Hpos].
  - right. split; [reflexivity |]. Z.div_mod_to_equations; lia.
  - assert (H0 : (jan1 y - _isoweek1monday y) / 7 = 0)
      by (Z.div_mod_to_equations; lia).
    rewrite H0. cbn. left. split; reflexivity.
Qed.

(** C4. The weekly period key is the ISO pair (ISO year, ISO week): the ISO
    year is the calendar year that contains the Thursday of the date's week;
    two dates of the same ISO week have equal weekly keys; a January 1st in
    ISO week 52 or 53 carries the previous calendar year. Daily keys are
    (year, month, day), monthly (year, month), annual (year,). *)
Theorem chave_semanal_iso :
  (forall dt,
      _period_key dt "semanal" =
      Ok [fst (fst (isocalendar dt)); snd (fst (isocalendar dt))]) /\
  (forall dt Y W,
      date_valid dt = true -> _period_key dt "semanal" = Ok [Y; W] ->
      jan1 Y <= monday_of dt + 3 < jan1 (Y + 1) /\
      W = (monday_of dt + 3 - jan1 Y) / 7 + 1) /\
  (forall a b,
      date_valid a = true -> date_valid b = true -> same_iso_week a b ->
      _period_key a "semanal" = _period_key b "semanal") /\
  (forall y Y W,
      _period_key (mkdate y 1 1) "semanal" = Ok [Y; W] ->
      W = 52 \/ W = 53 -> Y = y - 1) /\
  (forall dt, _period_key dt "diario" = Ok [year dt; month dt; day dt]) /\
  (forall dt, _period_key dt "mensal" = Ok [year dt; month dt]) /\
  (forall dt, _period_key dt "anual" = Ok [year dt]).
Proof.
  assert (Hthu : forall dt Y W,
             date_valid dt = true -> _period_key dt "semanal" = Ok [Y; W] ->
             jan1 Y <= monday_of dt + 3 < jan1 (Y + 1) /\
             W = (monday_of dt + 3 - jan1 Y) / 7 + 1).
  { intros dt Y W Hv. rewrite period_key_semanal.
    pose proof (isocalendar_thursday dt Hv) as H.
    destruct (isocalendar dt) as [[y w] wd]. cbn [fst snd].
    intros [= <- <-]. tauto. }
  split; [exact period_key_semanal |]. split; [exact Hthu |].
  split; [| split; [| repeat split]].
  - intros a b Ha Hb Hw.
    destruct (Hthu a _ _ Ha (period_key_semanal a)) as [Hya Hwa].
    destruct (Hthu b _ _ Hb (period_key_semanal b)) as [Hyb Hwb].
    rewrite !period_key_semanal. unfold same_iso_week in Hw.
    rewrite Hw in Hya, Hwa.
    pose proof (jan1_unique _ _ _ Hya Hyb) as Hy.
    rewrite Hy in *. now rewrite Hwa, Hwb.
  - intros y Y W. rewrite period_key_semanal.
    pose proof (isocalendar_jan1 y) as H.
    destruct (isocalendar (mkdate y 1 1)) as [[y' w'] wd]. cbn [fst snd].
    intros [= <- <-]. lia.
Qed.

Lemma chave_semanal_iso_witness :
  (date_valid (mkdate 2024 12 30) = true /\
   date_valid (mkdate 2025 1 1) = true /\
   same_iso_week (mkdate 2024 12 30) (mkdate 2025 1 1)) /\
  _period_key (mkdate 2024 12 30) "semanal"
    = _period_key (mkdate 2025 1 1) "semanal" /\
  _period_key (mkdate 2021 1 1) "semanal" = Ok [2020; 53] /\
  2020 = 2021 - 1.
Proof.
  destruct chave_semanal_iso as (_ & _ & Hsame & Hjan & _).
  split; [repeat split |]. split; [| split].
  - apply Hsame; reflexivity.
  - reflexivity.
  - apply (Hjan 2021 2020 53); [reflexivity | right; reflexivity].
Defined.

(* ---------- countInPeriod ---------- *)

(** C9. [_count_in_period] returns the number of history records of the
    given type whose period key equals the key of the reference date, and
    appending one record of that type in the same bucket raises the count by
    exactly one. *)
Theorem count_in_period_conta_e_cresce h t p data_ref kref :
  _period_key data_ref p = Ok kref ->
  historico_legivel t h ->
  let n := Z.of_nat (List.length (filter (no_periodo t p kref) h)) in
  _count_in_period h t p data_ref = Ok n /\
  (forall s, no_periodo t p kref s = true <->
             sessao_tipo s = Some t /\
             exists d, data_da_sessao s = Some d /\
                       _period_key d p = _period_key data_ref p) /\
  (forall s d,
      sessao_tipo s = Some t -> data_da_sessao s = Some d ->
      _period_key d p = _period_key data_ref p ->
      _count_in_period (h ++ [s])%list t p data_ref = Ok (n + 1)).
Proof.
  intros Hk Hl n. subst n. split; [| split].
  - now apply count_in_period_spec.
  - intros s. rewrite Hk. apply no_periodo_true.
  - intros s d Ht Hd Hkd. rewrite Hk in Hkd.
    rewrite (count_in_period_spec (h ++ [s])%list t p data_ref kref Hk).
    + rewrite filter_app, length_app. cbn [filter].
      assert (Hnp : no_periodo t p kref s = true)
        by (apply no_periodo_true; eauto).
      rewrite Hnp. cbn [List.length]. f_equal. lia.
    + intros s' Hin Ht'. apply in_app_or in Hin as [Hin | [<- | []]].
      * now apply Hl.
      * eauto.
Qed.

(* ---------- errors of strptime ---------- *)

Lemma append_assoc_s a b c : (a ++ b) ++ c = a ++ (b ++ c).
Proof. induction a as [| x a IH]; simpl; [reflexivity | now rewrite IH]. Qed.

Lemma alt2_resto v lo hi s x r :
  In (x, r) (alt2 v lo hi s) -> exists lido, s = lido ++ r.
Proof.
  unfold alt2. destruct s as [| c1 [| c2 s]]; try (intros H; now destruct H).
  destruct (in_range v v c1), (in_range lo hi c2);
    try (intros H; now destruct H).
  intros [[= _ <-] | []]. now exists (String c1 (String c2 "")).
Qed.

Lemma alt1_resto s x r : In (x, r) (alt1 s) -> exists lido, s = lido ++ r.
Proof.
  unfold alt1. destruct s as [| c s]; [intros H; now destruct H |].
  destruct (in_range 1 9 c); [| intros H; now destruct H].
  intros [[= _ <-] | []]. now exists (String c "").
Qed.

Lemma alt_blank_resto s x r :
  In (x, r) (alt_blank s) -> exists lido, s = lido ++ r.
Proof.
  unfold alt_blank. destruct s as [| c s]; [intros H; now destruct H |].
  destruct (Ascii.eqb_spec c " ") as [-> | Hne].
  - intros H. apply alt1_resto in H as [lido ->].
    now exists (String " " lido).
  - destruct c as [[] [] [] [] [] [] [] []];
      try (intros H; now destruct H).
    now destruct Hne.
Qed.

Lemma month_alts_resto s x r :
  In (x, r) (month_alts s) -> exists lido, s = lido ++ r.
Proof.
  unfold month_alts. intros H.
  repeat (apply in_app_or in H as [H | H]);
    eauto using alt2_resto, alt1_resto.
Qed.

Lemma day_alts_resto s x r :
  In (x, r) (day_alts s) -> exists lido, s = lido ++ r.
Proof.
  unfold day_alts. intros H.
  repeat (apply in_app_or in H as [H | H]);
    eauto using alt2_resto, alt1_resto, alt_blank_resto.
Qed.

Lemma then_hyphen_in alts m r :
  then_hyphen alts = Some (m, r) -> In (m, String "-" r) alts.
Proof.
  induction alts as [| [v s] alts IH]; simpl; [discriminate |].
  destruct s as [| c s]; [intros H; right; auto |].
  destruct (Ascii.eqb_spec c "-") as [-> | Hne].
  - intros [= <- <-]. now left.
  - destruct c as [[] [] [] [] [] [] [] []];
      intros H; right; now apply IH.
Qed.

(** The three ways [strptime] fails: the string does not match the format;
    it matches and something is left after the match; it matches to its end
    and the fields are not a date of the calendar. *)
Lemma strptime_err s e :
  strptime s = Err e ->
  e = ValueError (DataForaDoFormato s) \/
  (exists lido resto,
      e = ValueError (DadosNaoConvertidos resto) /\ resto <> "" /\
      s = lido ++ resto) \/
  e = ValueError DataForaDoCalendario.
Proof.
  unfold strptime.
  destruct s as [| y1 [| y2 [| y3 [| y4 [| h r]]]]];
    try (intros [= <-]; now left).
  destruct (Ascii.eqb_spec h "-") as [-> | Hne].
  - destruct (digit y1), (digit y2), (digit y3), (digit y4);
      try (intros [= <-]; now left).
    destruct (then_hyphen (month_alts r)) as [[m r'] |] eqn:Hm;
      [| intros [= <-]; now left].
    apply then_hyphen_in, month_alts_resto in Hm as [lido1 ->].
    destruct (day_alts r') as [| [dd resto] alts] eqn:Hd;
      [intros [= <-]; now left |].
    assert (Hin : In (dd, resto) (day_alts r')) by (rewrite Hd; now left).
    apply day_alts_resto in Hin as [lido2 ->].
    destruct resto as [| c resto].
    + destruct (date_valid _); [discriminate |]. intros [= <-]. auto.
    + intros [= <-]. right. left.
      exists (String y1 (String y2 (String y3 (String y4 (String "-"
                (lido1 ++ String "-" lido2)))))), (String c resto).
      split; [reflexivity |]. split; [discriminate |].
      cbn [append]. do 5 f_equal.
      rewrite append_assoc_s. cbn [append]. reflexivity.
  - destruct h as [[] [] [] [] [] [] [] []];
      try (intros [= <-]; now left).
    now destruct Hne.
Qed.

(* ---------- errors of the frequency rules ---------- *)

Lemma parse_date_err raw e : _parse_date raw = Err e -> erro_de_leitura e.
Proof.
  destruct raw as [s | d | d h]; simpl; try discriminate.
  intros H. right. left. unfold erro_de_data.
  apply strptime_err in H as [-> | [(lido & resto & -> & _) | ->]]; eauto.
Qed.

Lemma item_err_contexto {A : Type} k (o : option A) e :
  In k ["procedimento"; "tipo"; "data_solicitacao"; "data"] ->
  item k o = Err e -> erro_de_leitura e.
Proof.
  intros Hk. destruct o; simpl; [discriminate |]. intros [= <-]. left. eauto.
Qed.

Lemma int_err v e : int v = Err e -> erro_de_leitura e.
Proof.
  unfold erro_de_leitura, erro_de_int.
  destruct v as [| b | z | s]; simpl; try discriminate.
  - intros [= <-]. eauto.
  - destruct (int_of_str s); [discriminate |]. intros [= <-]. eauto.
Qed.

Lemma for_each_err {S A : Type} (P : exn -> Prop) (body : S -> A -> result S) xs :
  (forall s x e, body s x = Err e -> P e) ->
  forall s e, for_each body xs s = Err e -> P e.
Proof.
  intros Hb. induction xs as [| x xs IH]; intros s e; simpl; [discriminate |].
  destruct (body s x) as [s' | e'] eqn:Hbx.
  - apply IH.
  - intros [= <-]. eapply Hb; eassumption.
Qed.

Lemma bind_err {A B : Type} (m : result A) (k : A -> result B) e :
  bind m k = Err e -> m = Err e \/ exists a, m = Ok a /\ k a = Err e.
Proof.
  destruct m as [a | e']; simpl; intros H.
  - right. exists a. auto.
  - left. now injection H as <-.
Qed.

Lemma bind_ok {A B : Type} (m : result A) (k : A -> result B) b :
  bind m k = Ok b -> exists a, m = Ok a /\ k a = Ok b.
Proof. destruct m; simpl; [eauto | discriminate]. Qed.

Ltac contexto_chave :=
  eapply item_err_contexto; [| eassumption]; simpl; tauto.

Lemma sessao_data_err s e :
  (raw <- item "data" (sessao_data s);; _parse_date raw) = Err e ->
  erro_de_leitura e.
Proof.
  intros H. apply bind_err in H as [H | (raw & _ & H)].
  - contexto_chave.
  - eapply parse_date_err; eassumption.
Qed.

Lemma count_in_period_err h t p data_ref e :
  mem (lower p) PERIODOS_SUPORTADOS = true ->
  _count_in_period h t p data_ref = Err e -> erro_de_leitura e.
Proof.
  intros Hsup. unfold _count_in_period.
  destruct (proj2 (period_key_ok_iff data_ref p) Hsup) as [kref ->].
  cbn [bind]. apply for_each_err. clear e. intros c s e.
  destruct (negb (tipo_eqb (sessao_tipo s) t)); [discriminate |].
  intros H. apply bind_err in H as [H | (raw & _ & H)]; [contexto_chave |].
  apply bind_err in H as [H | (d & _ & H)];
    [eapply parse_date_err; eassumption |].
  destruct (proj2 (period_key_ok_iff d p) Hsup) as [k Hk].
  rewrite Hk in H. discriminate.
Qed.

Lemma last_session_date_err h t ate e :
  _last_session_date h t ate = Err e -> erro_de_leitura e.
Proof.
  unfold _last_session_date. intros H.
  apply bind_err in H as [H | (datas & _ & H)]; [| discriminate].
  revert H. apply for_each_err. clear e. intros datas s e.
  destruct (negb (tipo_eqb (sessao_tipo s) t)); [discriminate |].
  intros H. apply bind_err in H as [H | (raw & _ & H)]; [contexto_chave |].
  apply bind_err in H as [H | (d & _ & H)];
    [eapply parse_date_err; eassumption |].
  destruct (date_leb d ate); [| discriminate].
  apply bind_err in H as [H | (raw' & _ & H)]; [contexto_chave |].
  apply bind_err in H as [H | (d' & _ & H)];
    [eapply parse_date_err; eassumption | discriminate].
Qed.

Lemma same_day_count_err h t data_ref e :
  _same_day_count h t data_ref = Err e -> erro_de_leitura e.
Proof.
  unfold _same_day_count. apply for_each_err. clear e. intros c s e.
  destruct (negb (tipo_eqb (sessao_tipo s) t)); [discriminate |].
  intros H. apply bind_err in H as [H | (raw & _ & H)]; [contexto_chave |].
  apply bind_err in H as [H | (d & _ & H)];
    [eapply parse_date_err; eassumption | discriminate].
Qed.

(** The four rules read the request the same way; an error there is an
    error of reading. *)
Ltac ler_data H :=
  apply bind_err in H as [H | (?raw & _ & H)]; [contexto_chave |];
  apply bind_err in H as [H | (?data_sol & _ & H)];
    [eapply parse_date_err; eassumption |].

Ltac ler_tipo H :=
  apply bind_err in H as [H | (?proc & _ & H)]; [contexto_chave |];
  apply bind_err in H as [H | (?tipo & _ & H)]; [contexto_chave |].

Ltac ler_pedido H :=
  ler_tipo H;
  apply bind_err in H as [H | (?qtd_solic & _ & H)];
    [eapply int_err; eassumption |];
  ler_data H.

Lemma rule_frequencia_maxima_err arquivo cfg path self ctx e :
  init arquivo cfg path = Ok self ->
  _rule_frequencia_maxima self ctx = Err e -> erro_de_leitura e.
Proof.
  intros Hinit H. unfold _rule_frequencia_maxima in H. ler_pedido H.
  destruct (lookup _ (_freq_max self)) as [regra |] eqn:Hlk; [| discriminate].
  destruct (init_ok_lookup _ _ _ _ _ _ Hinit Hlk) as [(p & Hp & Hsup) Hq].
  apply quantidade_aceita_int in Hq as (v & L & Hv & HL & _).
  rewrite Hp, Hv in H. cbn [item bind lower_method] in H.
  rewrite HL in H. cbn [bind] in H.
  apply bind_err in H as [H | (c & _ & H)]; [| discriminate].
  apply count_in_period_err in H; [exact H |].
  rewrite lower_idem. now apply mem_In.
Qed.

Lemma rule_intervalo_minimo_err self ctx e :
  _rule_intervalo_minimo self ctx = Err e -> erro_de_leitura e.
Proof.
  intros H. unfold _rule_intervalo_minimo in H. ler_pedido H.
  apply bind_err in H as [H | (min_days & _ & H)];
    [eapply int_err; eassumption |].
  destruct (_ <=? 0); [discriminate |].
  apply bind_err in H as [H | (last & _ & H)].
  - eapply last_session_date_err; eassumption.
  - destruct last; discriminate.
Qed.

Lemma rule_repeticao_proibida_err self ctx e :
  _rule_repeticao_proibida self ctx = Err e -> erro_de_leitura e.
Proof.
  intros H. unfold _rule_repeticao_proibida in H. ler_tipo H. ler_data H.
  apply bind_err in H as [H | (janela & _ & H)];
    [eapply int_err; eassumption |].
  destruct (_ <=? 0); [discriminate |].
  apply bind_err in H as [H | (last & _ & H)].
  - eapply last_session_date_err; eassumption.
  - destruct last; discriminate.
Qed.

Lemma rule_mesmo_dia_err self ctx e :
  _rule_mesmo_dia self ctx = Err e -> erro_de_leitura e.
Proof.
  intros H. unfold _rule_mesmo_dia in H. ler_pedido H.
  destruct (mem _ (_no_same_day self)); [| discriminate].
  apply bind_err in H as [H | (n & _ & H)]; [| discriminate].
  eapply same_day_count_err; eassumption.
Qed.

Lemma validar_err arquivo cfg path self ctx e :
  init arquivo cfg path = Ok self ->
  validar self ctx = Err e -> erro_de_leitura e.
Proof.
  intros Hinit H. unfold validar in H.
  apply bind_err in H as [H | (r1 & _ & H)];
    [eapply rule_frequencia_maxima_err; eassumption |].
  apply bind_err in H as [H | (r2 & _ & H)];
    [eapply rule_intervalo_minimo_err; eassumption |].
  apply bind_err in H as [H | (r3 & _ & H)];
    [eapply rule_repeticao_proibida_err; eassumption |].
  apply bind_err in H as [H | (r4 & _ & H)];
    [eapply rule_mesmo_dia_err; eassumption | discriminate].
Qed.

Lemma erro_de_leitura_suportado e p :
  erro_de_leitura e -> e <> ValueError (PeriodoNaoSuportado p).
Proof.
  intros [(k & -> & _) | [[(s & ->) | [(s & ->) | ->]] | [(s & ->) | (v & ->)]]];
    discriminate.
Qed.

(* ---------- construction of the frequency engine ---------- *)

Lemma init_some arquivo cfg path :
  init arquivo (Some cfg) path =
  (_ <- for_each init_item (get (frequencia_maxima cfg) []) tt;;
   Ok {| config := cfg;
         _freq_max := get (frequencia_maxima cfg) [];
         _int_min := get (intervalo_minimo_dias cfg) [];
         _rep_proib := get (periodo_repeticao_proibida cfg) [];
         _no_same_day := get (nao_permitir_mesmo_dia cfg) [] |}).
Proof. reflexivity. Qed.

(** C5, as amended. Constructing the frequency engine from a configuration
    fails with a configuration error naming a therapy type iff some
    [frequencia_maxima] entry has a period that, lower-cased, is not one of
    diario, semanal, mensal, anual, or a quantity that is not a non-negative
    integer; the type named is that of such an entry. When construction
    succeeds, every configured type has a supported period and a
    non-negative integer limit, its period key exists for every date, and no
    call of [validar] raises the unsupported-period error of
    [_period_key]. *)
Theorem init_valida_frequencia_maxima arquivo cfg path :
  let items := get (frequencia_maxima cfg) [] in
  ((exists tipo, falha_nomeando (init arquivo (Some cfg) path) tipo) <->
   Exists (fun it => ~ entrada_valida (snd it)) items) /\
  (forall tipo, falha_nomeando (init arquivo (Some cfg) path) tipo ->
     exists regra, In (tipo, regra) items /\ ~ entrada_valida regra) /\
  (forall self, init arquivo (Some cfg) path = Ok self ->
     (forall t regra, lookup t (_freq_max self) = Some regra ->
        exists P vq L,
          cfg_periodo regra = Some (PStr P) /\
          In (lower P) PERIODOS_SUPORTADOS /\
          cfg_quantidade regra = Some vq /\ int vq = Ok L /\ 0 <= L /\
          forall dt, exists k, _period_key dt (lower P) = Ok k) /\
     (forall ctx e p, validar self ctx = Err e ->
                      e <> ValueError (PeriodoNaoSuportado p))).
Proof.
  intros items.
  assert (Hnome : forall tipo,
             falha_nomeando (init arquivo (Some cfg) path) tipo ->
             exists regra, In (tipo, regra) items /\ ~ entrada_valida regra).
  { intros tipo Hf. rewrite init_some in Hf. fold items in Hf.
    destruct (for_each init_item items tt) as [u | e] eqn:Hl.
    - destruct Hf as [[p Hf] | [v Hf]]; discriminate.
    - apply init_loop_err in Hl as (t' & regra & Hin & Hn & He).
      cbn [bind] in Hf. exists regra. split; [| exact Hn].
      destruct Hf as [[p Hf] | [v Hf]], He as [[p' He] | [v' He]];
        congruence. }
  split; [split |]; [| | split; [exact Hnome |]].
  - intros [tipo Hf]. destruct (Hnome tipo Hf) as (regra & Hin & Hn).
    apply Exists_exists. exists (tipo, regra). auto.
  - intros Hex. rewrite init_some. fold items.
    destruct (for_each init_item items tt) as [u | e] eqn:Hl.
    + destruct u. apply init_loop_ok in Hl.
      apply Exists_exists in Hex as (it & Hin & Hn).
      rewrite Forall_forall in Hl. destruct (Hn (Hl it Hin)).
    + apply init_loop_err in Hl as (tipo & regra & _ & _ & He).
      exists tipo. cbn [bind]. unfold falha_nomeando.
      destruct He as [[p ->] | [v ->]]; eauto.
  - intros self Hinit. split.
    + intros t regra Hlk.
      destruct (init_ok_lookup _ _ _ _ _ _ Hinit Hlk) as [(P & HP & Hsup) Hq].
      apply quantidade_aceita_int in Hq as (vq & L & Hvq & HL & HL0).
      exists P, vq, L. repeat (split; [assumption |]).
      intros dt. apply period_key_ok_iff. rewrite lower_idem.
      now apply mem_In.
    + intros ctx e p Hv. apply erro_de_leitura_suportado.
      eapply validar_err; eassumption.
Qed.

(** The period written "MENSAL" is accepted, read as the monthly period with
    limit 10. *)
Lemma init_valida_frequencia_maxima_witness :
  exists self P vq L,
    init sem_arquivo (Some config_maiusculas) None = Ok self /\
    cfg_periodo {| cfg_periodo := Some (PStr "MENSAL");
                   cfg_quantidade := Some (PInt 10) |} = Some (PStr P) /\
    In (lower P) PERIODOS_SUPORTADOS /\
    cfg_quantidade {| cfg_periodo := Some (PStr "MENSAL");
                      cfg_quantidade := Some (PInt 10) |} = Some vq /\
    int vq = Ok L /\ 0 <= L.
Proof.
  destruct (init_valida_frequencia_maxima sem_arquivo config_maiusculas None)
    as (_ & _ & H).
  assert (Hi : exists self,
             init sem_arquivo (Some config_maiusculas) None = Ok self /\
             lookup "ABA" (_freq_max self)
             = Some {| cfg_periodo := Some (PStr "MENSAL");
                       cfg_quantidade := Some (PInt 10) |})
    by (eexists; split; reflexivity).
  destruct Hi as (self & Hi & Hlk).
  destruct (proj1 (H self Hi) "ABA" _ Hlk)
    as (P & vq & L & HP & Hsup & Hvq & HL & HL0 & _).
  exists self, P, vq, L. auto 8.
Defined.

(** C5, as stated, fails twice: the period "MENSAL" is outside the four
    supported names and construction succeeds; and a configuration whose
    minimum interval is the text "sete" is constructed without error and
    then fails inside [validar] with the [ValueError] of [int]. *)
Lemma init_aceita_maiusculas_e_intervalo_por_extenso :
  ~ ((exists tipo,
         falha_nomeando (init sem_arquivo (Some config_maiusculas) None) tipo) <->
     Exists (fun it => ~ entrada_valida_literal (snd it))
            (get (frequencia_maxima config_maiusculas) [])) /\
  (exists self,
      init sem_arquivo (Some config_intervalo_por_extenso) None = Ok self /\
      validar self (contexto_de None None "Fono" (Some 1) "2024-03-15" None)
      = Err (ValueError (IntInvalido "sete"))).
Proof.
  split.
  - intros [_ H].
    assert (Hex : Exists (fun it => ~ entrada_valida_literal (snd it))
                         (get (frequencia_maxima config_maiusculas) [])).
    { constructor. cbn. intros [(p & [= <-] & Hin) _].
      cbn in Hin. intuition discriminate. }
    destruct (H Hex) as [tipo [[p Hf] | [v Hf]]]; discriminate.
  - eexists. split; reflexivity.
Qed.

(* ---------- the reports ---------- *)

Lemma same_day_count_ok h t data_ref :
  historico_legivel t h -> exists n, _same_day_count h t data_ref = Ok n.
Proof.
  unfold _same_day_count. generalize 0.
  induction h as [| s h IH]; intros c Hl; cbn [for_each]; [eauto |].
  apply historico_legivel_cons in Hl as [Hs Hl].
  destruct (tipo_eqb (sessao_tipo s) t) eqn:Ht; cbn [negb]; [| now apply IH].
  apply tipo_eqb_true in Ht. destruct (Hs Ht) as [d Hd].
  apply data_da_sessao_some in Hd as (raw & Hraw & Hparse).
  rewrite Hraw. cbn [item bind]. rewrite Hparse. cbn [bind]. now apply IH.
Qed.

Lemma validar_frequencia_inv self ctx rep :
  validar self ctx = Ok rep ->
  exists r1 r2 r3 r4,
    _rule_frequencia_maxima self ctx = Ok r1 /\
    _rule_intervalo_minimo self ctx = Ok r2 /\
    _rule_repeticao_proibida self ctx = Ok r3 /\
    _rule_mesmo_dia self ctx = Ok r4 /\
    rep = {| rel_conforme :=
               conforme r1 && (conforme r2 && (conforme r3 && (conforme r4 && true)));
             regras := [("frequencia_maxima", r1); ("intervalo_minimo", r2);
                        ("repeticao_proibida", r3); ("mesmo_dia", r4)] |}.
Proof.
  unfold validar. intros H.
  apply bind_ok in H as (r1 & H1 & H). apply bind_ok in H as (r2 & H2 & H).
  apply bind_ok in H as (r3 & H3 & H). apply bind_ok in H as (r4 & H4 & H).
  injection H as <-. exists r1, r2, r3, r4. auto.
Qed.

Lemma validar_tea_inv self ctx rep :
  TEA.validar self ctx = Ok rep ->
  exists r1 r2 r3,
    TEA.regra_elegibilidade self ctx = Ok r1 /\
    TEA.regra_cobertura_tea self ctx = Ok r2 /\
    TEA.regra_limite_sessoes self ctx = Ok r3 /\
    rep = [("elegibilidade", TEA.VRegra r1); ("cobertura", TEA.VRegra r2);
           ("limites", TEA.VRegra r3);
           ("conforme",
            TEA.VBool (conforme r1 && (conforme r2 && (conforme r3 && true))))].
Proof.
  unfold TEA.validar, TEA.regras. cbn [for_each]. intros H.
  destruct (TEA.regra_elegibilidade self ctx) as [r1 |]; [| discriminate].
  cbn [bind TEA.setitem] in H.
  destruct (TEA.regra_cobertura_tea self ctx) as [r2 |]; [| discriminate].
  cbn in H.
  destruct (TEA.regra_limite_sessoes self ctx) as [r3 |]; [| discriminate].
  cbn in H. injection H as <-. exists r1, r2, r3. auto.
Qed.

Lemma rule_intervalo_minimo_retorna self ctx t q data_sol hist min_days :
  pedido ctx t q data_sol hist -> historico_legivel t hist ->
  int (get (lookup t (_int_min self)) (PInt 0)) = Ok min_days ->
  exists r, _rule_intervalo_minimo self ctx = Ok r.
Proof.
  intros Hped Hleg Hint. unfold _rule_intervalo_minimo.
  destruct (last_session_date_spec hist t data_sol Hleg) as (l & Hl & _).
  usar_pedido Hped. rewrite Hint. cbn [bind].
  destruct (min_days <=? 0); [eauto |].
  rewrite Hl. cbn [bind]. destruct l; eauto.
Qed.

Lemma rule_repeticao_proibida_retorna self ctx t q data_sol hist janela :
  pedido ctx t q data_sol hist -> historico_legivel t hist ->
  int (get (lookup t (_rep_proib self)) (PInt 0)) = Ok janela ->
  exists r, _rule_repeticao_proibida self ctx = Ok r.
Proof.
  intros Hped Hleg Hint. unfold _rule_repeticao_proibida.
  destruct (last_session_date_spec hist t data_sol Hleg) as (l & Hl & _).
  usar_pedido Hped. rewrite Hint. cbn [bind].
  destruct (janela <=? 0); [eauto |].
  rewrite Hl. cbn [bind]. destruct l; eauto.
Qed.

(** C1. Each engine's [validar] runs every rule of its registry without
    short-circuiting: a returned report holds exactly one result per rule, in
    registry order, each being what that rule returns on the context, and the
    top-level [conforme] flag is the conjunction of the per-rule flags.
    Whenever every rule returns, [validar] returns (whatever the verdicts);
    on a well-formed context under a constructed engine, the numbers of days
    configured for the type being values that [int] reads, every rule
    does. *)
Theorem validar_executa_todas_as_regras :
  (forall self ctx rep,
      validar self ctx = Ok rep ->
      map fst (regras rep) = nomes_frequencia /\
      (exists r1 r2 r3 r4,
          _rule_frequencia_maxima self ctx = Ok r1 /\
          _rule_intervalo_minimo self ctx = Ok r2 /\
          _rule_repeticao_proibida self ctx = Ok r3 /\
          _rule_mesmo_dia self ctx = Ok r4 /\
          map snd (regras rep) = [r1; r2; r3; r4]) /\
      rel_conforme rep = forallb conforme (map snd (regras rep))) /\
  (forall self ctx r1 r2 r3 r4,
      _rule_frequencia_maxima self ctx = Ok r1 ->
      _rule_intervalo_minimo self ctx = Ok r2 ->
      _rule_repeticao_proibida self ctx = Ok r3 ->
      _rule_mesmo_dia self ctx = Ok r4 ->
      validar self ctx =
      Ok {| rel_conforme := forallb conforme [r1; r2; r3; r4];
            regras := combine nomes_frequencia [r1; r2; r3; r4] |}) /\
  (forall arquivo cfg path self ctx t q data_sol hist min_days janela,
      init arquivo cfg path = Ok self ->
      pedido ctx t q data_sol hist -> historico_legivel t hist ->
      int (get (lookup t (_int_min self)) (PInt 0)) = Ok min_days ->
      int (get (lookup t (_rep_proib self)) (PInt 0)) = Ok janela ->
      exists rep, validar self ctx = Ok rep) /\
  (forall self ctx rep,
      TEA.validar self ctx = Ok rep ->
      exists r1 r2 r3,
        TEA.regra_elegibilidade self ctx = Ok r1 /\
        TEA.regra_cobertura_tea self ctx = Ok r2 /\
        TEA.regra_limite_sessoes self ctx = Ok r3 /\
        rep = (combine nomes_tea (map TEA.VRegra [r1; r2; r3])
                 ++ [("conforme", TEA.VBool (forallb conforme [r1; r2; r3]))])%list) /\
  (forall self ctx r1 r2 r3,
      TEA.regra_elegibilidade self ctx = Ok r1 ->
      TEA.regra_cobertura_tea self ctx = Ok r2 ->
      TEA.regra_limite_sessoes self ctx = Ok r3 ->
      exists rep, TEA.validar self ctx = Ok rep) /\
  (forall self ctx,
      contexto_tea_completo ctx -> exists rep, TEA.validar self ctx = Ok rep).
Proof.
  split; [| split; [| split; [| split; [| split]]]].
  - intros self ctx rep H.
    apply validar_frequencia_inv in H as (r1 & r2 & r3 & r4 & H1 & H2 & H3 & H4 & ->).
    cbn. split; [reflexivity |]. split; [| reflexivity].
    exists r1, r2, r3, r4. auto.
  - intros self ctx r1 r2 r3 r4 H1 H2 H3 H4. unfold validar.
    rewrite H1, H2, H3, H4. reflexivity.
  - intros arquivo cfg path self ctx t q data_sol hist min_days janela
      Hinit Hped Hleg Hmin Hjan.
    assert (H1 : exists r, _rule_frequencia_maxima self ctx = Ok r).
    { destruct (lookup t (_freq_max self)) as [regra |] eqn:Hlk.
      - destruct (rule_frequencia_maxima_configurada _ _ _ _ _ _ _ _ _ _
                    Hinit Hped Hleg Hlk)
          as (_ & _ & _ & _ & r & _ & _ & _ & _ & Hr & _).
        eauto.
      - destruct (rule_frequencia_maxima_sem_regra self _ _ _ _ _ Hped Hlk)
          as (r & Hr & _).
        eauto. }
    assert (H4 : exists r, _rule_mesmo_dia self ctx = Ok r).
    { unfold _rule_mesmo_dia.
      destruct (same_day_count_ok hist t data_sol Hleg) as (n & Hn).
      pose proof Hped as Hped'.
      usar_pedido Hped'. destruct (mem t (_no_same_day self)); [| eauto].
      rewrite Hn. cbn [bind]. eauto. }
    destruct (rule_intervalo_minimo_retorna self ctx t q data_sol hist
                min_days Hped Hleg Hmin) as [r2 H2].
    destruct (rule_repeticao_proibida_retorna self ctx t q data_sol hist
                janela Hped Hleg Hjan) as [r3 H3].
    destruct H1 as [r1 H1], H4 as [r4 H4].
    unfold validar. rewrite H1, H2, H3, H4. cbn [bind]. eauto.
  - intros self ctx rep H.
    apply validar_tea_inv in H as (r1 & r2 & r3 & H1 & H2 & H3 & ->).
    exists r1, r2, r3. auto.
  - intros self ctx r1 r2 r3 H1 H2 H3.
    unfold TEA.validar, TEA.regras. cbn [for_each].
    rewrite H1. cbn [bind]. rewrite H2. cbn [bind]. rewrite H3. cbn [bind].
    eauto.
  - intros self ctx (b & p & a & i & c & cd & t & q &
                     Hb & Ha & Hi & Hc & Hp & Hcd & Ht & Hq).
    unfold TEA.validar, TEA.regras. cbn [for_each].
    unfold TEA.regra_elegibilidade, TEA.regra_cobertura_tea,
      TEA.regra_limite_sessoes.
    rewrite Hb, Hp. cbn [item bind].
    rewrite Ha, Hi, Hc, Hcd, Ht, Hq. cbn [item bind].
    destruct (negb a); [| destruct (_ <? i); [| destruct (0 <? c)]];
      cbn [bind];
      (destruct (negb (existsb _ _));
       [| destruct (negb (existsb _ _))]; cbn [bind];
       (destruct (lookup t _);
        [cbn [gt_int isinstance_int int_value bind]; destruct (_ <? q) |];
        cbn [bind]; eauto)).
Qed.

(* ---------- when the aggregations fail ---------- *)

Lemma for_each_ok_inv {S A : Type} (P : A -> Prop) (body : S -> A -> result S) xs :
  (forall s x s', body s x = Ok s' -> P x) ->
  forall s r, for_each body xs s = Ok r -> Forall P xs.
Proof.
  intros Hb. induction xs as [| x xs IH]; intros s r; simpl; [constructor |].
  destruct (body s x) as [s' |] eqn:Hbx; [| discriminate].
  intros H. constructor; [eapply Hb; eassumption | eapply IH; eassumption].
Qed.

Lemma historico_legivel_Forall t h :
  historico_legivel t h <-> Forall (sessao_legivel t) h.
Proof.
  unfold historico_legivel, sessao_legivel. rewrite Forall_forall. tauto.
Qed.

Lemma leitura_ok_legivel s d :
  (raw <- item "data" (sessao_data s);; _parse_date raw) = Ok d ->
  data_da_sessao s = Some d.
Proof.
  unfold data_da_sessao. destruct (sessao_data s) as [raw |]; [| discriminate].
  cbn [item bind]. now intros ->.
Qed.

Lemma last_session_date_ok_legivel h t ate r :
  _last_session_date h t ate = Ok r -> historico_legivel t h.
Proof.
  unfold _last_session_date. intros H. apply bind_ok in H as (datas & H & _).
  apply historico_legivel_Forall. revert H. apply for_each_ok_inv.
  intros acc s acc' Hb Ht. apply tipo_eqb_true in Ht. rewrite Ht in Hb.
  cbn [negb] in Hb. apply bind_ok in Hb as (raw & Hraw & Hb).
  apply bind_ok in Hb as (d & Hd & _). exists d.
  apply leitura_ok_legivel. rewrite Hraw. exact Hd.
Qed.

Lemma same_day_count_ok_legivel h t d n :
  _same_day_count h t d = Ok n -> historico_legivel t h.
Proof.
  unfold _same_day_count. intros H.
  apply historico_legivel_Forall. revert H. apply for_each_ok_inv.
  intros acc s acc' Hb Ht. apply tipo_eqb_true in Ht. rewrite Ht in Hb.
  cbn [negb] in Hb. apply bind_ok in Hb as (raw & Hraw & Hb).
  apply bind_ok in Hb as (d' & Hd & _). exists d'.
  apply leitura_ok_legivel. rewrite Hraw. exact Hd.
Qed.

Lemma count_in_period_ok_legivel h t p d n :
  _count_in_period h t p d = Ok n -> historico_legivel t h.
Proof.
  unfold _count_in_period. intros H. apply bind_ok in H as (kref & _ & H).
  apply historico_legivel_Forall. revert H. apply for_each_ok_inv.
  intros acc s acc' Hb Ht. apply tipo_eqb_true in Ht. rewrite Ht in Hb.
  cbn [negb] in Hb. apply bind_ok in Hb as (raw & Hraw & Hb).
  apply bind_ok in Hb as (d' & Hd & _). exists d'.
  apply leitura_ok_legivel. rewrite Hraw. exact Hd.
Qed.

(* ---------- message and evidence of every result ---------- *)

Lemma append_nonempty_r s1 s2 : s2 <> "" -> s1 ++ s2 <> "".
Proof. destruct s1; simpl; [auto | discriminate]. Qed.

Ltac passo_ok H :=
  let x := fresh "x" in
  let Hx := fresh "Hx" in
  apply bind_ok in H as (x & Hx & H).

Lemma rule_frequencia_maxima_com_evidencias self ctx r :
  _rule_frequencia_maxima self ctx = Ok r -> com_evidencias r.
Proof.
  unfold _rule_frequencia_maxima. intros H. do 5 passo_ok H.
  destruct (lookup _ (_freq_max self)) as [regra |].
  - do 5 passo_ok H. injection H as <-. split; cbn [mensagem evidencias].
    + destruct (_ + _ <=? _); cbn; discriminate.
    + eauto.
  - injection H as <-. split; cbn; [discriminate | eauto].
Qed.

Lemma rule_intervalo_minimo_com_evidencias self ctx r :
  _rule_intervalo_minimo self ctx = Ok r -> com_evidencias r.
Proof.
  unfold _rule_intervalo_minimo. intros H. do 6 passo_ok H.
  destruct (_ <=? 0).
  - injection H as <-. split; cbn; [discriminate | eauto].
  - passo_ok H. destruct x5 as [last |]; injection H as <-.
    + split; cbn [mensagem evidencias].
      * destruct (negb _); cbn; discriminate.
      * eauto.
    + split; cbn; [discriminate | eauto].
Qed.

Lemma rule_repeticao_proibida_com_evidencias self ctx r :
  _rule_repeticao_proibida self ctx = Ok r -> com_evidencias r.
Proof.
  unfold _rule_repeticao_proibida. intros H. do 5 passo_ok H.
  destruct (_ <=? 0).
  - injection H as <-. split; cbn; [discriminate | eauto].
  - passo_ok H. destruct x4 as [last |]; injection H as <-.
    + split; cbn [mensagem evidencias].
      * destruct (_ <=? days_between _ _); cbn; discriminate.
      * eauto.
    + split; cbn; [discriminate | eauto].
Qed.

Lemma rule_mesmo_dia_com_evidencias self ctx r :
  _rule_mesmo_dia self ctx = Ok r -> com_evidencias r.
Proof.
  unfold _rule_mesmo_dia. intros H. do 5 passo_ok H.
  destruct (mem _ (_no_same_day self)).
  - passo_ok H. injection H as <-. split; cbn [mensagem evidencias].
    + destruct (_ + _ <=? 1); cbn; discriminate.
    + eauto.
  - injection H as <-. split; cbn; [discriminate | eauto].
Qed.

(** A rule that returns has read the request. *)
Lemma rule_frequencia_maxima_pedido self ctx r :
  _rule_frequencia_maxima self ctx = Ok r ->
  exists t q data_sol,
    pedido ctx t q data_sol (get (historico_sessoes ctx) []).
Proof.
  unfold _rule_frequencia_maxima, pedido. intros H.
  destruct (procedimento ctx) as [proc |]; [| discriminate].
  cbn [item bind] in H.
  destruct (tipo proc) as [t |] eqn:Ht; [| discriminate].
  cbn [item bind] in H.
  destruct (int (get (quantidade proc) (PInt 1))) as [q |] eqn:Hq;
    [| discriminate].
  cbn [bind] in H.
  destruct (data_solicitacao proc) as [raw |] eqn:Hraw; [| discriminate].
  cbn [item bind] in H.
  destruct (_parse_date raw) as [d |] eqn:Hd; [| discriminate].
  exists t, q, d, proc, raw. auto 8.
Qed.

(** What each rule of the frequency engine has returned, from the
    quantities of its decision. *)
Lemma rule_frequencia_maxima_inv self ctx t q data_sol hist r :
  pedido ctx t q data_sol hist ->
  _rule_frequencia_maxima self ctx = Ok r ->
  (lookup t (_freq_max self) = None ->
   conforme r = true /\
   evidencias r = Some [("atual_no_periodo", PInt 0); ("limite", PNone)]) /\
  (forall regra, lookup t (_freq_max self) = Some regra ->
     exists P vq L kref,
       cfg_periodo regra = Some (PStr P) /\
       cfg_quantidade regra = Some vq /\ int vq = Ok L /\
       _period_key data_sol P = Ok kref /\
       let consumido :=
         Z.of_nat (List.length (filter (no_periodo t P kref) hist)) in
       _count_in_period hist t P data_sol = Ok consumido /\
       conforme r = (consumido + q <=? L) /\
       evidencias r = Some [("periodo", PStr (lower P));
                            ("consumido_no_periodo", PInt consumido);
                            ("solicitado", PInt q);
                            ("total_pos_execucao", PInt (consumido + q));
                            ("limite", PInt L)]).
Proof.
  intros Hped. unfold _rule_frequencia_maxima. usar_pedido Hped.
  destruct (lookup t (_freq_max self)) as [regra |]; intros H.
  - split; [discriminate |]. intros regra' [= <-].
    destruct (cfg_periodo regra) as [p |]; [| discriminate].
    cbn [item bind] in H.
    destruct p as [| b | z | P]; try discriminate.
    cbn [lower_method bind] in H.
    destruct (cfg_quantidade regra) as [vq |]; [| discriminate].
    cbn [item bind] in H.
    destruct (int vq) as [L |] eqn:HL; [| discriminate].
    cbn [bind] in H. rewrite count_in_period_lower in H.
    destruct (_count_in_period hist t P data_sol) as [atual |] eqn:Hat;
      [| discriminate].
    cbn [bind] in H. injection H as <-.
    pose proof (count_in_period_ok_legivel _ _ _ _ _ Hat) as Hleg.
    assert (Hk : exists kref, _period_key data_sol P = Ok kref).
    { unfold _count_in_period in Hat.
      destruct (_period_key data_sol P); [eauto | discriminate]. }
    destruct Hk as [kref Hk].
    pose proof (count_in_period_spec hist t P data_sol kref Hk Hleg) as Hspec.
    rewrite Hspec in Hat. injection Hat as <-.
    exists P, vq, L, kref. cbv zeta.
    split; [reflexivity |]. split; [reflexivity |]. split; [exact HL |].
    split; [exact Hk |]. split; [exact Hspec |]. split; reflexivity.
  - injection H as <-. split; [intros _; split; reflexivity | discriminate].
Qed.

Lemma rule_intervalo_minimo_inv self ctx t q data_sol hist r :
  pedido ctx t q data_sol hist ->
  _rule_intervalo_minimo self ctx = Ok r ->
  exists min_days,
    int (get (lookup t (_int_min self)) (PInt 0)) = Ok min_days /\
    (min_days <= 0 ->
     conforme r = true /\
     evidencias r = Some [("intervalo_minimo_dias", PInt 0)]) /\
    (0 < min_days ->
     exists ultima,
       _last_session_date hist t data_sol = Ok ultima /\
       ultima_sessao_ate t data_sol hist ultima /\
       match ultima with
       | None =>
           conforme r = true /\
           evidencias r = Some [("intervalo_minimo_dias", PInt min_days);
                                ("dias_desde_ultima", PNone)]
       | Some last =>
           let dias := days_between data_sol last in
           conforme r
           = (min_days <=? dias) && ((q =? 1) || (min_days =? 0)) /\
           evidencias r
           = Some [("ultima_sessao_em", PStr (isoformat last));
                   ("dias_desde_ultima", PInt dias);
                   ("intervalo_minimo_dias", PInt min_days);
                   ("quantidade_solicitada_mesmo_dia", PInt q)]
       end).
Proof.
  intros Hped. unfold _rule_intervalo_minimo. usar_pedido Hped.
  destruct (int (get (lookup t (_int_min self)) (PInt 0))) as [m |];
    [| discriminate].
  cbn [bind]. intros H. exists m. split; [reflexivity |].
  destruct (Z.leb_spec m 0) as [Hle | Hgt].
  - injection H as <-. split; [intros _; split; reflexivity | lia].
  - destruct (_last_session_date hist t data_sol) as [u |] eqn:Hu;
      [| discriminate].
    cbn [bind] in H.
    pose proof (last_session_date_ok_legivel _ _ _ _ Hu) as Hleg.
    destruct (last_session_date_ultima hist t data_sol Hleg)
      as (u' & Hu' & Hult).
    assert (u' = u) by congruence. subst u'.
    split; [lia |]. intros _. exists u.
    split; [reflexivity |]. split; [exact Hult |].
    destruct u; injection H as <-; split; reflexivity.
Qed.

Lemma rule_repeticao_proibida_inv self ctx t q data_sol hist r :
  pedido ctx t q data_sol hist ->
  _rule_repeticao_proibida self ctx = Ok r ->
  exists janela,
    int (get (lookup t (_rep_proib self)) (PInt 0)) = Ok janela /\
    (janela <= 0 ->
     conforme r = true /\ evidencias r = Some [("janela_dias", PInt 0)]) /\
    (0 < janela ->
     exists ultima,
       _last_session_date hist t data_sol = Ok ultima /\
       ultima_sessao_ate t data_sol hist ultima /\
       match ultima with
       | None =>
           conforme r = true /\
           evidencias r = Some [("janela_dias", PInt janela);
                                ("dias_desde_ultima", PNone)]
       | Some last =>
           let dias := days_between data_sol last in
           conforme r = (janela <=? dias) /\
           evidencias r
           = Some [("ultima_ocorrencia_em", PStr (isoformat last));
                   ("dias_desde_ultima", PInt dias);
                   ("janela_repeticao_proibida_dias", PInt janela)]
       end).
Proof.
  intros Hped. unfold _rule_repeticao_proibida. usar_pedido Hped.
  destruct (int (get (lookup t (_rep_proib self)) (PInt 0))) as [m |];
    [| discriminate].
  cbn [bind]. intros H. exists m. split; [reflexivity |].
  destruct (Z.leb_spec m 0) as [Hle | Hgt].
  - injection H as <-. split; [intros _; split; reflexivity | lia].
  - destruct (_last_session_date hist t data_sol) as [u |] eqn:Hu;
      [| discriminate].
    cbn [bind] in H.
    pose proof (last_session_date_ok_legivel _ _ _ _ Hu) as Hleg.
    destruct (last_session_date_ultima hist t data_sol Hleg)
      as (u' & Hu' & Hult).
    assert (u' = u) by congruence. subst u'.
    split; [lia |]. intros _. exists u.
    split; [reflexivity |]. split; [exact Hult |].
    destruct u; injection H as <-; split; reflexivity.
Qed.

Lemma rule_mesmo_dia_inv self ctx t q data_sol hist r :
  pedido ctx t q data_sol hist ->
  _rule_mesmo_dia self ctx = Ok r ->
  (mem t (_no_same_day self) = false ->
   conforme r = true /\ evidencias r = Some []) /\
  (mem t (_no_same_day self) = true ->
   let ja := Z.of_nat (List.length (filter (no_dia t data_sol) hist)) in
   _same_day_count hist t data_sol = Ok ja /\
   conforme r = (ja + q <=? 1) /\
   evidencias r = Some [("tipo", PStr t);
                        ("ja_realizadas_no_dia", PInt ja);
                        ("solicitadas_no_dia", PInt q);
                        ("total_no_dia", PInt (ja + q))]).
Proof.
  intros Hped. unfold _rule_mesmo_dia. usar_pedido Hped.
  destruct (mem t (_no_same_day self)); intros H.
  - destruct (_same_day_count hist t data_sol) as [n |] eqn:Hn;
      [| discriminate].
    cbn [bind] in H. injection H as <-.
    pose proof (same_day_count_ok_legivel _ _ _ _ Hn) as Hleg.
    pose proof (same_day_count_spec hist t data_sol Hleg) as Hspec.
    rewrite Hspec in Hn. injection Hn as <-.
    split; [discriminate |]. intros _. cbv zeta.
    split; [reflexivity |]. split; reflexivity.
  - injection H as <-. split; [intros _; split; reflexivity | discriminate].
Qed.

Lemma regra_elegibilidade_so_mensagem self ctx r :
  TEA.regra_elegibilidade self ctx = Ok r -> mensagem r <> "" /\ evidencias r = None.
Proof.
  unfold TEA.regra_elegibilidade. intros H. do 2 passo_ok H.
  destruct (negb x0); [injection H as <-; split; cbn; [discriminate | reflexivity] |].
  passo_ok H.
  destruct (_ <? x1); [injection H as <-; split; cbn; [discriminate | reflexivity] |].
  passo_ok H.
  destruct (0 <? x2); injection H as <-; split; cbn;
    solve [discriminate | reflexivity].
Qed.

Lemma regra_cobertura_tea_so_mensagem self ctx r :
  TEA.regra_cobertura_tea self ctx = Ok r -> mensagem r <> "" /\ evidencias r = None.
Proof.
  unfold TEA.regra_cobertura_tea. intros H. do 3 passo_ok H.
  destruct (negb (existsb _ _));
    [| destruct (negb (existsb _ _))]; injection H as <-; split; cbn;
    solve [discriminate | reflexivity].
Qed.

Lemma regra_limite_sessoes_so_mensagem self ctx r :
  TEA.regra_limite_sessoes self ctx = Ok r -> mensagem r <> "" /\ evidencias r = None.
Proof.
  unfold TEA.regra_limite_sessoes. intros H. do 5 passo_ok H.
  destruct (lookup _ _) as [faixas |];
    [passo_ok H; destruct x4 |]; injection H as <-; split;
    cbn [mensagem evidencias]; try reflexivity;
    try (apply append_nonempty_r); cbn; discriminate.
Qed.

(* ---------- concrete contexts ---------- *)

Lemma historico_legivelb_ok t h :
  historico_legivelb t h = true -> historico_legivel t h.
Proof.
  unfold historico_legivelb. rewrite forallb_forall. intros H s Hin Ht.
  specialize (H s Hin). apply (tipo_eqb_true _ t) in Ht. rewrite Ht in H.
  cbn in H. destruct (data_da_sessao s) as [d |]; [eauto | discriminate].
Defined.

Lemma pedido_contexto_de b c t q d dt h :
  strptime d = Ok dt ->
  pedido (contexto_de b c t q d h) t (get q 1) dt (get h []).
Proof.
  intros Hd. unfold pedido, contexto_de.
  exists {| cid := c; tipo := Some t; quantidade := option_map PInt q;
            data_solicitacao := Some (DStr d) |}, (DStr d).
  cbn [procedimento tipo quantidade data_solicitacao historico_sessoes].
  unfold _parse_date. rewrite Hd. repeat split. now destruct q.
Defined.

(* ---------- witnesses ---------- *)

Lemma init_motor_exemplo :
  init sem_arquivo (Some config_exemplo) None = Ok motor_exemplo.
Proof. reflexivity. Defined.

(** ABA: 10 per month, 8 sessions already in March 2024, 3 requested: the
    projected total is 11, the limit plus one. *)
Lemma frequencia_maxima_limite_witness :
  exists r,
    _count_in_period oito_sessoes_aba "ABA" "mensal" (mkdate 2024 3 15) = Ok 8 /\
    _rule_frequencia_maxima motor_exemplo
      (contexto_de None None "ABA" (Some 3) "2024-03-15" (Some oito_sessoes_aba))
    = Ok r /\ conforme r = false.
Proof.
  destruct (frequencia_maxima_limite sem_arquivo (Some config_exemplo) None
              motor_exemplo
              (contexto_de None None "ABA" (Some 3) "2024-03-15"
                 (Some oito_sessoes_aba))
              "ABA" 3 (mkdate 2024 3 15) oito_sessoes_aba
              init_motor_exemplo
              (pedido_contexto_de None None "ABA" (Some 3) "2024-03-15"
                 (mkdate 2024 3 15) (Some oito_sessoes_aba) eq_refl)
              (historico_legivelb_ok "ABA" oito_sessoes_aba eq_refl)) as [H _].
  destruct (H _ "mensal" (PInt 10) 10 eq_refl eq_refl eq_refl eq_refl)
    as (kref & r & Hk & Hc & _ & Hr & _ & _ & Hlim).
  injection Hk as <-. exists r.
  split; [rewrite Hc; vm_compute; reflexivity |].
  split; [exact Hr |]. apply Hlim. vm_compute. reflexivity.
Defined.

(** Fono: minimum interval 7 days, last session 14 days before the request,
    two sessions requested: the interval is kept and the verdict is
    non-compliant. *)
Lemma intervalo_minimo_decisao_witness :
  exists r,
    _rule_intervalo_minimo motor_exemplo
      (contexto_de None None "Fono" (Some 2) "2024-03-15"
         (Some [sessao "Fono" "2024-02-20"; sessao "Fono" "2024-03-01"]))
    = Ok r /\
    _last_session_date [sessao "Fono" "2024-02-20"; sessao "Fono" "2024-03-01"]
      "Fono" (mkdate 2024 3 15) = Ok (Some (mkdate 2024 3 1)) /\
    7 <= days_between (mkdate 2024 3 15) (mkdate 2024 3 1) /\
    conforme r = false.
Proof.
  destruct (intervalo_minimo_decisao motor_exemplo
              (contexto_de None None "Fono" (Some 2) "2024-03-15"
                 (Some [sessao "Fono" "2024-02-20"; sessao "Fono" "2024-03-01"]))
              "Fono" 2 (mkdate 2024 3 15)
              [sessao "Fono" "2024-02-20"; sessao "Fono" "2024-03-01"] 7
              (pedido_contexto_de None None "Fono" (Some 2) "2024-03-15"
                 (mkdate 2024 3 15)
                 (Some [sessao "Fono" "2024-02-20"; sessao "Fono" "2024-03-01"])
                 eq_refl)
              eq_refl) as (_ & _ & _ & H).
  destruct H as (r & last & Hr & Hlast & _ & _ & _ & _ & Hq).
  - reflexivity.
  - apply historico_legivelb_ok. reflexivity.
  - exists (sessao "Fono" "2024-03-01"), (mkdate 2024 3 1).
    repeat split. cbn. auto.
  - exists r. split; [exact Hr |].
    split; [vm_compute; reflexivity |].
    split; [vm_compute; discriminate |]. apply Hq. reflexivity.
Defined.

Lemma sessao_no_mesmo_dia_viola_intervalos_witness :
  (exists r,
      _rule_intervalo_minimo motor_exemplo
        (contexto_de None None "Fono" (Some 1) "2024-03-15"
           (Some [sessao "Fono" "2024-03-15"])) = Ok r /\
      conforme r = false) /\
  (exists r,
      _rule_repeticao_proibida motor_exemplo
        (contexto_de None None "Fono" (Some 1) "2024-03-15"
           (Some [sessao "Fono" "2024-03-15"])) = Ok r /\
      conforme r = false).
Proof.
  destruct (sessao_no_mesmo_dia_viola_intervalos motor_exemplo
              (contexto_de None None "Fono" (Some 1) "2024-03-15"
                 (Some [sessao "Fono" "2024-03-15"]))
              "Fono" 1 (mkdate 2024 3 15) [sessao "Fono" "2024-03-15"]
              (pedido_contexto_de None None "Fono" (Some 1) "2024-03-15"
                 (mkdate 2024 3 15) (Some [sessao "Fono" "2024-03-15"]) eq_refl)
              (historico_legivelb_ok "Fono" [sessao "Fono" "2024-03-15"] eq_refl))
    as (_ & _ & Hint & Hrep).
  - exists (sessao "Fono" "2024-03-15"). repeat split. cbn. auto.
  - split.
    + destruct (Hint 7) as (r & Hr & Hc & _); [reflexivity | reflexivity | eauto].
    + destruct (Hrep 3) as (r & Hr & Hc & _); [reflexivity | reflexivity | eauto].
Defined.

Lemma count_in_period_conta_e_cresce_witness :
  _count_in_period oito_sessoes_aba "ABA" "mensal" (mkdate 2024 3 15) = Ok 8 /\
  _count_in_period (oito_sessoes_aba ++ [sessao "ABA" "2024-03-31"])%list
    "ABA" "mensal" (mkdate 2024 3 15) = Ok (8 + 1).
Proof.
  destruct (count_in_period_conta_e_cresce oito_sessoes_aba "ABA" "mensal"
              (mkdate 2024 3 15) [2024; 3] eq_refl
              (historico_legivelb_ok "ABA" oito_sessoes_aba eq_refl))
    as (Hc & _ & Happ).
  split; [exact Hc |].
  exact (Happ (sessao "ABA" "2024-03-31") (mkdate 2024 3 31)
           eq_refl eq_refl eq_refl).
Defined.

(** Age 22 over a maximum of 21: eligibility fails, the other rules are
    still evaluated and reported. *)
Lemma validar_executa_todas_as_regras_witness :
  (exists rep r1 r2 r3,
      TEA.validar motor_tea_exemplo
        (contexto_de (Some (beneficiario_de true 22 0)) (Some "F84.0") "ABA"
           (Some 4) "2024-03-15" None) = Ok rep /\
      rep = (combine nomes_tea (map TEA.VRegra [r1; r2; r3])
               ++ [("conforme", TEA.VBool (forallb conforme [r1; r2; r3]))])%list) /\
  (exists rep,
      validar motor_exemplo
        (contexto_de None None "ABA" (Some 3) "2024-03-15"
           (Some oito_sessoes_aba)) = Ok rep /\
      map fst (regras rep) = nomes_frequencia /\
      rel_conforme rep = forallb conforme (map snd (regras rep))).
Proof.
  destruct validar_executa_todas_as_regras as (Hf & _ & _ & Ht & _).
  split.
  - assert (Hv : exists rep,
               TEA.validar motor_tea_exemplo
                 (contexto_de (Some (beneficiario_de true 22 0)) (Some "F84.0")
                    "ABA" (Some 4) "2024-03-15" None) = Ok rep)
      by (eexists; vm_compute; reflexivity).
    destruct Hv as [rep Hv].
    destruct (Ht _ _ _ Hv) as (r1 & r2 & r3 & _ & _ & _ & Hrep).
    exists rep, r1, r2, r3. split; [exact Hv | exact Hrep].
  - assert (Hv : exists rep,
               validar motor_exemplo
                 (contexto_de None None "ABA" (Some 3) "2024-03-15"
                    (Some oito_sessoes_aba)) = Ok rep)
      by (eexists; vm_compute; reflexivity).
    destruct Hv as [rep Hv].
    destruct (Hf _ _ _ Hv) as (Hn & _ & Hc).
    exists rep. split; [exact Hv |]. split; [exact Hn | exact Hc].
Defined.

(* ---------- message and evidence: the reports ---------- *)

(** C6, as amended. Every rule result of the frequency engine has a
    non-empty message and an evidence mapping, and the mapping holds the
    quantities of the decision with the values used, whether the verdict is
    compliant or not: period, count in the period, requested quantity,
    projected total and limit for FrequencyMax; date of the last session,
    days since it, configured days (and requested quantity) for
    MinimumInterval and ForbiddenRepetitionWindow; type, sessions already on
    the day, requested quantity and total for SameDay. Where a rule does not
    apply the mapping is a fixed one: no FrequencyMax entry, configured days
    zero or negative (recorded as 0), no earlier session, no same-day
    restriction. Every rule result of the TEA engine has a non-empty message
    and no evidence mapping. *)
Theorem resultados_com_mensagem_e_evidencias :
  (forall self ctx rep nome r,
      validar self ctx = Ok rep -> In (nome, r) (regras rep) ->
      mensagem r <> "" /\ exists ev, evidencias r = Some ev) /\
  (forall self ctx rep,
      validar self ctx = Ok rep ->
      exists t q data_sol hist min_days janela r1 r2 r3 r4,
        pedido ctx t q data_sol hist /\
        int (get (lookup t (_int_min self)) (PInt 0)) = Ok min_days /\
        int (get (lookup t (_rep_proib self)) (PInt 0)) = Ok janela /\
        rep = {| rel_conforme := forallb conforme [r1; r2; r3; r4];
                 regras := combine nomes_frequencia [r1; r2; r3; r4] |} /\
        (lookup t (_freq_max self) = None ->
         conforme r1 = true /\
         evidencias r1 = Some [("atual_no_periodo", PInt 0);
                               ("limite", PNone)]) /\
        (forall regra, lookup t (_freq_max self) = Some regra ->
           exists P vq L kref,
             cfg_periodo regra = Some (PStr P) /\
             cfg_quantidade regra = Some vq /\ int vq = Ok L /\
             _period_key data_sol P = Ok kref /\
             let consumido :=
               Z.of_nat (List.length (filter (no_periodo t P kref) hist)) in
             _count_in_period hist t P data_sol = Ok consumido /\
             conforme r1 = (consumido + q <=? L) /\
             evidencias r1 = Some [("periodo", PStr (lower P));
                                   ("consumido_no_periodo", PInt consumido);
                                   ("solicitado", PInt q);
                                   ("total_pos_execucao", PInt (consumido + q));
                                   ("limite", PInt L)]) /\
        (min_days <= 0 ->
         conforme r2 = true /\
         evidencias r2 = Some [("intervalo_minimo_dias", PInt 0)]) /\
        (0 < min_days ->
         exists ultima,
           _last_session_date hist t data_sol = Ok ultima /\
           ultima_sessao_ate t data_sol hist ultima /\
           match ultima with
           | None =>
               conforme r2 = true /\
               evidencias r2 = Some [("intervalo_minimo_dias", PInt min_days);
                                     ("dias_desde_ultima", PNone)]
           | Some last =>
               let dias := days_between data_sol last in
               conforme r2
               = (min_days <=? dias) && ((q =? 1) || (min_days =? 0)) /\
               evidencias r2
               = Some [("ultima_sessao_em", PStr (isoformat last));
                       ("dias_desde_ultima", PInt dias);
                       ("intervalo_minimo_dias", PInt min_days);
                       ("quantidade_solicitada_mesmo_dia", PInt q)]
           end) /\
        (janela <= 0 ->
         conforme r3 = true /\
         evidencias r3 = Some [("janela_dias", PInt 0)]) /\
        (0 < janela ->
         exists ultima,
           _last_session_date hist t data_sol = Ok ultima /\
           ultima_sessao_ate t data_sol hist ultima /\
           match ultima with
           | None =>
               conforme r3 = true /\
               evidencias r3 = Some [("janela_dias", PInt janela);
                                     ("dias_desde_ultima", PNone)]
           | Some last =>
               let dias := days_between data_sol last in
               conforme r3 = (janela <=? dias) /\
               evidencias r3
               = Some [("ultima_ocorrencia_em", PStr (isoformat last));
                       ("dias_desde_ultima", PInt dias);
                       ("janela_repeticao_proibida_dias", PInt janela)]
           end) /\
        (mem t (_no_same_day self) = false ->
         conforme r4 = true /\ evidencias r4 = Some []) /\
        (mem t (_no_same_day self) = true ->
         let ja := Z.of_nat (List.length (filter (no_dia t data_sol) hist)) in
         _same_day_count hist t data_sol = Ok ja /\
         conforme r4 = (ja + q <=? 1) /\
         evidencias r4 = Some [("tipo", PStr t);
                               ("ja_realizadas_no_dia", PInt ja);
                               ("solicitadas_no_dia", PInt q);
                               ("total_no_dia", PInt (ja + q))])) /\
  (forall self ctx rep nome r,
      TEA.validar self ctx = Ok rep -> In (nome, TEA.VRegra r) rep ->
      mensagem r <> "" /\ evidencias r = None).
Proof.
  split; [| split].
  - intros self ctx rep nome r H Hin.
    apply validar_frequencia_inv in H
      as (r1 & r2 & r3 & r4 & H1 & H2 & H3 & H4 & ->).
    cbn [regras] in Hin.
    destruct Hin as [[= <- <-] | [[= <- <-] | [[= <- <-] | [[= <- <-] | []]]]].
    + eapply rule_frequencia_maxima_com_evidencias; eassumption.
    + eapply rule_intervalo_minimo_com_evidencias; eassumption.
    + eapply rule_repeticao_proibida_com_evidencias; eassumption.
    + eapply rule_mesmo_dia_com_evidencias; eassumption.
  - intros self ctx rep H.
    apply validar_frequencia_inv in H
      as (r1 & r2 & r3 & r4 & H1 & H2 & H3 & H4 & ->).
    destruct (rule_frequencia_maxima_pedido self ctx r1 H1)
      as (t & q & data_sol & Hped).
    destruct (rule_frequencia_maxima_inv _ _ _ _ _ _ _ Hped H1) as [H1a H1b].
    destruct (rule_intervalo_minimo_inv _ _ _ _ _ _ _ Hped H2)
      as (min_days & Hmin & H2a & H2b).
    destruct (rule_repeticao_proibida_inv _ _ _ _ _ _ _ Hped H3)
      as (janela & Hjan & H3a & H3b).
    destruct (rule_mesmo_dia_inv _ _ _ _ _ _ _ Hped H4) as [H4a H4b].
    exists t, q, data_sol, (get (historico_sessoes ctx) []), min_days, janela,
      r1, r2, r3, r4.
    split; [exact Hped |]. split; [exact Hmin |]. split; [exact Hjan |].
    split; [reflexivity |]. auto 12.
  - intros self ctx rep nome r H Hin.
    apply validar_tea_inv in H as (r1 & r2 & r3 & H1 & H2 & H3 & ->).
    destruct Hin as [[= <- <-] | [[= <- <-] | [[= <- <-] | [[=] | []]]]].
    + eapply regra_elegibilidade_so_mensagem; eassumption.
    + eapply regra_cobertura_tea_so_mensagem; eassumption.
    + eapply regra_limite_sessoes_so_mensagem; eassumption.
Qed.

(** ABA: 10 per month, 8 sessions in the month, 3 requested: the verdict
    carries the count 8, the projected total 11 and the limit 10. *)
Lemma resultados_com_mensagem_e_evidencias_witness :
  exists r1 r2 r3 r4,
    validar motor_exemplo
      (contexto_de None None "ABA" (Some 3) "2024-03-15" (Some oito_sessoes_aba))
    = Ok {| rel_conforme := forallb conforme [r1; r2; r3; r4];
            regras := combine nomes_frequencia [r1; r2; r3; r4] |} /\
    conforme r1 = false /\
    evidencias r1 = Some [("periodo", PStr "mensal");
                          ("consumido_no_periodo", PInt 8);
                          ("solicitado", PInt 3);
                          ("total_pos_execucao", PInt 11);
                          ("limite", PInt 10)].
Proof.
  assert (Hv : exists rep,
             validar motor_exemplo
               (contexto_de None None "ABA" (Some 3) "2024-03-15"
                  (Some oito_sessoes_aba)) = Ok rep)
    by (eexists; vm_compute; reflexivity).
  destruct Hv as [rep Hv].
  destruct (proj1 (proj2 resultados_com_mensagem_e_evidencias) _ _ _ Hv)
    as (t & q & data_sol & hist & min_days & janela & r1 & r2 & r3 & r4 &
        Hped & _ & _ & Hrep & _ & H1 & _).
  destruct Hped as (proc & raw & Hp & Ht & Hq & Hraw & Hparse & Hh).
  injection Hp as <-. injection Ht as <-. injection Hq as <-.
  injection Hraw as <-. injection Hparse as <-. cbn in Hh. subst hist.
  destruct (H1 _ eq_refl)
    as (P & vq & L & kref & HP & Hvq & HL & Hk & _ & Hc & He).
  injection HP as <-. injection Hvq as <-. injection HL as <-.
  injection Hk as <-.
  exists r1, r2, r3, r4. rewrite Hv, Hrep.
  split; [reflexivity |]. split; [exact Hc | exact He].
Defined.

(** C6, as stated, fails: for an inactive beneficiary the TEA report holds a
    non-compliant eligibility result with a message and no evidence mapping;
    and the frequency engine records a minimum interval configured as -3
    days, the number it compares with 0, as 0. *)
Lemma resultado_sem_as_quantidades_da_decisao :
  (exists rep r,
      TEA.validar motor_tea_exemplo
        (contexto_de (Some (beneficiario_de false 10 0)) (Some "F84.0") "ABA"
           (Some 4) "2024-03-15" None) = Ok rep /\
      In ("elegibilidade", TEA.VRegra r) rep /\
      conforme r = false /\ evidencias r = None) /\
  (exists self rep r,
      init sem_arquivo (Some config_intervalo_negativo) None = Ok self /\
      int (get (lookup "Fono" (_int_min self)) (PInt 0)) = Ok (-3) /\
      validar self (contexto_de None None "Fono" (Some 1) "2024-03-15" None)
      = Ok rep /\
      In ("intervalo_minimo", r) (regras rep) /\
      evidencias r = Some [("intervalo_minimo_dias", PInt 0)]).
Proof.
  split.
  - eexists _, _. split; [vm_compute; reflexivity |].
    split; [left; reflexivity |]. split; reflexivity.
  - eexists _, _, _. split; [reflexivity |]. split; [reflexivity |].
    split; [vm_compute; reflexivity |].
    split; [right; left; reflexivity | reflexivity].
Qed.

(* ---------- missing fields and unreadable dates ---------- *)

(** C7, as amended. In the frequency engine an absent quantity is read as 1
    and an absent history as empty, so the call behaves as on the context
    with these defaults written in; an absent ["procedimento"], ["tipo"] or
    (the quantity being one that [int] reads) ["data_solicitacao"] fails the
    call with a [KeyError] carrying that key, and a request date string of
    ASCII characters that [strptime] rejects then fails it with the
    [ValueError] [strptime] raises: the string does not match the format, or
    part of it is left unconverted, or its fields are no date of the
    calendar. In the TEA engine an absent quantity, the other fields being
    present, fails the call with [KeyError "quantidade"]. In both engines a
    call yields an error or a report with every rule. *)
Theorem campos_ausentes_e_datas_ilegiveis :
  (forall self ctx proc,
      procedimento ctx = Some proc ->
      validar self ctx = validar self (com_padroes ctx proc)) /\
  (forall self ctx,
      procedimento ctx = None ->
      validar self ctx = Err (KeyError "procedimento")) /\
  (forall self ctx proc,
      procedimento ctx = Some proc -> tipo proc = None ->
      validar self ctx = Err (KeyError "tipo")) /\
  (forall self ctx proc t q,
      procedimento ctx = Some proc -> tipo proc = Some t ->
      int (get (quantidade proc) (PInt 1)) = Ok q ->
      data_solicitacao proc = None ->
      validar self ctx = Err (KeyError "data_solicitacao")) /\
  (forall self ctx proc t q s e,
      procedimento ctx = Some proc -> tipo proc = Some t ->
      int (get (quantidade proc) (PInt 1)) = Ok q ->
      data_solicitacao proc = Some (DStr s) -> ascii_puro s = true ->
      strptime s = Err e ->
      validar self ctx = Err e /\
      (e = ValueError (DataForaDoFormato s) \/
       (exists lido resto,
           e = ValueError (DadosNaoConvertidos resto) /\ resto <> "" /\
           s = lido ++ resto) \/
       e = ValueError DataForaDoCalendario)) /\
  (forall self ctx,
      (exists e, validar self ctx = Err e) \/
      (exists rep, validar self ctx = Ok rep /\
                   map fst (regras rep) = nomes_frequencia)) /\
  (forall self ctx b p a i c cd t,
      beneficiario ctx = Some b -> ativo b = Some a -> idade b = Some i ->
      carencia_dias b = Some c ->
      procedimento ctx = Some p -> cid p = Some cd -> tipo p = Some t ->
      quantidade p = None ->
      TEA.validar self ctx = Err (KeyError "quantidade")) /\
  (forall self ctx,
      (exists e, TEA.validar self ctx = Err e) \/
      (exists rep, TEA.validar self ctx = Ok rep /\
                   map fst rep = (nomes_tea ++ ["conforme"])%list)).
Proof.
  repeat apply conj.
  - intros self ctx proc Hp.
    unfold validar, _rule_frequencia_maxima, _rule_intervalo_minimo,
      _rule_repeticao_proibida, _rule_mesmo_dia, com_padroes.
    rewrite Hp. reflexivity.
  - intros self ctx Hp. unfold validar, _rule_frequencia_maxima.
    now rewrite Hp.
  - intros self ctx proc Hp Ht. unfold validar, _rule_frequencia_maxima.
    rewrite Hp. cbn [item bind]. now rewrite Ht.
  - intros self ctx proc t q Hp Ht Hq Hd.
    unfold validar, _rule_frequencia_maxima.
    rewrite Hp. cbn [item bind]. rewrite Ht. cbn [item bind].
    rewrite Hq. cbn [bind]. now rewrite Hd.
  - intros self ctx proc t q s e Hp Ht Hq Hd _ Hs. split.
    + unfold validar, _rule_frequencia_maxima.
      rewrite Hp. cbn [item bind]. rewrite Ht. cbn [item bind].
      rewrite Hq. cbn [bind]. rewrite Hd.
      cbn [item bind _parse_date]. now rewrite Hs.
    + now apply strptime_err.
  - intros self ctx. destruct (validar self ctx) as [rep | e] eqn:Hv; [| eauto].
    right. exists rep. split; [reflexivity |].
    apply validar_frequencia_inv in Hv as (r1 & r2 & r3 & r4 & _ & _ & _ & _ & ->).
    reflexivity.
  - intros self ctx b p a i c cd t Hb Ha Hi Hc Hp Hcd Ht Hq.
    unfold TEA.validar, TEA.regras. cbn [for_each].
    unfold TEA.regra_elegibilidade, TEA.regra_cobertura_tea,
      TEA.regra_limite_sessoes.
    rewrite Hb, Hp. cbn [item bind].
    rewrite Ha, Hi, Hc, Hcd, Ht, Hq. cbn [item bind].
    destruct (negb a); [| destruct (_ <? i); [| destruct (0 <? c)]];
      cbn [bind];
      (destruct (negb (existsb _ _));
       [| destruct (negb (existsb _ _))]; reflexivity).
  - intros self ctx.
    destruct (TEA.validar self ctx) as [rep | e] eqn:Hv; [| eauto].
    right. exists rep. split; [reflexivity |].
    apply validar_tea_inv in Hv as (r1 & r2 & r3 & _ & _ & _ & ->).
    reflexivity.
Qed.

Lemma campos_ausentes_e_datas_ilegiveis_witness :
  validar motor_exemplo
    (contexto_de None None "ABA" None "2024-03-15" None)
  = validar motor_exemplo
      (contexto_de None None "ABA" (Some 1) "2024-03-15" (Some [])) /\
  validar motor_exemplo (contexto_de None None "ABA" (Some 1) "15/03/2024" None)
  = Err (ValueError (DataForaDoFormato "15/03/2024")) /\
  validar motor_exemplo (contexto_de None None "ABA" (Some 1) "2023-02-29" None)
  = Err (ValueError DataForaDoCalendario) /\
  TEA.validar motor_tea_exemplo
    (contexto_de (Some (beneficiario_de true 10 0)) (Some "F84.0") "ABA" None
       "2024-03-15" None)
  = Err (KeyError "quantidade").
Proof.
  destruct campos_ausentes_e_datas_ilegiveis
    as (Hpad & _ & _ & _ & Hdata & _ & Htea & _).
  split; [| split; [| split]].
  - exact (Hpad motor_exemplo
             (contexto_de None None "ABA" None "2024-03-15" None) _ eq_refl).
  - exact (proj1 (Hdata motor_exemplo
                    (contexto_de None None "ABA" (Some 1) "15/03/2024" None)
                    _ "ABA" 1 "15/03/2024" _
                    eq_refl eq_refl eq_refl eq_refl eq_refl eq_refl)).
  - exact (proj1 (Hdata motor_exemplo
                    (contexto_de None None "ABA" (Some 1) "2023-02-29" None)
                    _ "ABA" 1 "2023-02-29" _
                    eq_refl eq_refl eq_refl eq_refl eq_refl eq_refl)).
  - exact (Htea motor_tea_exemplo
             (contexto_de (Some (beneficiario_de true 10 0)) (Some "F84.0")
                "ABA" None "2024-03-15" None)
             _ _ true 10 0 "F84.0" "ABA"
             eq_refl eq_refl eq_refl eq_refl eq_refl eq_refl eq_refl eq_refl).
Defined.

(** C7, as stated, fails: a frequency request without quantity and without
    history is answered with a complete report; so is a TEA request whose
    date string is not a date, and a frequency request whose history holds
    an unreadable date under another therapy type. And the error of an
    unreadable date does not tell the field: the same string as request date
    or as date of a session fails the call with the same error. *)
Lemma campo_ausente_ou_data_ilegivel_sem_falha :
  (exists rep,
      validar motor_exemplo
        (contexto_de None None "ABA" None "2024-03-15" None) = Ok rep /\
      map fst (regras rep) = nomes_frequencia /\ rel_conforme rep = true) /\
  (exists rep,
      TEA.validar motor_tea_exemplo
        (contexto_de (Some (beneficiario_de true 10 0)) (Some "F84.0") "ABA"
           (Some 4) "15/03/2024" None) = Ok rep /\
      map fst rep = (nomes_tea ++ ["conforme"])%list) /\
  (exists rep,
      validar motor_exemplo
        (contexto_de None None "ABA" (Some 1) "2024-03-15"
           (Some [sessao "Fono" "ontem"])) = Ok rep /\
      map fst (regras rep) = nomes_frequencia) /\
  (validar motor_exemplo (contexto_de None None "Fono" (Some 1) "ontem" None)
   = Err (ValueError (DataForaDoFormato "ontem")) /\
   validar motor_exemplo
     (contexto_de None None "Fono" (Some 1) "2024-03-15"
        (Some [sessao "Fono" "ontem"]))
   = Err (ValueError (DataForaDoFormato "ontem"))).
Proof.
  split; [| split; [| split]];
    [eexists; (split; [vm_compute; reflexivity |]); repeat split ..
    | split; vm_compute; reflexivity].
Qed.

(* ================================================================== *)
(** ** Further properties of the code *)
(* ================================================================== *)

(* ---------- isoformat and strptime ---------- *)

Lemma anos_legiveis :
  forallb ano_legivel (map Z.of_nat (seq 1 (Z.to_nat 9999))) = true.
Proof. vm_compute. reflexivity. Qed.

Lemma ano_legivel_ok y : 1 <= y <= 9999 -> ano_legivel y = true.
Proof.
  intros Hy. pose proof anos_legiveis as H. rewrite forallb_forall in H.
  apply H. apply in_map_iff. exists (Z.to_nat y). split; [lia |].
  apply in_seq. lia.
Qed.

Lemma mes_legivel m rest :
  1 <= m <= 12 ->
  then_hyphen (month_alts (zfill 2 m ++ String "-" rest)) = Some (m, rest).
Proof.
  intros Hm.
  assert (H : m = 1 \/ m = 2 \/ m = 3 \/ m = 4 \/ m = 5 \/ m = 6 \/
              m = 7 \/ m = 8 \/ m = 9 \/ m = 10 \/ m = 11 \/ m = 12) by lia.
  repeat (destruct H as [-> | H]; [reflexivity |]). subst m. reflexivity.
Qed.

Lemma dia_legivel d :
  1 <= d <= 31 -> exists alts, day_alts (zfill 2 d) = (d, EmptyString) :: alts.
Proof.
  intros Hd.
  assert (H : In d (map Z.of_nat (seq 1 31)))
    by (apply in_map_iff; exists (Z.to_nat d); split; [lia | apply in_seq; lia]).
  cbv [seq map] in H. simpl Z.of_nat in H.
  repeat (destruct H as [<- | H]; [eexists; reflexivity |]). destruct H.
Qed.

Lemma days_in_month_le y m : _days_in_month y m <= 31.
Proof.
  unfold _days_in_month. destruct ((m =? 2) && _is_leap y); [lia |].
  destruct m as [| p | p]; try lia.
  do 4 (destruct p as [p | p |]; try lia).
Qed.

Lemma strptime_isoformat d :
  date_valid d = true -> strptime (isoformat d) = Ok d.
Proof.
  intros Hv. pose proof Hv as Hv'. unfold date_valid in Hv'.
  rewrite !andb_true_iff, !Z.leb_le in Hv'.
  destruct Hv' as [[[[[Hy1 Hy2] Hm1] Hm2] Hd1] Hd2].
  pose proof (days_in_month_le (year d) (month d)) as Hdim.
  pose proof (ano_legivel_ok (year d) (conj Hy1 Hy2)) as Hy.
  unfold ano_legivel in Hy. unfold isoformat.
  destruct (zfill 4 (year d)) as [| a [| b [| c [| e [| ? ?]]]]];
    try discriminate.
  destruct (digit a) as [va |] eqn:Ha; [| discriminate].
  destruct (digit b) as [vb |] eqn:Hb; [| discriminate].
  destruct (digit c) as [vc |] eqn:Hc; [| discriminate].
  destruct (digit e) as [ve |] eqn:He; [| discriminate].
  apply Z.eqb_eq in Hy.
  cbn [append]. unfold strptime. rewrite Ha, Hb, Hc, He.
  rewrite (mes_legivel (month d) _ (conj Hm1 Hm2)).
  destruct (dia_legivel (day d)) as [alts ->]; [lia |].
  rewrite Hy. destruct d as [y m dd]. cbn [year month day] in *.
  now rewrite Hv.
Qed.

Lemma strptime_valid s d : strptime s = Ok d -> date_valid d = true.
Proof.
  unfold strptime.
  destruct s as [| y1 [| y2 [| y3 [| y4 [| h r]]]]]; try discriminate.
  destruct h as [[] [] [] [] [] [] [] []]; try discriminate.
  destruct (digit y1), (digit y2), (digit y3), (digit y4); try discriminate.
  destruct (then_hyphen (month_alts r)) as [[m r'] |]; [| discriminate].
  destruct (day_alts r') as [| [dd [| ? ?]] ?]; try discriminate.
  destruct (date_valid _) eqn:Hv; [| discriminate].
  now intros [= <-].
Qed.

Lemma parse_date_valid raw d :
  data_valida raw -> _parse_date raw = Ok d -> date_valid d = true.
Proof.
  destruct raw as [s | d' | d' h]; simpl; intros Hv.
  - intros Hs. eapply strptime_valid; eassumption.
  - now intros [= <-].
  - now intros [= <-].
Qed.

(* ---------- ordinals follow the order of dates ---------- *)

Lemma toordinal_lt a b :
  date_valid a = true -> date_valid b = true ->
  date_leb b a = false -> toordinal a < toordinal b.
Proof.
  intros Ha Hb Hlt.
  pose proof (ord_in_year a Ha) as Hoa. pose proof (ord_in_year b Hb) as Hob.
  apply not_true_iff_false in Hlt. rewrite date_leb_le in Hlt.
  assert (Hcases : year a < year b \/
                   (year a = year b /\
                    (month a < month b \/
                     (month a = month b /\ day a < day b)))) by lia.
  clear Hlt. destruct Hcases as [Hy | [Hy Hm]].
  - pose proof (jan1_mono (year a + 1) (year b)). lia.
  - clear Hoa Hob. unfold date_valid in Ha, Hb.
    rewrite !andb_true_iff, !Z.leb_le in Ha, Hb.
    destruct a as [y ma da], b as [yb mb db]. cbn [year month day] in *.
    subst yb. unfold toordinal, _ymd2ord. cbn [year month day].
    destruct Ha as [[[[[_ _] Hma1] Hma2] Hda1] Hda2].
    destruct Hb as [[[[[_ _] Hmb1] Hmb2] Hdb1] Hdb2].
    destruct Hm as [Hm | [-> Hd]]; [| lia].
    unfold _days_in_month, _days_before_month in *.
    assert (Hma : ma = 1 \/ ma = 2 \/ ma = 3 \/ ma = 4 \/ ma = 5 \/ ma = 6 \/
                  ma = 7 \/ ma = 8 \/ ma = 9 \/ ma = 10 \/ ma = 11 \/ ma = 12)
      by lia.
    assert (Hmb : mb = 1 \/ mb = 2 \/ mb = 3 \/ mb = 4 \/ mb = 5 \/ mb = 6 \/
                  mb = 7 \/ mb = 8 \/ mb = 9 \/ mb = 10 \/ mb = 11 \/ mb = 12)
      by lia.
    destruct (_is_leap y);
      repeat (destruct Hma as [Hma | Hma]);
      subst ma; simpl in Hda2;
      repeat (destruct Hmb as [Hmb | Hmb]);
      subst mb; simpl; lia.
Qed.

Lemma toordinal_mono a b :
  date_valid a = true -> date_valid b = true ->
  date_leb a b = true -> toordinal a <= toordinal b.
Proof.
  intros Ha Hb Hle. destruct (date_leb b a) eqn:Hba.
  - rewrite (date_leb_antisym a b Hle Hba). lia.
  - pose proof (toordinal_lt a b Ha Hb Hba). lia.
Qed.

Lemma toordinal_inj a b :
  date_valid a = true -> date_valid b = true ->
  toordinal a = toordinal b -> a = b.
Proof.
  intros Ha Hb Heq. destruct (date_leb a b) eqn:Hab, (date_leb b a) eqn:Hba.
  - now apply date_leb_antisym.
  - pose proof (toordinal_lt a b Ha Hb Hba). lia.
  - pose proof (toordinal_lt b a Hb Ha Hab). lia.
  - pose proof (toordinal_lt b a Hb Ha Hab). lia.
Qed.

(* ---------- when the aggregations return ---------- *)

(** X1. The three aggregations over the history ([_last_session_date],
    [_same_day_count], and [_count_in_period] for a supported period) return
    a value exactly when every record of the requested type has a [data]
    field that parses. Records of other types are skipped before their date
    is read, so an unreadable date there raises nothing. *)
Theorem agregacoes_retornam_sse_historico_legivel h t :
  (forall ate, (exists r, _last_session_date h t ate = Ok r)
               <-> historico_legivel t h) /\
  (forall d, (exists n, _same_day_count h t d = Ok n)
             <-> historico_legivel t h) /\
  (forall p d, mem (lower p) PERIODOS_SUPORTADOS = true ->
               ((exists n, _count_in_period h t p d = Ok n)
                <-> historico_legivel t h)).
Proof.
  split; [| split].
  - intros ate. split.
    + intros [r Hr]. eapply last_session_date_ok_legivel; eassumption.
    + intros Hl. destruct (last_session_date_spec h t ate Hl) as (r & Hr & _).
      eauto.
  - intros d. split.
    + intros [n Hn]. eapply same_day_count_ok_legivel; eassumption.
    + apply same_day_count_ok.
  - intros p d Hsup. split.
    + intros [n Hn]. eapply count_in_period_ok_legivel; eassumption.
    + intros Hl. apply (period_key_ok_iff d) in Hsup as [kref Hk].
      rewrite (count_in_period_spec h t p d kref Hk Hl). eauto.
Qed.

Lemma agregacoes_retornam_sse_historico_legivel_witness :
  historico_legivel "ABA" historico_misto /\
  (exists n, _count_in_period historico_misto "ABA" "mensal" (mkdate 2024 3 15)
             = Ok n) /\
  ~ (exists r, _last_session_date historico_misto "Fono" (mkdate 2024 3 15)
               = Ok r).
Proof.
  assert (Hl : historico_legivel "ABA" historico_misto)
    by (apply historico_legivelb_ok; reflexivity).
  split; [exact Hl |]. split.
  - destruct (agregacoes_retornam_sse_historico_legivel historico_misto "ABA")
      as (_ & _ & H).
    exact (proj2 (H "mensal" (mkdate 2024 3 15) eq_refl) Hl).
  - destruct (agregacoes_retornam_sse_historico_legivel historico_misto "Fono")
      as (H & _ & _).
    intros Hex. apply (H (mkdate 2024 3 15)) in Hex.
    destruct (Hex (sessao "Fono" "ontem")) as [d Hd];
      [right; left; reflexivity | reflexivity | discriminate].
Defined.

(* ---------- same-day count and daily bucket ---------- *)

(** X2. [_same_day_count] agrees with [_count_in_period] on the period
    [diario], errors included; on a readable history both are the number of
    records of the type dated on that day. *)
Theorem same_day_count_e_o_balde_diario h t d :
  _same_day_count h t d = _count_in_period h t "diario" d /\
  (historico_legivel t h ->
   _same_day_count h t d = Ok (Z.of_nat (List.length (filter (no_dia t d) h)))) /\
  (forall s, no_dia t d s = true <->
             sessao_tipo s = Some t /\ data_da_sessao s = Some d).
Proof.
  split; [apply same_day_count_diario |]. split; [apply same_day_count_spec |].
  intros s. unfold no_dia. rewrite andb_true_iff, tipo_eqb_true.
  destruct (data_da_sessao s) as [d' |].
  - rewrite date_eqb_eq. split; intros [H1 H2]; split; congruence.
  - split; intros [_ H]; discriminate.
Qed.

Lemma same_day_count_e_o_balde_diario_witness :
  _same_day_count oito_sessoes_aba "ABA" (mkdate 2024 3 5) = Ok 1 /\
  _same_day_count oito_sessoes_aba "ABA" (mkdate 2024 3 5)
  = _count_in_period oito_sessoes_aba "ABA" "diario" (mkdate 2024 3 5).
Proof.
  destruct (same_day_count_e_o_balde_diario oito_sessoes_aba "ABA"
              (mkdate 2024 3 5)) as (Heq & Hspec & _).
  split; [| exact Heq].
  exact (Hspec (historico_legivelb_ok "ABA" oito_sessoes_aba eq_refl)).
Defined.

(* ---------- ForbiddenRepetitionWindow and SameDayExclusion ---------- *)

(** X3. [_rule_repeticao_proibida], with [janela] the configured window
    ([int(self._rep_proib.get(tipo, 0))], 0 when unset): with a window of 0
    days or less the rule is compliant whatever the history holds. With a
    positive window and a readable history, [_last_session_date] returns
    [None] exactly when no session of the type lies on or before the request
    date, and the rule is compliant; otherwise it returns the date of the
    latest such session and the rule is compliant exactly when the days since
    that date are at least the window. *)
Theorem repeticao_proibida_decisao self ctx t q data_sol hist janela :
  pedido ctx t q data_sol hist ->
  int (get (lookup t (_rep_proib self)) (PInt 0)) = Ok janela ->
  (lookup t (_rep_proib self) = None -> janela = 0) /\
  (janela <= 0 ->
   exists r, _rule_repeticao_proibida self ctx = Ok r /\ conforme r = true) /\
  (0 < janela -> historico_legivel t hist ->
   exists r ultima,
     _rule_repeticao_proibida self ctx = Ok r /\
     _last_session_date hist t data_sol = Ok ultima /\
     match ultima with
     | None =>
         (forall s d, In s hist -> sessao_tipo s = Some t ->
                      data_da_sessao s = Some d ->
                      date_leb d data_sol = false) /\
         conforme r = true
     | Some last =>
         date_leb last data_sol = true /\
         (exists s, In s hist /\ sessao_tipo s = Some t /\
                    data_da_sessao s = Some last) /\
         (forall s d, In s hist -> sessao_tipo s = Some t ->
                      data_da_sessao s = Some d ->
                      date_leb d data_sol = true -> date_leb d last = true) /\
         (conforme r = true <-> janela <= days_between data_sol last)
     end).
Proof.
  intros Hped Hint. split; [| split].
  - intros Hnone. rewrite Hnone in Hint. now injection Hint as <-.
  - intros Hj. unfold _rule_repeticao_proibida. usar_pedido Hped.
    rewrite Hint. cbn [bind].
    apply Z.leb_le in Hj. rewrite Hj. eexists. split; reflexivity.
  - intros Hj Hleg. unfold _rule_repeticao_proibida. usar_pedido Hped.
    rewrite Hint. cbn [bind].
    apply Z.leb_gt in Hj. rewrite Hj.
    destruct (last_session_date_spec hist t data_sol Hleg) as (u & Hu & Hspec).
    rewrite Hu. cbn [bind]. destruct u as [last |].
    + destruct Hspec as (Hle & Hsess & Hmax).
      eexists; exists (Some last). split; [reflexivity |].
      split; [reflexivity |]. split; [exact Hle |]. split; [exact Hsess |].
      split; [exact Hmax |]. cbn [conforme]. apply Z.leb_le.
    + eexists; exists None. split; [reflexivity |]. split; [reflexivity |].
      split; [exact Hspec | reflexivity].
Qed.

(** Fono: window of 3 days, last session 2 days before the request. *)
Lemma repeticao_proibida_decisao_witness :
  exists r,
    _rule_repeticao_proibida motor_exemplo
      (contexto_de None None "Fono" (Some 1) "2024-03-15"
         (Some [sessao "Fono" "2024-03-01"; sessao "Fono" "2024-03-13"]))
    = Ok r /\
    _last_session_date [sessao "Fono" "2024-03-01"; sessao "Fono" "2024-03-13"]
      "Fono" (mkdate 2024 3 15) = Ok (Some (mkdate 2024 3 13)) /\
    conforme r = false.
Proof.
  destruct (repeticao_proibida_decisao motor_exemplo
              (contexto_de None None "Fono" (Some 1) "2024-03-15"
                 (Some [sessao "Fono" "2024-03-01"; sessao "Fono" "2024-03-13"]))
              "Fono" 1 (mkdate 2024 3 15)
              [sessao "Fono" "2024-03-01"; sessao "Fono" "2024-03-13"] 3
              (pedido_contexto_de None None "Fono" (Some 1) "2024-03-15"
                 (mkdate 2024 3 15)
                 (Some [sessao "Fono" "2024-03-01"; sessao "Fono" "2024-03-13"])
                 eq_refl)
              eq_refl) as (_ & _ & H).
  destruct H as (r & ultima & Hr & Hu & Hult);
    [reflexivity | apply historico_legivelb_ok; reflexivity |].
  assert (Hu' : Ok ultima = Ok (Some (mkdate 2024 3 13)))
    by (rewrite <- Hu; vm_compute; reflexivity).
  injection Hu' as ->. destruct Hult as (_ & _ & _ & Hc).
  exists r. split; [exact Hr |]. split; [exact Hu |].
  apply not_true_is_false. intros Ht. apply Hc in Ht.
  vm_compute in Ht. now apply Ht.
Defined.

(** X4. [_rule_mesmo_dia]: for a type outside [nao_permitir_mesmo_dia] the
    rule is compliant with empty evidence. For a listed type it is compliant
    iff the sessions already on the request date, that is the number of
    history records of the type dated on it, plus the requested quantity are
    at most 1: a request of 2 or more is never compliant, and a request of 1
    is compliant iff no session of the type is on that date. *)
Theorem mesmo_dia_decisao self ctx t q data_sol hist :
  pedido ctx t q data_sol hist ->
  (mem t (_no_same_day self) = false ->
   exists r, _rule_mesmo_dia self ctx = Ok r /\ conforme r = true /\
             evidencias r = Some []) /\
  (mem t (_no_same_day self) = true -> historico_legivel t hist ->
   exists r,
     let n := Z.of_nat (List.length (filter (no_dia t data_sol) hist)) in
     _rule_mesmo_dia self ctx = Ok r /\
     _same_day_count hist t data_sol = Ok n /\
     (forall s, no_dia t data_sol s = true <->
                sessao_tipo s = Some t /\ data_da_sessao s = Some data_sol) /\
     (conforme r = true <-> n + q <= 1) /\
     (2 <= q -> conforme r = false) /\
     (q = 1 -> (conforme r = true <-> n = 0))).
Proof.
  intros Hped. split.
  - intros Hm. unfold _rule_mesmo_dia. usar_pedido Hped. rewrite Hm.
    eexists. split; [reflexivity |]. split; reflexivity.
  - intros Hm Hleg. unfold _rule_mesmo_dia. usar_pedido Hped. rewrite Hm.
    pose proof (same_day_count_spec hist t data_sol Hleg) as Hn.
    rewrite Hn. cbn [bind]. eexists. cbv zeta.
    split; [reflexivity |]. split; [reflexivity |].
    split; [intros s; apply no_dia_true |].
    cbn [conforme]. rewrite Z.leb_le.
    split; [tauto |]. split.
    + intros Hq2. apply Z.leb_gt. lia.
    + intros ->. lia.
Qed.

(** Psicologia may not repeat on a day: one session exists on the request
    date and one more is requested. *)
Lemma mesmo_dia_decisao_witness :
  exists r,
    _rule_mesmo_dia motor_exemplo
      (contexto_de None None "Psicologia" (Some 1) "2024-03-15"
         (Some [sessao "Psicologia" "2024-03-14";
                sessao "Psicologia" "2024-03-15"])) = Ok r /\
    _same_day_count [sessao "Psicologia" "2024-03-14";
                     sessao "Psicologia" "2024-03-15"] "Psicologia"
      (mkdate 2024 3 15) = Ok 1 /\
    conforme r = false.
Proof.
  destruct (mesmo_dia_decisao motor_exemplo
              (contexto_de None None "Psicologia" (Some 1) "2024-03-15"
                 (Some [sessao "Psicologia" "2024-03-14";
                        sessao "Psicologia" "2024-03-15"]))
              "Psicologia" 1 (mkdate 2024 3 15)
              [sessao "Psicologia" "2024-03-14";
               sessao "Psicologia" "2024-03-15"]
              (pedido_contexto_de None None "Psicologia" (Some 1) "2024-03-15"
                 (mkdate 2024 3 15)
                 (Some [sessao "Psicologia" "2024-03-14";
                        sessao "Psicologia" "2024-03-15"])
                 eq_refl)) as [_ H].
  destruct H as (r & Hr & Hn & _ & _ & _ & H1);
    [reflexivity | apply historico_legivelb_ok; reflexivity |].
  exists r. split; [exact Hr |]. split; [exact Hn |].
  apply not_true_is_false. intros Ht. apply (H1 eq_refl) in Ht.
  vm_compute in Ht. discriminate.
Defined.

(* ---------- the gap since the last session ---------- *)

Lemma data_da_sessao_valida h s d :
  historico_valido h -> In s h -> data_da_sessao s = Some d ->
  date_valid d = true.
Proof.
  intros Hv Hin Hd. apply data_da_sessao_some in Hd as (raw & Hraw & Hp).
  eapply parse_date_valid; [eapply Hv; eassumption | exact Hp].
Qed.

(** X5. When [_last_session_date] returns a date, over a history whose dates
    are dates of the calendar, that date is the date of a session of the
    type on or before the cutoff, and the day gap [(ate_data - last).days]
    that the interval and repetition rules compute is never negative, is 0
    exactly when that session is on the cutoff date, and is the smallest gap
    over the sessions of the type up to the cutoff. *)
Theorem dias_desde_a_ultima_sessao h t ate last :
  date_valid ate = true -> historico_valido h ->
  _last_session_date h t ate = Ok (Some last) ->
  date_valid last = true /\
  date_leb last ate = true /\
  (exists s, In s h /\ sessao_tipo s = Some t /\
             data_da_sessao s = Some last) /\
  0 <= days_between ate last /\
  (days_between ate last = 0 <-> last = ate) /\
  (forall s d, In s h -> sessao_tipo s = Some t ->
               data_da_sessao s = Some d -> date_leb d ate = true ->
               days_between ate last <= days_between ate d).
Proof.
  intros Hate Hval Hlast.
  pose proof (last_session_date_ok_legivel _ _ _ _ Hlast) as Hleg.
  destruct (last_session_date_spec h t ate Hleg) as (r & Hr & Hspec).
  rewrite Hlast in Hr. injection Hr as <-.
  destruct Hspec as (Hle & (s & Hin & Ht & Hd) & Hmax).
  assert (Hvl : date_valid last = true)
    by (eapply data_da_sessao_valida; eassumption).
  pose proof (toordinal_mono last ate Hvl Hate Hle) as Hord.
  unfold days_between. split; [exact Hvl |]. split; [exact Hle |].
  split; [eauto |]. split; [lia |]. split.
  - split.
    + intros H0. apply toordinal_inj; [assumption | assumption | lia].
    + intros ->. lia.
  - intros s' d' Hin' Ht' Hd' Hle'.
    assert (Hvd : date_valid d' = true)
      by (eapply data_da_sessao_valida; eassumption).
    pose proof (toordinal_mono d' last Hvd Hvl (Hmax s' d' Hin' Ht' Hd' Hle')).
    lia.
Qed.

Lemma dias_desde_a_ultima_sessao_witness :
  _last_session_date [sessao "Fono" "2024-03-12"; sessao "Fono" "2024-03-01";
                      sessao "Fono" "2024-03-20"]
    "Fono" (mkdate 2024 3 15) = Ok (Some (mkdate 2024 3 12)) /\
  (exists s, In s [sessao "Fono" "2024-03-12"; sessao "Fono" "2024-03-01";
                   sessao "Fono" "2024-03-20"] /\
             sessao_tipo s = Some "Fono" /\
             data_da_sessao s = Some (mkdate 2024 3 12)) /\
  0 <= days_between (mkdate 2024 3 15) (mkdate 2024 3 12) /\
  (days_between (mkdate 2024 3 15) (mkdate 2024 3 12) = 0 <->
   mkdate 2024 3 12 = mkdate 2024 3 15).
Proof.
  assert (Hl : _last_session_date
                 [sessao "Fono" "2024-03-12"; sessao "Fono" "2024-03-01";
                  sessao "Fono" "2024-03-20"]
                 "Fono" (mkdate 2024 3 15) = Ok (Some (mkdate 2024 3 12)))
    by reflexivity.
  destruct (dias_desde_a_ultima_sessao
              [sessao "Fono" "2024-03-12"; sessao "Fono" "2024-03-01";
               sessao "Fono" "2024-03-20"]
              "Fono" (mkdate 2024 3 15) (mkdate 2024 3 12))
    as (_ & _ & Hs & H1 & H2 & _).
  - reflexivity.
  - intros s raw [<- | [<- | [<- | []]]] [= <-]; exact I.
  - exact Hl.
  - split; [exact Hl |]. split; [exact Hs |]. split; [exact H1 | exact H2].
Defined.

(* ---------- the order of the history does not matter ---------- *)

Lemma historico_legivel_perm t h h' :
  Permutation h h' -> historico_legivel t h -> historico_legivel t h'.
Proof.
  intros Hp Hl s Hin. apply Hl. eapply Permutation_in; [| exact Hin].
  now apply Permutation_sym.
Qed.

Lemma filter_perm_length {A : Type} (f : A -> bool) l l' :
  Permutation l l' -> List.length (filter f l) = List.length (filter f l').
Proof.
  induction 1 as [| x l l' _ IH | x y l | l l' l'' _ IH1 _ IH2]; simpl.
  - reflexivity.
  - destruct (f x); simpl; now rewrite IH.
  - destruct (f x), (f y); reflexivity.
  - now rewrite IH1.
Qed.

Lemma count_in_period_perm h h' t p d :
  Permutation h h' -> historico_legivel t h ->
  _count_in_period h t p d = _count_in_period h' t p d.
Proof.
  intros Hp Hl. destruct (_period_key d p) as [kref | e] eqn:Hk.
  - rewrite (count_in_period_spec h t p d kref Hk Hl).
    rewrite (count_in_period_spec h' t p d kref Hk
               (historico_legivel_perm t h h' Hp Hl)).
    now rewrite (filter_perm_length _ h h' Hp).
  - unfold _count_in_period. now rewrite Hk.
Qed.

Lemma same_day_count_perm h h' t d :
  Permutation h h' -> historico_legivel t h ->
  _same_day_count h t d = _same_day_count h' t d.
Proof.
  intros Hp Hl. rewrite !same_day_count_diario. now apply count_in_period_perm.
Qed.

Lemma last_session_date_perm h h' t ate :
  Permutation h h' -> historico_legivel t h ->
  _last_session_date h t ate = _last_session_date h' t ate.
Proof.
  intros Hp Hl.
  pose proof (historico_legivel_perm t h h' Hp Hl) as Hl'.
  destruct (last_session_date_spec h t ate Hl) as (r & Hr & Hs).
  destruct (last_session_date_spec h' t ate Hl') as (r' & Hr' & Hs').
  rewrite Hr, Hr'. f_equal.
  destruct r as [last |], r' as [last' |]; [| | | reflexivity].
  - destruct Hs as (Hle & (s & Hin & Ht & Hd) & Hmax).
    destruct Hs' as (Hle' & (s' & Hin' & Ht' & Hd') & Hmax').
    f_equal. apply date_leb_antisym.
    + apply (Hmax' s last); auto. eapply Permutation_in; eassumption.
    + apply (Hmax s' last'); auto.
      eapply Permutation_in; [apply Permutation_sym |]; eassumption.
  - destruct Hs as (Hle & (s & Hin & Ht & Hd) & _).
    rewrite (Hs' s last) in Hle; auto; [discriminate |].
    eapply Permutation_in; eassumption.
  - destruct Hs' as (Hle' & (s' & Hin' & Ht' & Hd') & _).
    rewrite (Hs s' last') in Hle'; auto; [discriminate |].
    eapply Permutation_in; [apply Permutation_sym |]; eassumption.
Qed.

(** X6. Reordering a history whose records of the requested type are
    readable changes none of the three aggregations and not the report of
    [validar]. *)
Theorem ordem_do_historico_nao_importa self ctx proc t h h' :
  procedimento ctx = Some proc -> tipo proc = Some t ->
  Permutation h h' -> historico_legivel t h ->
  (forall p d, _count_in_period h t p d = _count_in_period h' t p d) /\
  (forall d, _last_session_date h t d = _last_session_date h' t d) /\
  (forall d, _same_day_count h t d = _same_day_count h' t d) /\
  validar self (com_historico ctx h) = validar self (com_historico ctx h').
Proof.
  intros Hproc Ht Hp Hl.
  split; [intros; now apply count_in_period_perm |].
  split; [intros; now apply last_session_date_perm |].
  split; [intros; now apply same_day_count_perm |].
  unfold validar, _rule_frequencia_maxima, _rule_intervalo_minimo,
    _rule_repeticao_proibida, _rule_mesmo_dia, com_historico.
  cbn [procedimento historico_sessoes get]. rewrite Hproc. cbn [item bind].
  rewrite Ht. cbn [item bind].
  destruct (item "data_solicitacao" (data_solicitacao proc)) as [raw |];
    [| reflexivity].
  cbn [bind]. destruct (_parse_date raw) as [d |]; [| reflexivity].
  cbn [bind].
  rewrite (last_session_date_perm h h' t d Hp Hl).
  rewrite (same_day_count_perm h h' t d Hp Hl).
  destruct (lookup t (_freq_max self)) as [regra |]; [| reflexivity].
  destruct (item "periodo" (cfg_periodo regra)) as [p |]; [| reflexivity].
  cbn [bind]. destruct (lower_method p) as [periodo |]; [| reflexivity].
  cbn [bind]. destruct (item "quantidade" (cfg_quantidade regra)) as [vq |];
    [| reflexivity].
  cbn [bind]. destruct (int vq) as [L |]; [| reflexivity]. cbn [bind].
  now rewrite (count_in_period_perm h h' t periodo d Hp Hl).
Qed.

Lemma ordem_do_historico_nao_importa_witness :
  validar motor_exemplo
    (com_historico (contexto_de None None "Fono" (Some 1) "2024-03-15" None)
       [sessao "Fono" "2024-03-01"; sessao "Fono" "2024-03-12"])
  = validar motor_exemplo
      (com_historico (contexto_de None None "Fono" (Some 1) "2024-03-15" None)
         [sessao "Fono" "2024-03-12"; sessao "Fono" "2024-03-01"]).
Proof.
  destruct (ordem_do_historico_nao_importa motor_exemplo
              (contexto_de None None "Fono" (Some 1) "2024-03-15" None)
              {| cid := None; tipo := Some "Fono"; quantidade := Some (PInt 1);
                 data_solicitacao := Some (DStr "2024-03-15") |}
              "Fono"
              [sessao "Fono" "2024-03-01"; sessao "Fono" "2024-03-12"]
              [sessao "Fono" "2024-03-12"; sessao "Fono" "2024-03-01"]
              eq_refl eq_refl (perm_swap _ _ [])
              (historico_legivelb_ok "Fono"
                 [sessao "Fono" "2024-03-01"; sessao "Fono" "2024-03-12"]
                 eq_refl)) as (_ & _ & _ & H).
  exact H.
Defined.

(* ---------- dates read back ---------- *)

(** X7. [_parse_date] reads back every calendar date from the string
    [isoformat] writes for it, returns a [date] object as it is and the date
    part of a [datetime] object; every date it reads from a string is a date
    of the calendar (year 1 to 9999, month 1 to 12, day within the month). *)
Theorem parse_date_le_o_isoformat d :
  date_valid d = true ->
  _parse_date (DStr (isoformat d)) = Ok d /\
  _parse_date (DDate d) = Ok d /\
  (forall hora, _parse_date (DDateTime d hora) = Ok d) /\
  (forall s d', _parse_date (DStr s) = Ok d' -> date_valid d' = true).
Proof.
  intros Hv. split; [| split; [reflexivity | split; [reflexivity |]]].
  - unfold _parse_date. now rewrite (strptime_isoformat d Hv).
  - intros s d' H. eapply (parse_date_valid (DStr s)); [exact I | exact H].
Qed.

Lemma parse_date_le_o_isoformat_witness :
  isoformat (mkdate 987 3 5) = "0987-03-05" /\
  _parse_date (DStr (isoformat (mkdate 987 3 5))) = Ok (mkdate 987 3 5).
Proof.
  split; [reflexivity |].
  exact (proj1 (parse_date_le_o_isoformat (mkdate 987 3 5) eq_refl)).
Defined.

(* ---------- the weekly bucket ---------- *)

Lemma monday_of_monday dt : (monday_of dt + 6) mod 7 = 0.
Proof. unfold monday_of. Z.div_mod_to_equations. lia. Qed.

Lemma monday_of_range dt : monday_of dt <= toordinal dt <= monday_of dt + 6.
Proof. unfold monday_of. Z.div_mod_to_equations. lia. Qed.

(** X8. Two calendar dates with the same weekly period key lie in the same
    Monday-to-Sunday week, hence at most 6 days apart. *)
Theorem chave_semanal_determina_a_semana a b :
  date_valid a = true -> date_valid b = true ->
  _period_key a "semanal" = _period_key b "semanal" ->
  same_iso_week a b /\ -6 <= toordinal a - toordinal b <= 6.
Proof.
  intros Ha Hb Hk. rewrite !period_key_semanal in Hk.
  pose proof (isocalendar_thursday a Ha) as Hta.
  pose proof (isocalendar_thursday b Hb) as Htb.
  destruct (isocalendar a) as [[ya wa] da], (isocalendar b) as [[yb wb] db].
  cbn [fst snd] in Hk. injection Hk as -> ->.
  destruct Hta as (Hya & Hwa & _), Htb as (Hyb & Hwb & _).
  pose proof (monday_of_monday a) as Hma. pose proof (monday_of_monday b) as Hmb.
  pose proof (monday_of_range a) as Hra. pose proof (monday_of_range b) as Hrb.
  assert (Hsame : monday_of a = monday_of b).
  { generalize dependent (monday_of a). generalize dependent (monday_of b).
    generalize (jan1 yb). intros j mb _ Hwb Hmb _ ma _ Hwa Hma _.
    Z.div_mod_to_equations. lia. }
  split; [exact Hsame |]. lia.
Qed.

Lemma chave_semanal_determina_a_semana_witness :
  same_iso_week (mkdate 2024 12 30) (mkdate 2025 1 5) /\
  -6 <= toordinal (mkdate 2024 12 30) - toordinal (mkdate 2025 1 5) <= 6.
Proof.
  exact (chave_semanal_determina_a_semana (mkdate 2024 12 30) (mkdate 2025 1 5)
           eq_refl eq_refl eq_refl).
Defined.

(** X9. The weekly period key of a calendar date has a week number between
    1 and 53 and a year that differs from the calendar year by at most
    one. *)
Theorem chave_semanal_limites dt y w :
  date_valid dt = true -> _period_key dt "semanal" = Ok [y; w] ->
  1 <= w <= 53 /\ year dt - 1 <= y <= year dt + 1.
Proof.
  intros Hv Hk. rewrite period_key_semanal in Hk.
  pose proof (isocalendar_thursday dt Hv) as Ht.
  destruct (isocalendar dt) as [[y' w'] d']. cbn [fst snd] in Hk.
  injection Hk as <- <-. destruct Ht as (Hy & Hw & _).
  pose proof (jan1_step y') as Hs.
  assert (Hl : jan1 (y' + 1) - jan1 y' <= 366)
    by (destruct (_is_leap y'); lia).
  pose proof (ord_in_year dt Hv) as Ho.
  pose proof (monday_of_range dt) as Hr.
  split.
  - generalize dependent (monday_of dt). intros m. intros.
    Z.div_mod_to_equations. lia.
  - destruct (Z.lt_trichotomy y' (year dt - 1)) as [H | [H | H]].
    + pose proof (jan1_mono (y' + 1) (year dt - 1)).
      pose proof (jan1_step (year dt - 1)) as Hs1.
      replace (year dt - 1 + 1) with (year dt) in Hs1 by lia.
      destruct (_is_leap (year dt - 1)); lia.
    + lia.
    + destruct (Z.lt_trichotomy (year dt + 1) y') as [H' | [H' | H']];
        [| lia | lia].
      pose proof (jan1_mono (year dt + 2) y').
      pose proof (jan1_step (year dt + 1)) as Hs1.
      replace (year dt + 1 + 1) with (year dt + 2) in Hs1 by lia.
      destruct (_is_leap (year dt + 1)); lia.
Qed.

Lemma chave_semanal_limites_witness :
  1 <= 53 <= 53 /\ 2021 - 1 <= 2020 <= 2021 + 1.
Proof.
  exact (chave_semanal_limites (mkdate 2021 1 1) 2020 53 eq_refl eq_refl).
Defined.

(* ---------- counts by granularity ---------- *)

Lemma filter_impl_length {A : Type} (f g : A -> bool) l :
  (forall x, f x = true -> g x = true) ->
  (List.length (filter f l) <= List.length (filter g l))%nat.
Proof.
  intros H. induction l as [| x l IH]; simpl; [lia |].
  destruct (f x) eqn:Hf.
  - rewrite (H x Hf). simpl. lia.
  - destruct (g x); simpl; lia.
Qed.

Lemma filter_length_le_all {A : Type} (f : A -> bool) l :
  (List.length (filter f l) <= List.length l)%nat.
Proof.
  induction l as [| x l IH]; simpl; [lia |]. destruct (f x); simpl; lia.
Qed.

Lemma period_key_mensal dt : _period_key dt "mensal" = Ok [year dt; month dt].
Proof. reflexivity. Qed.

Lemma period_key_anual dt : _period_key dt "anual" = Ok [year dt].
Proof. reflexivity. Qed.

Lemma no_periodo_mais_grosso t p1 p2 ref k1 k2 s :
  _period_key ref p1 = Ok k1 -> _period_key ref p2 = Ok k2 ->
  (forall d, _period_key d p1 = _period_key ref p1 ->
             _period_key d p2 = _period_key ref p2) ->
  no_periodo t p1 k1 s = true -> no_periodo t p2 k2 s = true.
Proof.
  intros H1 H2 Himp Hs. apply no_periodo_true in Hs as (Ht & d & Hd & Hk).
  apply no_periodo_true. split; [exact Ht |]. exists d. split; [exact Hd |].
  rewrite <- H2. apply Himp. congruence.
Qed.

(** X10. On a readable history the period buckets are nested: the daily count
    is at most the weekly and the monthly count, the monthly count at most
    the annual count; no count is negative or exceeds the length of the
    history. *)
Theorem contagens_por_granularidade h t ref :
  historico_legivel t h ->
  exists dia semana mes ano,
    _count_in_period h t "diario" ref = Ok dia /\
    _count_in_period h t "semanal" ref = Ok semana /\
    _count_in_period h t "mensal" ref = Ok mes /\
    _count_in_period h t "anual" ref = Ok ano /\
    0 <= dia /\ dia <= semana /\ dia <= mes /\ mes <= ano /\
    semana <= Z.of_nat (List.length h) /\ ano <= Z.of_nat (List.length h).
Proof.
  intros Hl.
  rewrite (count_in_period_spec h t "diario" ref _ (period_key_diario ref) Hl).
  rewrite (count_in_period_spec h t "semanal" ref _ (period_key_semanal ref) Hl).
  rewrite (count_in_period_spec h t "mensal" ref _ (period_key_mensal ref) Hl).
  rewrite (count_in_period_spec h t "anual" ref _ (period_key_anual ref) Hl).
  do 4 eexists. do 4 (split; [reflexivity |]).
  split; [lia |].
  assert (Hds : forall s, no_periodo t "diario" [year ref; month ref; day ref] s = true ->
                          no_periodo t "semanal"
                            [fst (fst (isocalendar ref)); snd (fst (isocalendar ref))] s
                          = true).
  { intros s. apply (no_periodo_mais_grosso t "diario" "semanal" ref);
      [reflexivity | apply period_key_semanal |].
    intros d. rewrite !period_key_diario. intros [= Hy Hm Hd].
    destruct d, ref. cbn [year month day] in *. now subst. }
  assert (Hdm : forall s, no_periodo t "diario" [year ref; month ref; day ref] s = true ->
                          no_periodo t "mensal" [year ref; month ref] s = true).
  { intros s. apply (no_periodo_mais_grosso t "diario" "mensal" ref);
      [reflexivity | reflexivity |].
    intros d. rewrite !period_key_diario, !period_key_mensal.
    intros [= Hy Hm Hd]. now rewrite Hy, Hm. }
  assert (Hma : forall s, no_periodo t "mensal" [year ref; month ref] s = true ->
                          no_periodo t "anual" [year ref] s = true).
  { intros s. apply (no_periodo_mais_grosso t "mensal" "anual" ref);
      [reflexivity | reflexivity |].
    intros d. rewrite !period_key_mensal, !period_key_anual.
    intros [= Hy Hm]. now rewrite Hy. }
  pose proof (filter_impl_length _ _ h Hds).
  pose proof (filter_impl_length _ _ h Hdm).
  pose proof (filter_impl_length _ _ h Hma).
  pose proof (filter_length_le_all
                (no_periodo t "semanal"
                   [fst (fst (isocalendar ref)); snd (fst (isocalendar ref))]) h).
  pose proof (filter_length_le_all (no_periodo t "anual" [year ref]) h).
  repeat split; lia.
Qed.

Lemma contagens_por_granularidade_witness :
  exists dia semana mes ano,
    _count_in_period oito_sessoes_aba "ABA" "diario" (mkdate 2024 3 5) = Ok dia /\
    _count_in_period oito_sessoes_aba "ABA" "semanal" (mkdate 2024 3 5) = Ok semana /\
    _count_in_period oito_sessoes_aba "ABA" "mensal" (mkdate 2024 3 5) = Ok mes /\
    _count_in_period oito_sessoes_aba "ABA" "anual" (mkdate 2024 3 5) = Ok ano /\
    0 <= dia /\ dia <= semana /\ dia <= mes /\ mes <= ano /\
    semana <= Z.of_nat (List.length oito_sessoes_aba) /\
    ano <= Z.of_nat (List.length oito_sessoes_aba).
Proof.
  exact (contagens_por_granularidade oito_sessoes_aba "ABA" (mkdate 2024 3 5)
           (historico_legivelb_ok "ABA" oito_sessoes_aba eq_refl)).
Defined.

(* ---------- FrequencyMax: less is never worse ---------- *)

(** X11. FrequencyMax is monotone: if a request is compliant, the request for
    the same or a smaller quantity over a shorter history (the history
    without its last records) is compliant too. *)
Theorem frequencia_maxima_monotona
    arquivo cfg path self ctx1 ctx2 t q1 q2 data_sol h extra r2 :
  init arquivo cfg path = Ok self ->
  pedido ctx1 t q1 data_sol h ->
  pedido ctx2 t q2 data_sol (h ++ extra)%list ->
  historico_legivel t (h ++ extra)%list ->
  q1 <= q2 ->
  _rule_frequencia_maxima self ctx2 = Ok r2 -> conforme r2 = true ->
  exists r1, _rule_frequencia_maxima self ctx1 = Ok r1 /\ conforme r1 = true.
Proof.
  intros Hinit Hp1 Hp2 Hl2 Hq Hr2 Hc2.
  assert (Hl1 : historico_legivel t h)
    by (intros s Hin; apply Hl2; apply in_or_app; now left).
  destruct (lookup t (_freq_max self)) as [regra |] eqn:Hlk.
  - destruct (rule_frequencia_maxima_configurada _ _ _ _ _ _ _ _ _ _
                Hinit Hp1 Hl1 Hlk)
      as (P & vq & L & c1 & r1 & HP & Hvq & HL & Hc1 & Hr1 & Hconf1).
    destruct (rule_frequencia_maxima_configurada _ _ _ _ _ _ _ _ _ _
                Hinit Hp2 Hl2 Hlk)
      as (P' & vq' & L' & c2 & r2' & HP' & Hvq' & HL' & Hcnt2 & Hr2' & Hconf2).
    assert (P' = P) by congruence. assert (vq' = vq) by congruence.
    subst P' vq'. assert (L' = L) by congruence. subst L'.
    assert (r2' = r2) by congruence. subst r2'.
    exists r1. split; [exact Hr1 |]. rewrite Hconf1. rewrite Hconf2 in Hc2.
    apply Z.leb_le in Hc2. apply Z.leb_le.
    assert (Hk : exists kref, _period_key data_sol P = Ok kref).
    { destruct (_period_key data_sol P) as [k |] eqn:Hk; [eauto |].
      unfold _count_in_period in Hc1. rewrite Hk in Hc1. discriminate. }
    destruct Hk as [kref Hk].
    rewrite (count_in_period_spec h t P data_sol kref Hk Hl1) in Hc1.
    rewrite (count_in_period_spec _ t P data_sol kref Hk Hl2) in Hcnt2.
    injection Hc1 as <-. injection Hcnt2 as <-.
    rewrite filter_app, length_app in Hc2. lia.
  - destruct (rule_frequencia_maxima_sem_regra self ctx1 t q1 data_sol h Hp1 Hlk)
      as (r1 & Hr1 & Hc1 & _).
    eauto.
Qed.

(** ABA: 10 per month; 8 sessions and 2 requested are within the limit, so 1
    requested over the first 7 of these sessions is too. *)
Lemma frequencia_maxima_monotona_witness :
  exists r1,
    _rule_frequencia_maxima motor_exemplo
      (contexto_de None None "ABA" (Some 1) "2024-03-15"
         (Some (firstn 7 oito_sessoes_aba))) = Ok r1 /\
    conforme r1 = true.
Proof.
  assert (H2 : exists r2,
             _rule_frequencia_maxima motor_exemplo
               (contexto_de None None "ABA" (Some 2) "2024-03-15"
                  (Some (firstn 7 oito_sessoes_aba
                           ++ skipn 7 oito_sessoes_aba)%list)) = Ok r2 /\
             conforme r2 = true)
    by (eexists; split; vm_compute; reflexivity).
  destruct H2 as (r2 & Hr2 & Hc2).
  apply (frequencia_maxima_monotona sem_arquivo (Some config_exemplo) None
           motor_exemplo
           (contexto_de None None "ABA" (Some 1) "2024-03-15"
              (Some (firstn 7 oito_sessoes_aba)))
           (contexto_de None None "ABA" (Some 2) "2024-03-15"
              (Some (firstn 7 oito_sessoes_aba ++ skipn 7 oito_sessoes_aba)%list))
           "ABA" 1 2 (mkdate 2024 3 15) (firstn 7 oito_sessoes_aba)
           (skipn 7 oito_sessoes_aba) r2 init_motor_exemplo
           (pedido_contexto_de None None "ABA" (Some 1) "2024-03-15"
              (mkdate 2024 3 15) (Some (firstn 7 oito_sessoes_aba)) eq_refl)
           (pedido_contexto_de None None "ABA" (Some 2) "2024-03-15"
              (mkdate 2024 3 15)
              (Some (firstn 7 oito_sessoes_aba ++ skipn 7 oito_sessoes_aba)%list)
              eq_refl)
           (historico_legivelb_ok "ABA"
              (firstn 7 oito_sessoes_aba ++ skipn 7 oito_sessoes_aba)%list eq_refl));
    [lia | exact Hr2 | exact Hc2].
Defined.

(* ---------- __init__: sources of the configuration, first failure ---------- *)

Lemma init_loop_app validas resto :
  Forall (fun it => entrada_valida (snd it)) validas ->
  for_each init_item (validas ++ resto)%list tt = for_each init_item resto tt.
Proof.
  intros Hv. rewrite for_each_app.
  apply init_loop_ok in Hv. now rewrite Hv.
Qed.

Lemma init_item_periodo tipo regra :
  ~ periodo_aceito regra ->
  init_item tt (tipo, regra) =
  Err (ValueError
         (PeriodoInvalido tipo (lower (str (get (cfg_periodo regra) (PStr "")))))).
Proof.
  intros Hp. rewrite <- periodo_aceito_iff in Hp.
  apply not_true_is_false in Hp. unfold init_item. now rewrite Hp.
Qed.

Lemma init_item_quantidade tipo regra :
  periodo_aceito regra -> ~ quantidade_aceita regra ->
  init_item tt (tipo, regra) =
  Err (ValueError (QuantidadeInvalida tipo (get (cfg_quantidade regra) PNone))).
Proof.
  intros Hp Hq. rewrite <- periodo_aceito_iff in Hp.
  rewrite <- quantidade_aceita_iff in Hq. cbv zeta in Hq.
  apply not_false_is_true in Hq. unfold init_item. rewrite Hp.
  cbn [negb]. now rewrite Hq.
Qed.

(** X12. [__init__] stops at the first [frequencia_maxima] entry it rejects,
    in the order of the configuration: the error names that entry's therapy
    type, the period is checked before the quantity, and the entries after it
    are not examined. *)
Theorem init_para_na_primeira_entrada_invalida
    arquivo cfg path validas tipo regra resto :
  get (frequencia_maxima cfg) [] = (validas ++ (tipo, regra) :: resto)%list ->
  Forall (fun it => entrada_valida (snd it)) validas ->
  (~ periodo_aceito regra ->
   init arquivo (Some cfg) path =
   Err (ValueError
          (PeriodoInvalido tipo
             (lower (str (get (cfg_periodo regra) (PStr ""))))))) /\
  (periodo_aceito regra -> ~ quantidade_aceita regra ->
   init arquivo (Some cfg) path =
   Err (ValueError
          (QuantidadeInvalida tipo (get (cfg_quantidade regra) PNone)))).
Proof.
  intros Hitems Hval. rewrite init_some, Hitems, (init_loop_app _ _ Hval).
  cbn [for_each]. split.
  - intros Hp. now rewrite (init_item_periodo tipo regra Hp).
  - intros Hp Hq. now rewrite (init_item_quantidade tipo regra Hp Hq).
Qed.

Lemma init_para_na_primeira_entrada_invalida_witness :
  init sem_arquivo (Some config_duas_invalidas) None
  = Err (ValueError (PeriodoInvalido "Fono" "quinzenal")).
Proof.
  refine (proj1 (init_para_na_primeira_entrada_invalida sem_arquivo
                   config_duas_invalidas None
                   [("ABA", {| cfg_periodo := Some (PStr "mensal");
                               cfg_quantidade := Some (PInt 10) |})]
                   "Fono"
                   {| cfg_periodo := Some (PStr "quinzenal");
                      cfg_quantidade := Some (PInt (-1)) |}
                   [("TO", {| cfg_periodo := Some (PStr "anual");
                              cfg_quantidade := Some (PInt (-5)) |})]
                   eq_refl _) _).
  - constructor; [| constructor]. split.
    + exists "mensal". split; [reflexivity | cbn; auto].
    + left. exists 10. split; [reflexivity | lia].
  - intros (p & [= <-] & Hin). cbn in Hin. intuition discriminate.
Defined.

(** X13. Where the configuration comes from: with neither [config] nor
    [config_path] the constructor raises [ValueError]; with a path only, the
    file is read, and a file that cannot be opened raises [OSError]; a
    [config] that is given is used and the file is never read. An engine that
    is constructed stores the configuration given, or the one loaded from the
    file, and its four tables are those of that configuration, empty when the
    key is absent; and every configuration whose [frequencia_maxima] entries
    are valid gives that engine. *)
Theorem init_origem_da_configuracao arquivo :
  init arquivo None None = Err (ValueError SemConfig) /\
  (forall path, arquivo path = None ->
                init arquivo None (Some path) = Err (OSError path)) /\
  (forall path c, arquivo path = Some c ->
                  init arquivo None (Some path) = init arquivo (Some c) None) /\
  (forall c path arquivo', init arquivo (Some c) path = init arquivo' (Some c) None) /\
  (forall c path self, init arquivo c path = Ok self ->
     (c = Some (config self) \/
      (c = None /\
       exists p, path = Some p /\ arquivo p = Some (config self))) /\
     _freq_max self = get (frequencia_maxima (config self)) [] /\
     _int_min self = get (intervalo_minimo_dias (config self)) [] /\
     _rep_proib self = get (periodo_repeticao_proibida (config self)) [] /\
     _no_same_day self = get (nao_permitir_mesmo_dia (config self)) [] /\
     Forall (fun it => entrada_valida (snd it)) (_freq_max self)) /\
  (forall c path,
     Forall (fun it => entrada_valida (snd it))
            (get (frequencia_maxima c) []) ->
     init arquivo (Some c) path
     = Ok {| config := c;
             _freq_max := get (frequencia_maxima c) [];
             _int_min := get (intervalo_minimo_dias c) [];
             _rep_proib := get (periodo_repeticao_proibida c) [];
             _no_same_day := get (nao_permitir_mesmo_dia c) [] |}).
Proof.
  split; [reflexivity |]. split; [| split; [| split; [| split]]].
  - intros path H. unfold init. now rewrite H.
  - intros path c H. unfold init. now rewrite H.
  - reflexivity.
  - intros c path self H. pose proof (init_ok_entries _ _ _ _ H) as Hv.
    unfold init in H.
    assert (Hc : exists c0,
               (c = Some c0 \/
                (c = None /\ exists p, path = Some p /\ arquivo p = Some c0)) /\
               (_ <- for_each init_item (get (frequencia_maxima c0) []) tt;;
                Ok {| config := c0;
                      _freq_max := get (frequencia_maxima c0) [];
                      _int_min := get (intervalo_minimo_dias c0) [];
                      _rep_proib := get (periodo_repeticao_proibida c0) [];
                      _no_same_day := get (nao_permitir_mesmo_dia c0) [] |})
               = Ok self).
    { destruct c as [c0 |]; [exists c0; auto |].
      destruct path as [p |]; [| discriminate].
      destruct (arquivo p) as [c0 |] eqn:Hp; [| discriminate].
      exists c0. split; [right; eauto | exact H]. }
    destruct Hc as (c0 & Hc0 & H').
    destruct (for_each init_item (get (frequencia_maxima c0) []) tt);
      [| discriminate].
    cbn [bind] in H'. injection H' as <-. cbn. auto 8.
  - intros c path Hv. rewrite init_some.
    apply init_loop_ok in Hv. now rewrite Hv.
Qed.

Lemma init_origem_da_configuracao_witness :
  init sem_arquivo None (Some "regras.json") = Err (OSError "regras.json") /\
  init sem_arquivo (Some config_exemplo) (Some "regras.json") = Ok motor_exemplo.
Proof.
  destruct (init_origem_da_configuracao sem_arquivo)
    as (_ & Hfile & _ & _ & _ & Hok).
  split; [exact (Hfile "regras.json" eq_refl) |].
  apply (Hok config_exemplo (Some "regras.json")).
  constructor; [| constructor; [| constructor]]; split.
  - exists "mensal". split; [reflexivity | cbn; auto].
  - left. exists 10. split; [reflexivity | lia].
  - exists "Semanal". split; [reflexivity | cbn; auto].
  - left. exists 2. split; [reflexivity | lia].
Defined.

(* ---------- a type without any rule ---------- *)

(** X14. A request for a therapy type that no table of the configuration
    mentions (or whose configured numbers of days, read with [int], are zero
    or negative) is compliant under all four rules, whatever the history
    holds: no rule reads it, so unreadable dates raise nothing. *)
Theorem tipo_sem_regras_e_conforme self ctx t q data_sol hist min_days janela :
  pedido ctx t q data_sol hist ->
  lookup t (_freq_max self) = None ->
  int (get (lookup t (_int_min self)) (PInt 0)) = Ok min_days ->
  min_days <= 0 ->
  int (get (lookup t (_rep_proib self)) (PInt 0)) = Ok janela ->
  janela <= 0 ->
  mem t (_no_same_day self) = false ->
  exists rep, validar self ctx = Ok rep /\ rel_conforme rep = true /\
              map fst (regras rep) = nomes_frequencia.
Proof.
  intros Hped Hf Hi Hi0 Hr Hr0 Hm. apply Z.leb_le in Hi0, Hr0.
  unfold validar, _rule_frequencia_maxima, _rule_intervalo_minimo,
    _rule_repeticao_proibida, _rule_mesmo_dia.
  usar_pedido Hped. rewrite Hf, Hi, Hr, Hm. cbn [bind].
  rewrite Hi0, Hr0. cbn [bind].
  eexists. split; [reflexivity |]. split; reflexivity.
Qed.

(** Terapia ocupacional appears in no table of [config_exemplo]. *)
Lemma tipo_sem_regras_e_conforme_witness :
  exists rep,
    validar motor_exemplo
      (contexto_de None None "TO" (Some 5) "2024-03-15"
         (Some [sessao "TO" "ontem"])) = Ok rep /\
    rel_conforme rep = true /\ map fst (regras rep) = nomes_frequencia.
Proof.
  apply (tipo_sem_regras_e_conforme motor_exemplo
           (contexto_de None None "TO" (Some 5) "2024-03-15"
              (Some [sessao "TO" "ontem"]))
           "TO" 5 (mkdate 2024 3 15) [sessao "TO" "ontem"] 0 0
           (pedido_contexto_de None None "TO" (Some 5) "2024-03-15"
              (mkdate 2024 3 15) (Some [sessao "TO" "ontem"]) eq_refl));
    try reflexivity; lia.
Defined.

(* ---------- TEA: the three rules ---------- *)

Lemma prefix_spec p s : String.prefix p s = true <-> exists r, s = p ++ r.
Proof.
  revert s. induction p as [| c p IH]; intros s.
  - destruct s; simpl; split; eauto.
  - destruct s as [| c' s]; simpl.
    + split; [discriminate | intros [r [=]]].
    + destruct (Ascii.ascii_dec c c') as [<- | Hne].
      * rewrite IH. split; intros [r Hr]; exists r; congruence.
      * split; [discriminate | intros [r [= H _]]; congruence].
Qed.

Lemma cid_coberto_iff self c :
  existsb (fun prefixo => String.prefix prefixo c)
          (TEA.cid_validos (TEA.cobertura (TEA.config self))) = true
  <-> cid_coberto self c.
Proof.
  unfold cid_coberto. rewrite existsb_exists. split.
  - intros (p & Hin & Hp). apply prefix_spec in Hp as [r Hr]. eauto.
  - intros (p & r & Hin & Hr). exists p. split; [exact Hin |].
    apply prefix_spec. eauto.
Qed.

Lemma tipo_coberto_iff self t :
  existsb (String.eqb t) (TEA.tipos_terapia (TEA.cobertura (TEA.config self)))
  = true <-> In t (TEA.tipos_terapia (TEA.cobertura (TEA.config self))).
Proof.
  rewrite existsb_exists. split.
  - intros (x & Hin & Hx). apply String.eqb_eq in Hx. now subst.
  - intros Hin. exists t. split; [exact Hin | apply String.eqb_refl].
Qed.

Lemma regra_elegibilidade_completa self ctx b a i c :
  beneficiario ctx = Some b -> ativo b = Some a -> idade b = Some i ->
  carencia_dias b = Some c ->
  exists r, TEA.regra_elegibilidade self ctx = Ok r /\
    conforme r =
    a && (i <=? TEA.idade_maxima (TEA.elegibilidade (TEA.config self)))
      && (c <=? 0).
Proof.
  intros Hb Ha Hi Hc. unfold TEA.regra_elegibilidade.
  rewrite Hb. cbn [item bind]. rewrite Ha. cbn [item bind].
  destruct a; cbn [negb]; [| eexists; split; reflexivity].
  rewrite Hi. cbn [item bind]. rewrite Z.leb_antisym.
  destruct (_ <? i); cbn [negb]; [eexists; split; reflexivity |].
  rewrite Hc. cbn [item bind]. rewrite (Z.leb_antisym 0 c).
  destruct (0 <? c); eexists; split; reflexivity.
Qed.

Lemma regra_cobertura_completa self ctx p c t :
  procedimento ctx = Some p -> cid p = Some c -> tipo p = Some t ->
  exists r, TEA.regra_cobertura_tea self ctx = Ok r /\
    conforme r =
    existsb (fun prefixo => String.prefix prefixo c)
            (TEA.cid_validos (TEA.cobertura (TEA.config self)))
    && existsb (String.eqb t)
               (TEA.tipos_terapia (TEA.cobertura (TEA.config self))).
Proof.
  intros Hp Hc Ht. unfold TEA.regra_cobertura_tea.
  rewrite Hp. cbn [item bind]. rewrite Hc, Ht. cbn [item bind].
  destruct (existsb _ _); cbn [negb andb]; [| eexists; split; reflexivity].
  destruct (existsb _ _); eexists; split; reflexivity.
Qed.

Lemma regra_limite_completa self ctx b p i t q :
  beneficiario ctx = Some b -> idade b = Some i ->
  procedimento ctx = Some p -> tipo p = Some t ->
  quantidade p = Some (PInt q) ->
  exists r, TEA.regra_limite_sessoes self ctx = Ok r /\
    conforme r =
    match lookup t (TEA.limites_sessoes (TEA.config self)) with
    | Some faixas => q <=? limite_da_faixa faixas i
    | None => false
    end.
Proof.
  intros Hb Hi Hp Ht Hq. unfold TEA.regra_limite_sessoes.
  rewrite Hb. cbn [item bind]. rewrite Hi. cbn [item bind].
  rewrite Hp. cbn [item bind]. rewrite Ht, Hq. cbn [item bind].
  destruct (lookup t _) as [faixas |]; [| eexists; split; reflexivity].
  fold (limite_da_faixa faixas i). rewrite Z.leb_antisym.
  cbn [gt_int isinstance_int int_value bind].
  destruct (_ <? q); eexists; split; reflexivity.
Qed.

(** X15. [regra_elegibilidade] checks in order: an inactive beneficiary is
    rejected without age or waiting period being read; then an age above
    [idade_maxima]; then a positive [carencia_dias]. With the three fields
    present it is compliant iff the beneficiary is active, not older than the
    maximum and has no waiting days left. A missing field raises [KeyError]
    for that field, and only when the checks before it pass. *)
Theorem regra_elegibilidade_decisao self ctx b :
  beneficiario ctx = Some b ->
  let idade_max := TEA.idade_maxima (TEA.elegibilidade (TEA.config self)) in
  (ativo b = Some false ->
   TEA.regra_elegibilidade self ctx =
   Ok {| conforme := false; mensagem := "Beneficiário inativo";
         evidencias := None |}) /\
  (forall i, ativo b = Some true -> idade b = Some i -> idade_max < i ->
             exists r, TEA.regra_elegibilidade self ctx = Ok r /\
                       conforme r = false) /\
  (forall a i c, ativo b = Some a -> idade b = Some i ->
                 carencia_dias b = Some c ->
                 exists r, TEA.regra_elegibilidade self ctx = Ok r /\
                           (conforme r = true <->
                            a = true /\ i <= idade_max /\ c <= 0)) /\
  (ativo b = None -> TEA.regra_elegibilidade self ctx = Err (KeyError "ativo")) /\
  (ativo b = Some true -> idade b = None ->
   TEA.regra_elegibilidade self ctx = Err (KeyError "idade")) /\
  (forall i, ativo b = Some true -> idade b = Some i -> i <= idade_max ->
             carencia_dias b = None ->
             TEA.regra_elegibilidade self ctx = Err (KeyError "carencia_dias")).
Proof.
  intros Hb idade_max. subst idade_max. unfold TEA.regra_elegibilidade at 1 2 4 5 6.
  rewrite Hb. cbn [item bind]. repeat split.
  - intros Ha. now rewrite Ha.
  - intros i Ha Hi Hlt. rewrite Ha. cbn [item bind negb]. rewrite Hi.
    cbn [item bind]. apply Z.ltb_lt in Hlt. rewrite Hlt.
    eexists. split; reflexivity.
  - intros a i c Ha Hi Hc.
    destruct (regra_elegibilidade_completa self ctx b a i c Hb Ha Hi Hc)
      as (r & Hr & Hconf).
    exists r. split; [exact Hr |]. rewrite Hconf.
    rewrite !andb_true_iff, !Z.leb_le. tauto.
  - intros Ha. now rewrite Ha.
  - intros Ha Hi. rewrite Ha. cbn [item bind negb]. now rewrite Hi.
  - intros i Ha Hi Hle Hc. rewrite Ha. cbn [item bind negb]. rewrite Hi.
    cbn [item bind]. apply Z.ltb_ge in Hle. rewrite Hle. now rewrite Hc.
Qed.

(** An inactive beneficiary whose age and waiting period are not given. *)
Lemma regra_elegibilidade_decisao_witness :
  TEA.regra_elegibilidade motor_tea_exemplo
    {| beneficiario := Some {| ativo := Some false; idade := None;
                               carencia_dias := None |};
       procedimento := None; historico_sessoes := None |}
  = Ok {| conforme := false; mensagem := "Beneficiário inativo";
          evidencias := None |}.
Proof.
  exact (proj1 (regra_elegibilidade_decisao motor_tea_exemplo
                  {| beneficiario := Some {| ativo := Some false; idade := None;
                                             carencia_dias := None |};
                     procedimento := None; historico_sessoes := None |}
                  {| ativo := Some false; idade := None; carencia_dias := None |}
                  eq_refl) eq_refl).
Defined.

(** X16. [regra_cobertura_tea] is compliant iff the diagnosis code starts
    with one of the configured prefixes and the therapy type is in the
    configured list; with no prefix configured nothing is covered, and an
    empty prefix covers every code. *)
Theorem regra_cobertura_decisao self ctx p c t :
  procedimento ctx = Some p -> cid p = Some c -> tipo p = Some t ->
  exists r,
    TEA.regra_cobertura_tea self ctx = Ok r /\
    (conforme r = true <->
     cid_coberto self c /\
     In t (TEA.tipos_terapia (TEA.cobertura (TEA.config self)))) /\
    (TEA.cid_validos (TEA.cobertura (TEA.config self)) = [] ->
     conforme r = false) /\
    (In "" (TEA.cid_validos (TEA.cobertura (TEA.config self))) ->
     (conforme r = true <->
      In t (TEA.tipos_terapia (TEA.cobertura (TEA.config self))))).
Proof.
  intros Hp Hc Ht.
  destruct (regra_cobertura_completa self ctx p c t Hp Hc Ht) as (r & Hr & Hconf).
  exists r. split; [exact Hr |].
  assert (Hiff : conforme r = true <->
                 cid_coberto self c /\
                 In t (TEA.tipos_terapia (TEA.cobertura (TEA.config self)))).
  { rewrite Hconf, andb_true_iff, cid_coberto_iff, tipo_coberto_iff. tauto. }
  split; [exact Hiff |]. split.
  - intros Hnil. apply not_true_is_false. rewrite Hiff.
    intros [(px & rs & Hin & _) _]. rewrite Hnil in Hin. destruct Hin.
  - intros Hin. rewrite Hiff. split; [tauto |]. intros Ht'. split; [| exact Ht'].
    exists "", c. split; [exact Hin | reflexivity].
Qed.

Lemma regra_cobertura_decisao_witness :
  exists r,
    TEA.regra_cobertura_tea motor_tea_exemplo
      (contexto_de None (Some "F84.0") "Fono" None "2024-03-15" None) = Ok r /\
    (conforme r = true <->
     cid_coberto motor_tea_exemplo "F84.0" /\
     In "Fono" ["ABA"; "Fono"; "Psicologia"]).
Proof.
  destruct (regra_cobertura_decisao motor_tea_exemplo
              (contexto_de None (Some "F84.0") "Fono" None "2024-03-15" None)
              {| cid := Some "F84.0"; tipo := Some "Fono"; quantidade := None;
                 data_solicitacao := Some (DStr "2024-03-15") |}
              "F84.0" "Fono" eq_refl eq_refl eq_refl) as (r & Hr & Hiff & _).
  exists r. split; [exact Hr | exact Hiff].
Defined.

(** X17. [regra_limite_sessoes]: a type without configured limits is
    rejected; otherwise the rule is compliant iff the requested quantity, an
    integer, is at most the limit of the age band, [ate_12] up to 12 years
    inclusive and [acima_12] from 13 years, a band that is not written
    counting as 0. *)
Theorem regra_limite_sessoes_decisao self ctx b p i t q :
  beneficiario ctx = Some b -> idade b = Some i ->
  procedimento ctx = Some p -> tipo p = Some t ->
  quantidade p = Some (PInt q) ->
  exists r,
    TEA.regra_limite_sessoes self ctx = Ok r /\
    (lookup t (TEA.limites_sessoes (TEA.config self)) = None ->
     conforme r = false) /\
    (forall faixas,
        lookup t (TEA.limites_sessoes (TEA.config self)) = Some faixas ->
        (conforme r = true <-> q <= limite_da_faixa faixas i) /\
        (i <= 12 -> limite_da_faixa faixas i = get (TEA.ate_12 faixas) 0) /\
        (13 <= i -> limite_da_faixa faixas i = get (TEA.acima_12 faixas) 0)).
Proof.
  intros Hb Hi Hp Ht Hq.
  destruct (regra_limite_completa self ctx b p i t q Hb Hi Hp Ht Hq)
    as (r & Hr & Hconf).
  exists r. split; [exact Hr |]. split.
  - intros Hl. now rewrite Hconf, Hl.
  - intros faixas Hl. rewrite Hconf, Hl, Z.leb_le. split; [tauto |].
    unfold limite_da_faixa. split; intros Hi'.
    + apply Z.leb_le in Hi'. now rewrite Hi'.
    + assert (H : (i <=? 12) = false) by (apply Z.leb_gt; lia). now rewrite H.
Qed.

(** ABA: 8 sessions up to 12 years of age, 4 above; a child of 12 asks 8. *)
Lemma regra_limite_sessoes_decisao_witness :
  exists r,
    TEA.regra_limite_sessoes motor_tea_exemplo
      (contexto_de (Some (beneficiario_de true 12 0)) None "ABA" (Some 8)
         "2024-03-15" None) = Ok r /\
    (conforme r = true <-> 8 <= 8).
Proof.
  destruct (regra_limite_sessoes_decisao motor_tea_exemplo
              (contexto_de (Some (beneficiario_de true 12 0)) None "ABA" (Some 8)
                 "2024-03-15" None)
              (beneficiario_de true 12 0)
              {| cid := None; tipo := Some "ABA"; quantidade := Some (PInt 8);
                 data_solicitacao := Some (DStr "2024-03-15") |}
              12 "ABA" 8 eq_refl eq_refl eq_refl eq_refl eq_refl)
    as (r & Hr & _ & H).
  exists r. split; [exact Hr |].
  exact (proj1 (H {| TEA.ate_12 := Some 8; TEA.acima_12 := Some 4 |} eq_refl)).
Defined.

(** X18. On a context with all its fields, the quantity an integer, the TEA
    engine returns a report whose top-level [conforme] is true iff the
    beneficiary is eligible, the procedure is covered and the quantity is
    within the limit of the age band. *)
Theorem validar_tea_decisao self ctx b p a i c cd t q :
  beneficiario ctx = Some b -> ativo b = Some a -> idade b = Some i ->
  carencia_dias b = Some c ->
  procedimento ctx = Some p -> cid p = Some cd -> tipo p = Some t ->
  quantidade p = Some (PInt q) ->
  exists rep,
    TEA.validar self ctx = Ok rep /\
    (conforme_geral rep = Some true <->
     a = true /\
     i <= TEA.idade_maxima (TEA.elegibilidade (TEA.config self)) /\
     c <= 0 /\
     cid_coberto self cd /\
     In t (TEA.tipos_terapia (TEA.cobertura (TEA.config self))) /\
     exists faixas,
       lookup t (TEA.limites_sessoes (TEA.config self)) = Some faixas /\
       q <= limite_da_faixa faixas i) /\
    (conforme_geral rep = Some true \/ conforme_geral rep = Some false).
Proof.
  intros Hb Ha Hi Hc Hp Hcd Ht Hq.
  destruct (regra_elegibilidade_completa self ctx b a i c Hb Ha Hi Hc)
    as (r1 & Hr1 & Hc1).
  destruct (regra_cobertura_completa self ctx p cd t Hp Hcd Ht) as (r2 & Hr2 & Hc2).
  destruct (regra_limite_completa self ctx b p i t q Hb Hi Hp Ht Hq)
    as (r3 & Hr3 & Hc3).
  unfold TEA.validar, TEA.regras. cbn [for_each].
  rewrite Hr1. cbn [bind TEA.setitem]. rewrite Hr2. cbn. rewrite Hr3. cbn.
  eexists. split; [reflexivity |]. unfold conforme_geral. cbn.
  split.
  - rewrite Hc1, Hc2, Hc3, andb_true_r.
    split.
    + intros [= H]. rewrite !andb_true_iff in H.
      destruct H as [[[Ha' Hi'] Hc'] [[Hcid Htp] Hlim]].
      apply Z.leb_le in Hi', Hc'. apply cid_coberto_iff in Hcid.
      apply tipo_coberto_iff in Htp.
      destruct (lookup t _) as [faixas |]; [| discriminate].
      apply Z.leb_le in Hlim. repeat split; eauto.
    + intros (Ha' & Hi' & Hc' & Hcid & Htp & faixas & Hl & Hlim).
      subst a. apply Z.leb_le in Hi', Hc', Hlim.
      apply cid_coberto_iff in Hcid. apply tipo_coberto_iff in Htp.
      rewrite Hi', Hc', Hcid, Htp, Hl, Hlim. reflexivity.
  - destruct (conforme r1 && _); auto.
Qed.

Lemma validar_tea_decisao_witness :
  exists rep,
    TEA.validar motor_tea_exemplo
      (contexto_de (Some (beneficiario_de true 13 0)) (Some "F84.0") "ABA"
         (Some 5) "2024-03-15" None) = Ok rep /\
    (conforme_geral rep = Some true \/ conforme_geral rep = Some false).
Proof.
  destruct (validar_tea_decisao motor_tea_exemplo
              (contexto_de (Some (beneficiario_de true 13 0)) (Some "F84.0") "ABA"
                 (Some 5) "2024-03-15" None)
              (beneficiario_de true 13 0)
              {| cid := Some "F84.0"; tipo := Some "ABA"; quantidade := Some (PInt 5);
                 data_solicitacao := Some (DStr "2024-03-15") |}
              true 13 0 "F84.0" "ABA" 5
              eq_refl eq_refl eq_refl eq_refl eq_refl eq_refl eq_refl eq_refl)
    as (rep & Hrep & _ & H).
  exists rep. split; [exact Hrep | exact H].
Defined.

(* ---------- Hamming distance of two hash strings ---------- *)

Lemma fold_add_acc l a : fold_left Z.add l a = a + fold_left Z.add l 0.
Proof.
  revert a. induction l as [| x l IH]; intros a; simpl; [lia |].
  rewrite (IH (a + x)), (IH x). lia.
Qed.

Lemma hamming_cons c1 a c2 b :
  Duplicata.hamming_distance (String c1 a) (String c2 b) =
  (if Ascii.eqb c1 c2 then 0 else 1) + Duplicata.hamming_distance a b.
Proof.
  unfold Duplicata.hamming_distance, Duplicata.sum. cbn [Duplicata.zip map fold_left fst snd].
  now rewrite fold_add_acc.
Qed.

Lemma hamming_nil_l b : Duplicata.hamming_distance "" b = 0.
Proof. reflexivity. Qed.

Lemma hamming_nil_r a : Duplicata.hamming_distance a "" = 0.
Proof. destruct a; reflexivity. Qed.

Lemma hamming_bounds a : forall b,
  0 <= Duplicata.hamming_distance a b <=
  Z.of_nat (Nat.min (String.length a) (String.length b)).
Proof.
  induction a as [| c1 a IH]; intros b; [rewrite hamming_nil_l; simpl; lia |].
  destruct b as [| c2 b]; [rewrite hamming_nil_r; simpl; lia |].
  rewrite hamming_cons. specialize (IH b). cbn [String.length].
  rewrite <- Nat.succ_min_distr. destruct (Ascii.eqb c1 c2); lia.
Qed.

Lemma hamming_sym a : forall b,
  Duplicata.hamming_distance a b = Duplicata.hamming_distance b a.
Proof.
  induction a as [| c1 a IH]; intros b;
    [now rewrite hamming_nil_l, hamming_nil_r |].
  destruct b as [| c2 b]; [reflexivity |].
  rewrite !hamming_cons, (IH b), (Ascii.eqb_sym c1 c2). reflexivity.
Qed.

Lemma hamming_refl a : Duplicata.hamming_distance a a = 0.
Proof.
  induction a as [| c a IH]; [reflexivity |].
  now rewrite hamming_cons, Ascii.eqb_refl, IH.
Qed.

Lemma hamming_zero_eq a : forall b,
  String.length a = String.length b ->
  Duplicata.hamming_distance a b = 0 -> a = b.
Proof.
  induction a as [| c1 a IH]; intros [| c2 b]; simpl; try discriminate;
    [reflexivity |].
  intros [= Hlen]. rewrite hamming_cons.
  pose proof (hamming_bounds a b) as Hb.
  destruct (Ascii.eqb_spec c1 c2) as [-> | Hne]; [| lia].
  intros H0. f_equal. apply IH; [exact Hlen | lia].
Qed.

Lemma hamming_triangle a : forall b c,
  String.length a = String.length b -> String.length b = String.length c ->
  Duplicata.hamming_distance a c <=
  Duplicata.hamming_distance a b + Duplicata.hamming_distance b c.
Proof.
  induction a as [| c1 a IH]; intros b c H1 H2.
  - rewrite !hamming_nil_l. pose proof (hamming_bounds b c). lia.
  - destruct b as [| c2 b]; [discriminate |].
    destruct c as [| c3 c]; [discriminate |].
    injection H1 as H1. injection H2 as H2.
    rewrite !hamming_cons. specialize (IH b c H1 H2).
    destruct (Ascii.eqb c1 c3) eqn:E13, (Ascii.eqb c1 c2) eqn:E12,
             (Ascii.eqb c2 c3) eqn:E23; try lia.
    apply Ascii.eqb_eq in E12, E23. subst c2 c3.
    rewrite Ascii.eqb_refl in E13. discriminate.
Qed.

Lemma hamming_app_l a : forall b x,
  (String.length b <= String.length a)%nat ->
  Duplicata.hamming_distance (a ++ x) b = Duplicata.hamming_distance a b.
Proof.
  induction a as [| c1 a IH]; intros [| c2 b] x; simpl.
  - intros _. now rewrite hamming_nil_r.
  - lia.
  - intros _. now rewrite !hamming_nil_r.
  - intros H. change (String c1 a ++ x) with (String c1 (a ++ x)).
    rewrite !hamming_cons, IH; [reflexivity | lia].
Qed.

(** X19. [hamming_distance] is 0 on equal strings, symmetric, and between 0
    and the length of the shorter string; on strings of one length it is 0
    only for equal strings and satisfies the triangle inequality. *)
Theorem hamming_distance_metrica a b c :
  Duplicata.hamming_distance a a = 0 /\
  Duplicata.hamming_distance a b = Duplicata.hamming_distance b a /\
  0 <= Duplicata.hamming_distance a b
    <= Z.of_nat (Nat.min (String.length a) (String.length b)) /\
  (String.length a = String.length b ->
   (Duplicata.hamming_distance a b = 0 <-> a = b)) /\
  (String.length a = String.length b -> String.length b = String.length c ->
   Duplicata.hamming_distance a c <=
   Duplicata.hamming_distance a b + Duplicata.hamming_distance b c).
Proof.
  split; [apply hamming_refl |]. split; [apply hamming_sym |].
  split; [apply hamming_bounds |]. split.
  - intros Hlen. split; [now apply hamming_zero_eq |].
    intros ->. apply hamming_refl.
  - apply hamming_triangle.
Qed.

Lemma hamming_distance_metrica_witness :
  Duplicata.hamming_distance "c3d4a1b2" "c3d4a1b2" = 0 /\
  Duplicata.hamming_distance "c3d4a1b2" "c3d4a0b3" = 2 /\
  Duplicata.hamming_distance "c3d4a1b2" "ffffa1b2"
  <= Duplicata.hamming_distance "c3d4a1b2" "c3d4a0b3"
     + Duplicata.hamming_distance "c3d4a0b3" "ffffa1b2".
Proof.
  destruct (hamming_distance_metrica "c3d4a1b2" "c3d4a0b3" "ffffa1b2")
    as (H1 & _ & _ & _ & H5).
  split; [exact H1 |]. split; [reflexivity |]. apply H5; reflexivity.
Defined.

(** X20. [hamming_distance] compares only up to the length of the shorter
    string: what follows in the longer one is ignored, so a hash and any
    extension of it are at distance 0. *)
Theorem hamming_distance_ignora_o_excedente a b x :
  (String.length b <= String.length a)%nat ->
  Duplicata.hamming_distance (a ++ x) b = Duplicata.hamming_distance a b /\
  Duplicata.hamming_distance b (a ++ x) = Duplicata.hamming_distance b a /\
  Duplicata.hamming_distance (b ++ x) b = 0.
Proof.
  intros H. split; [now apply hamming_app_l |]. split.
  - now rewrite hamming_sym, hamming_app_l, hamming_sym.
  - rewrite hamming_app_l; [apply hamming_refl | lia].
Qed.

Lemma hamming_distance_ignora_o_excedente_witness :
  Duplicata.hamming_distance "c3d4a1b2ffff" "c3d4a1b2" = 0.
Proof.
  destruct (hamming_distance_ignora_o_excedente "c3d4a1b2" "c3d4a1b2" "ffff")
    as (_ & _ & H); [simpl; lia | exact H].
Defined.

(* ---------- suspect editing software ---------- *)

Lemma contains_spec needle hay :
  Metadados.contains needle hay = true <-> ocorre needle hay.
Proof.
  unfold ocorre. induction hay as [| c hay IH]; cbn [Metadados.contains].
  - rewrite orb_false_r, prefix_spec. split.
    + intros [r Hr]. exists "", r. exact Hr.
    + intros (a & d & H). destruct a; [eauto | discriminate].
  - rewrite orb_true_iff, prefix_spec, IH. split.
    + intros [[r Hr] | (a & d & H)].
      * exists "", r. exact Hr.
      * exists (String c a), d. simpl. now rewrite H.
    + intros (a & d & H). destruct a as [| c' a].
      * left. exists d. exact H.
      * right. injection H as _ H. eauto.
Qed.

Lemma detect_loop_spec suspects s :
  let r := Metadados.detect_loop suspects s in
  (Metadados.editado_por_software_suspeito r = true <->
   exists suspect, In suspect suspects /\ ocorre (lower suspect) (lower s)) /\
  (Metadados.editado_por_software_suspeito r = true <->
   Metadados.nome_software_detectado r <> None) /\
  (forall n, Metadados.nome_software_detectado r = Some n ->
     exists antes depois,
       suspects = (antes ++ n :: depois)%list /\
       ocorre (lower n) (lower s) /\
       forall m, In m antes -> ~ ocorre (lower m) (lower s)).
Proof.
  induction suspects as [| x suspects IH]; cbn [Metadados.detect_loop].
  - cbn. split; [| split].
    + split; [discriminate | intros (m & [] & _)].
    + split; [discriminate | congruence].
    + discriminate.
  - destruct (Metadados.contains (lower x) (lower s)) eqn:Hc.
    + apply contains_spec in Hc. cbn. split; [| split].
      * split; [intros _; exists x; auto | reflexivity].
      * split; [discriminate | reflexivity].
      * intros n [= <-]. exists [], suspects. split; [reflexivity |].
        split; [exact Hc | intros m []].
    + assert (Hn : ~ ocorre (lower x) (lower s)).
      { intros H. apply contains_spec in H. congruence. }
      destruct IH as (IH1 & IH2 & IH3). split; [| split].
      * rewrite IH1. split.
        -- intros (m & Hin & Hm). exists m. split; [now right | exact Hm].
        -- intros (m & [<- | Hin] & Hm); [contradiction | eauto].
      * exact IH2.
      * intros n Hnome. destruct (IH3 n Hnome) as (a & d & -> & Ho & Hbefore).
        exists (x :: a), d. split; [reflexivity |]. split; [exact Ho |].
        intros m [<- | Hin]; [exact Hn | now apply Hbefore].
Qed.

(** X21. [detect_suspect_software] flags a software string exactly when it
    contains, letter case aside, one of the listed names; the name reported
    is the first of the list that occurs; and two strings that differ in
    letter case only get the same answer. *)
Theorem detect_suspect_software_primeiro_da_lista s :
  let r := Metadados.detect_suspect_software s in
  (Metadados.editado_por_software_suspeito r = true <->
   exists suspect, In suspect Metadados.SUSPECT_SOFTWARES /\
                   ocorre (lower suspect) (lower s)) /\
  (Metadados.editado_por_software_suspeito r = true <->
   Metadados.nome_software_detectado r <> None) /\
  (forall n, Metadados.nome_software_detectado r = Some n ->
     exists antes depois,
       Metadados.SUSPECT_SOFTWARES = (antes ++ n :: depois)%list /\
       ocorre (lower n) (lower s) /\
       forall m, In m antes -> ~ ocorre (lower m) (lower s)) /\
  (forall s', lower s' = lower s ->
              Metadados.detect_suspect_software s' = r).
Proof.
  intros r. subst r. unfold Metadados.detect_suspect_software.
  destruct (detect_loop_spec Metadados.SUSPECT_SOFTWARES s) as (H1 & H2 & H3).
  split; [exact H1 |]. split; [exact H2 |]. split; [exact H3 |].
  intros s' Hs. generalize Metadados.SUSPECT_SOFTWARES.
  induction l as [| x l IH]; cbn [Metadados.detect_loop]; [reflexivity |].
  now rewrite Hs, IH.
Qed.

Lemma detect_suspect_software_primeiro_da_lista_witness :
  Metadados.detect_suspect_software "ADOBE PHOTOSHOP LIGHTROOM 6.0"
  = Metadados.detect_suspect_software "Adobe Photoshop Lightroom 6.0" /\
  Metadados.nome_software_detectado
    (Metadados.detect_suspect_software "Adobe Photoshop Lightroom 6.0")
  = Some "Adobe Photoshop".
Proof.
  destruct (detect_suspect_software_primeiro_da_lista
              "Adobe Photoshop Lightroom 6.0") as (_ & _ & _ & H).
  split; [exact (H "ADOBE PHOTOSHOP LIGHTROOM 6.0" eq_refl) | reflexivity].
Defined.

(* ---------- ExtractConfig.validate ---------- *)

Lemma formato_normalizado f :
  mem (lower f) ["png"; "jpg"; "jpeg"] = true ->
  let f' := if (lower f =? "jpeg")%string then "jpg" else lower f in
  (f' = "png" \/ f' = "jpg") /\ lower f' = f'.
Proof.
  intros H. apply mem_In in H.
  destruct H as [H | [H | [H | []]]]; rewrite <- H; cbn; auto.
Qed.

(** X22. A configuration that [validate] accepts comes out with
    [image_format] equal to [png] or [jpg] ([jpeg] and upper-case spellings
    are normalised), a supported mode, at least 72 dpi in render mode and an
    input given; validating it again accepts it and changes nothing; the
    format written back is the lower-cased one, with [jpeg] replaced by
    [jpg], and each of the thirteen other fields is kept. *)
Theorem validate_normaliza_o_formato c c' :
  PdfExtractor.validate c = inr c' ->
  (PdfExtractor.image_format c' = "png" \/ PdfExtractor.image_format c' = "jpg") /\
  (PdfExtractor.mode c' = "embedded" \/ PdfExtractor.mode c' = "render") /\
  (PdfExtractor.mode c' = "render" -> 72 <= PdfExtractor.dpi c') /\
  (PdfExtractor.truthy (PdfExtractor.input_dir c') = true \/
   PdfExtractor.truthy (PdfExtractor.input_file c') = true) /\
  PdfExtractor.validate c' = inr c' /\
  PdfExtractor.image_format c'
  = (if (lower (PdfExtractor.image_format c) =? "jpeg")%string then "jpg"
     else lower (PdfExtractor.image_format c)) /\
  PdfExtractor.input_dir c' = PdfExtractor.input_dir c /\
  PdfExtractor.input_file c' = PdfExtractor.input_file c /\
  PdfExtractor.file_glob c' = PdfExtractor.file_glob c /\
  PdfExtractor.output_dir c' = PdfExtractor.output_dir c /\
  PdfExtractor.overwrite c' = PdfExtractor.overwrite c /\
  PdfExtractor.prefix_with_pdf_name c' = PdfExtractor.prefix_with_pdf_name c /\
  PdfExtractor.page_range c' = PdfExtractor.page_range c /\
  PdfExtractor.include_regex c' = PdfExtractor.include_regex c /\
  PdfExtractor.exclude_regex c' = PdfExtractor.exclude_regex c /\
  PdfExtractor.mode c' = PdfExtractor.mode c /\
  PdfExtractor.dpi c' = PdfExtractor.dpi c /\
  PdfExtractor.render_alpha c' = PdfExtractor.render_alpha c /\
  PdfExtractor.flatten_transparency c' = PdfExtractor.flatten_transparency c.
Proof.
  unfold PdfExtractor.validate at 1.
  destruct (negb (PdfExtractor.truthy (PdfExtractor.input_dir c)) &&
            negb (PdfExtractor.truthy (PdfExtractor.input_file c))) eqn:Hin;
    [discriminate |].
  destruct (mem (lower (PdfExtractor.image_format c)) ["png"; "jpg"; "jpeg"])
    eqn:Hfmt; [| discriminate].
  destruct (mem (PdfExtractor.mode c) ["embedded"; "render"]) eqn:Hmode;
    [| discriminate].
  destruct ((PdfExtractor.dpi c <? 72) &&
            (PdfExtractor.mode c =? "render")%string) eqn:Hdpi;
    [discriminate |].
  cbn [negb]. intros [= <-].
  destruct (formato_normalizado _ Hfmt) as [Hf Hlow].
  cbn [PdfExtractor.image_format PdfExtractor.mode PdfExtractor.dpi
       PdfExtractor.input_dir PdfExtractor.input_file
       PdfExtractor.page_range PdfExtractor.output_dir
       PdfExtractor.file_glob PdfExtractor.overwrite
       PdfExtractor.prefix_with_pdf_name PdfExtractor.include_regex
       PdfExtractor.exclude_regex PdfExtractor.render_alpha
       PdfExtractor.flatten_transparency].
  split; [exact Hf |]. split.
  { apply mem_In in Hmode. destruct Hmode as [H | [H | []]]; auto. }
  split.
  { intros Hr. rewrite Hr in Hdpi. cbn in Hdpi. rewrite andb_true_r in Hdpi.
    now apply Z.ltb_ge in Hdpi. }
  split.
  { apply andb_false_iff in Hin. destruct Hin as [H | H];
      apply negb_false_iff in H; auto. }
  split; [| repeat split].
  unfold PdfExtractor.validate.
  cbn [PdfExtractor.image_format PdfExtractor.mode PdfExtractor.dpi
       PdfExtractor.input_dir PdfExtractor.input_file
       PdfExtractor.page_range PdfExtractor.output_dir
       PdfExtractor.file_glob PdfExtractor.overwrite
       PdfExtractor.prefix_with_pdf_name PdfExtractor.include_regex
       PdfExtractor.exclude_regex PdfExtractor.render_alpha
       PdfExtractor.flatten_transparency].
  rewrite Hin, Hmode, Hdpi. cbv zeta in Hlow. rewrite Hlow.
  destruct Hf as [Hf | Hf]; rewrite Hf; reflexivity.
Qed.

Lemma validate_normaliza_o_formato_witness :
  exists c', PdfExtractor.validate config_pdf_exemplo = inr c' /\
             PdfExtractor.image_format c' = "jpg" /\
             PdfExtractor.validate c' = inr c'.
Proof.
  assert (H : exists c', PdfExtractor.validate config_pdf_exemplo = inr c' /\
                         PdfExtractor.image_format c' = "jpg")
    by (eexists; split; reflexivity).
  destruct H as (c' & Hv & Hf). exists c'. split; [exact Hv |].
  split; [exact Hf |].
  exact (proj1 (proj2 (proj2 (proj2 (proj2
           (validate_normaliza_o_formato config_pdf_exemplo c' Hv)))))).
Defined.

Lemma validate_casos c :
  let entrada := PdfExtractor.truthy (PdfExtractor.input_dir c) = true \/
                 PdfExtractor.truthy (PdfExtractor.input_file c) = true in
  let fmt := In (lower (PdfExtractor.image_format c)) ["png"; "jpg"; "jpeg"] in
  let modo := In (PdfExtractor.mode c) ["embedded"; "render"] in
  (PdfExtractor.truthy (PdfExtractor.input_dir c) = false /\
   PdfExtractor.truthy (PdfExtractor.input_file c) = false /\
   PdfExtractor.validate c = inl PdfExtractor.SemEntrada) \/
  (entrada /\ ~ fmt /\
   PdfExtractor.validate c = inl PdfExtractor.FormatoInvalido) \/
  (entrada /\ fmt /\ ~ modo /\
   PdfExtractor.validate c = inl PdfExtractor.ModoInvalido) \/
  (entrada /\ fmt /\ modo /\
   PdfExtractor.dpi c < 72 /\ PdfExtractor.mode c = "render" /\
   PdfExtractor.validate c = inl PdfExtractor.DpiBaixo) \/
  (entrada /\ fmt /\ modo /\
   (PdfExtractor.mode c = "render" -> 72 <= PdfExtractor.dpi c) /\
   exists c', PdfExtractor.validate c = inr c').
Proof.
  intros entrada fmt modo. subst entrada fmt modo.
  unfold PdfExtractor.validate. rewrite <- !mem_In.
  destruct (PdfExtractor.truthy (PdfExtractor.input_dir c)) eqn:Hd,
           (PdfExtractor.truthy (PdfExtractor.input_file c)) eqn:Hf;
    cbn [negb andb]; [right | right | right | left; auto];
    (destruct (mem (lower (PdfExtractor.image_format c)) _);
     cbn [negb]; [right | left; split; [auto | split; [discriminate | reflexivity]]];
     destruct (mem (PdfExtractor.mode c) _);
     cbn [negb]; [right | left; split; [auto | split; [reflexivity | split; [discriminate | reflexivity]]]];
     destruct (Z.ltb_spec (PdfExtractor.dpi c) 72) as [Hlt | Hge]; cbn [andb];
     [destruct (String.eqb_spec (PdfExtractor.mode c) "render") as [Hr | Hr];
      [left; repeat split; auto |
       right; repeat split; auto; [intros; contradiction | eexists; reflexivity]] |
      right; repeat split; auto; eexists; reflexivity]).
Qed.

(** X23. Which error [validate] raises: the missing-input error iff both
    [input_dir] and [input_file] are absent or empty; the low-dpi error only
    in render mode below 72 dpi, never in embedded mode. It accepts iff an
    input is given, the lower-cased format is one of [png], [jpg], [jpeg],
    the mode is [embedded] or [render] as written, and the dpi is at least
    72 in render mode. *)
Theorem validate_erros c :
  (PdfExtractor.validate c = inl PdfExtractor.SemEntrada <->
   PdfExtractor.truthy (PdfExtractor.input_dir c) = false /\
   PdfExtractor.truthy (PdfExtractor.input_file c) = false) /\
  (PdfExtractor.validate c = inl PdfExtractor.DpiBaixo ->
   PdfExtractor.mode c = "render" /\ PdfExtractor.dpi c < 72) /\
  (PdfExtractor.mode c = "embedded" ->
   PdfExtractor.validate c <> inl PdfExtractor.DpiBaixo) /\
  ((exists c', PdfExtractor.validate c = inr c') <->
   (PdfExtractor.truthy (PdfExtractor.input_dir c) = true \/
    PdfExtractor.truthy (PdfExtractor.input_file c) = true) /\
   In (lower (PdfExtractor.image_format c)) ["png"; "jpg"; "jpeg"] /\
   In (PdfExtractor.mode c) ["embedded"; "render"] /\
   (PdfExtractor.mode c = "render" -> 72 <= PdfExtractor.dpi c)).
Proof.
  pose proof (validate_casos c) as H. cbv zeta in H.
  destruct H as [(Hd & Hf & Hv) | [(He & Hf & Hv) | [(He & Hf & Hm & Hv) |
                 [(He & Hf & Hm & Hlt & Hr & Hv) | (He & Hf & Hm & Hdpi & c' & Hv)]]]];
    rewrite Hv.
  - split; [tauto |]. split; [discriminate |]. split; [discriminate |].
    split; [intros [x [=]] |]. intros ([H | H] & _); congruence.
  - split; [split; [discriminate | intros [? ?]; destruct He; congruence] |].
    split; [discriminate |]. split; [discriminate |].
    split; [intros [x [=]] | tauto].
  - split; [split; [discriminate | intros [? ?]; destruct He; congruence] |].
    split; [discriminate |]. split; [discriminate |].
    split; [intros [x [=]] | tauto].
  - split; [split; [discriminate | intros [? ?]; destruct He; congruence] |].
    split; [auto |]. split; [congruence |].
    split; [intros [x [=]] |]. intros (_ & _ & _ & Hge). specialize (Hge Hr). lia.
  - split; [split; [discriminate | intros [? ?]; destruct He; congruence] |].
    split; [discriminate |]. split; [discriminate |].
    split; [auto | eauto].
Qed.

Lemma validate_erros_witness :
  exists c', PdfExtractor.validate config_pdf_exemplo = inr c'.
Proof.
  apply (proj2 (proj2 (proj2 (proj2 (validate_erros config_pdf_exemplo))))).
  split; [right; reflexivity |]. split; [cbn; auto |]. split; [cbn; auto |].
  intros _. cbn. lia.
Defined.

(* ---------- _safe_name ---------- *)

Lemma safe_name_aux_permitidos s : forall b,
  so_permitidos (PdfExtractor.safe_name_aux b s) = true.
Proof.
  induction s as [| c s IH]; intros b; cbn [PdfExtractor.safe_name_aux];
    [reflexivity |].
  destruct (PdfExtractor.permitido c) eqn:Hc.
  - cbn [so_permitidos]. now rewrite Hc, IH.
  - destruct b; [apply IH |]. cbn [so_permitidos]. now rewrite IH.
Qed.

Lemma safe_name_aux_id s : forall b,
  so_permitidos s = true -> PdfExtractor.safe_name_aux b s = s.
Proof.
  induction s as [| c s IH]; intros b; cbn; [reflexivity |].
  intros H. apply andb_true_iff in H as [Hc Hs]. rewrite Hc. now rewrite IH.
Qed.

Lemma safe_name_aux_length s : forall b,
  (String.length (PdfExtractor.safe_name_aux b s) <= String.length s)%nat.
Proof.
  induction s as [| c s IH]; intros b; cbn [PdfExtractor.safe_name_aux];
    [simpl; lia |].
  destruct (PdfExtractor.permitido c); [simpl; specialize (IH false); lia |].
  destruct b; simpl; specialize (IH true); lia.
Qed.

Lemma safe_name_aux_nonempty c s :
  PdfExtractor.safe_name_aux false (String c s) <> "".
Proof.
  cbn [PdfExtractor.safe_name_aux].
  destruct (PdfExtractor.permitido c); discriminate.
Qed.

(** X24. [_safe_name] returns a string of the characters [a-zA-Z0-9._-]
    only, leaves a string of such characters as it is, is idempotent, never
    lengthens its argument and never returns the empty name for a non-empty
    one. *)
Theorem safe_name_so_caracteres_permitidos text :
  so_permitidos (PdfExtractor._safe_name text) = true /\
  (so_permitidos text = true -> PdfExtractor._safe_name text = text) /\
  PdfExtractor._safe_name (PdfExtractor._safe_name text)
    = PdfExtractor._safe_name text /\
  (String.length (PdfExtractor._safe_name text) <= String.length text)%nat /\
  (text <> "" -> PdfExtractor._safe_name text <> "").
Proof.
  unfold PdfExtractor._safe_name.
  split; [apply safe_name_aux_permitidos |].
  split; [apply safe_name_aux_id |].
  split; [apply safe_name_aux_id, safe_name_aux_permitidos |].
  split; [apply safe_name_aux_length |].
  destruct text as [| c s]; [congruence |]. intros _.
  apply safe_name_aux_nonempty.
Qed.

Lemma safe_name_so_caracteres_permitidos_witness :
  PdfExtractor._safe_name "nota fiscal (1)" = "nota_fiscal_1_" /\
  PdfExtractor._safe_name "nota_fiscal_1_" = "nota_fiscal_1_".
Proof.
  split; [reflexivity |].
  exact (proj1 (proj2 (safe_name_so_caracteres_permitidos "nota_fiscal_1_"))
           eq_refl).
Defined.

(* ---------- _parse_page_range ---------- *)

Lemma in_range i start stop :
  In i (PdfExtractor.range start stop) <-> start <= i < stop.
Proof.
  unfold PdfExtractor.range. rewrite in_map_iff. split.
  - intros (k & <- & Hk). apply in_seq in Hk. lia.
  - intros H. exists (Z.to_nat (i - start)). split; [lia |].
    apply in_seq. lia.
Qed.

Lemma nodup_map_inj {A B : Type} (f : A -> B) l :
  (forall a b, f a = f b -> a = b) -> NoDup l -> NoDup (map f l).
Proof.
  intros Hinj. induction 1 as [| x l Hx Hnd IH]; simpl; constructor; [| exact IH].
  intros Hin. apply in_map_iff in Hin as (y & Hy & Hin).
  apply Hinj in Hy. now subst y.
Qed.

Lemma nodup_range start stop : NoDup (PdfExtractor.range start stop).
Proof.
  unfold PdfExtractor.range. apply nodup_map_inj; [| apply seq_NoDup].
  intros a b H. lia.
Qed.

Lemma token_paginas_validas strip py_int page_count selected token l :
  paginas_validas page_count selected ->
  PdfExtractor.token_paginas strip py_int page_count selected token = Ok l ->
  paginas_validas page_count l.
Proof.
  intros Hsel. unfold PdfExtractor.token_paginas, PdfExtractor.int_de.
  destruct (PdfExtractor.split_once "-" (strip token)) as [[a b] |].
  - destruct (py_int a) as [va |]; [| discriminate]. cbn [bind].
    destruct (py_int b) as [vb |]; [| discriminate]. cbn [bind].
    intros [= <-] i Hin. apply in_app_or in Hin as [Hin | Hin]; [auto |].
    apply in_range in Hin. lia.
  - destruct (py_int (strip token)) as [v |]; [| discriminate]. cbn [bind].
    destruct (Z.leb_spec 0 (v - 1)), (Z.ltb_spec (v - 1) page_count);
      cbn [andb]; intros [= <-]; try exact Hsel.
    intros i Hin. apply in_app_or in Hin as [Hin | [<- | []]]; [auto | lia].
Qed.

Lemma tokens_paginas_validas strip py_int page_count tokens :
  forall selected l,
    paginas_validas page_count selected ->
    for_each (PdfExtractor.token_paginas strip py_int page_count) tokens selected
      = Ok l ->
    paginas_validas page_count l.
Proof.
  induction tokens as [| tk tokens IH]; intros selected l Hsel; cbn [for_each].
  - now intros [= <-].
  - destruct (PdfExtractor.token_paginas strip py_int page_count selected tk)
      as [sel' |] eqn:Htk; [| discriminate].
    apply IH. eapply token_paginas_validas; eassumption.
Qed.

Lemma sem_duplicatas_loop selected : forall seen unique,
  NoDup unique -> (forall i, In i seen <-> In i unique) ->
  let r := snd (fold_left
                  (fun (st : list Z * list Z) i =>
                     let '(seen, unique) := st in
                     if existsb (Z.eqb i) seen then (seen, unique)
                     else (i :: seen, (unique ++ [i])%list))
                  selected (seen, unique)) in
  NoDup r /\ (forall i, In i r <-> In i unique \/ In i selected) /\
  exists novos, r = (unique ++ novos)%list.
Proof.
  induction selected as [| x selected IH]; intros seen unique Hnd Hseen;
    cbn [fold_left snd].
  - split; [exact Hnd |]. split; [intros i; cbn [In]; tauto |].
    exists []. now rewrite app_nil_r.
  - destruct (existsb (Z.eqb x) seen) eqn:Hx.
    + destruct (IH seen unique Hnd Hseen) as (H1 & H2 & H3).
      split; [exact H1 |]. split; [| exact H3].
      intros i. rewrite H2. cbn [In].
      apply existsb_exists in Hx as (y & Hy & Hxy). apply Z.eqb_eq in Hxy.
      subst y. apply Hseen in Hy. split; [tauto |].
      intros [H | [<- | H]]; auto.
    + assert (Hnx : ~ In x unique).
      { intros Hin. apply Hseen in Hin.
        assert (existsb (Z.eqb x) seen = true); [| congruence].
        apply existsb_exists. exists x. split; [exact Hin | apply Z.eqb_refl]. }
      destruct (IH (x :: seen) (unique ++ [x])%list) as (H1 & H2 & novos & H3).
      * apply NoDup_app; [exact Hnd | repeat constructor; intros [] |].
        intros a Ha [<- | []]. contradiction.
      * intros i. cbn [In]. rewrite in_app_iff, Hseen. cbn [In]. tauto.
      * split; [exact H1 |]. split.
        -- intros i. rewrite H2, in_app_iff. cbn [In]. tauto.
        -- exists (x :: novos). now rewrite H3, <- app_assoc.
Qed.

Lemma sem_duplicatas_spec selected :
  NoDup (PdfExtractor.sem_duplicatas selected) /\
  forall i, In i (PdfExtractor.sem_duplicatas selected) <-> In i selected.
Proof.
  unfold PdfExtractor.sem_duplicatas.
  destruct (sem_duplicatas_loop selected [] [] (NoDup_nil _)) as (H1 & H2 & _);
    [tauto |].
  split; [exact H1 |]. intros i. rewrite H2. cbn [In]. tauto.
Qed.

(** X25. Every list that [_parse_page_range] returns holds distinct
    zero-based page indices that exist in the document
    ([0 <= i < page_count]); the specification [all], in any letter case,
    selects every page. *)
Theorem parse_page_range_paginas_do_documento
    strip py_int spec page_count l :
  PdfExtractor._parse_page_range strip py_int spec page_count = Ok l ->
  NoDup l /\ (forall i, In i l -> 0 <= i < page_count) /\
  (lower spec = "all" -> forall i, 0 <= i < page_count -> In i l).
Proof.
  unfold PdfExtractor._parse_page_range.
  destruct (String.eqb_spec (lower spec) "all") as [Hall | Hall].
  - intros [= <-]. split; [apply nodup_range |]. split.
    + intros i Hin. now apply in_range in Hin.
    + intros _ i Hi. now apply in_range.
  - intros H. apply bind_ok in H as (selected & Hsel & H). injection H as <-.
    destruct (sem_duplicatas_spec selected) as [Hnd Hin].
    split; [exact Hnd |]. split; [| contradiction].
    intros i Hi. apply Hin in Hi.
    eapply tokens_paginas_validas; [| exact Hsel | exact Hi].
    intros j [].
Qed.

(** Pages 1 to 3, page 5 and page 2 again, of a document of 4 pages, with
    plain decimal numbers and nothing to strip. *)
Lemma parse_page_range_paginas_do_documento_witness :
  PdfExtractor._parse_page_range (fun s => s) int_of_str "1-3,5,2" 4
  = Ok [0; 1; 2] /\
  NoDup [0; 1; 2] /\ (forall i, In i [0; 1; 2] -> 0 <= i < 4).
Proof.
  split; [reflexivity |].
  destruct (parse_page_range_paginas_do_documento (fun s => s) int_of_str
              "1-3,5,2" 4 [0; 1; 2] eq_refl) as (H1 & H2 & _).
  split; [exact H1 | exact H2].
Defined.

(* ---------- decimal numerals ---------- *)

Lemma string_of_uint_digitos d :
  so_digitos (DecimalString.NilEmpty.string_of_uint d) = true.
Proof. induction d; simpl; auto. Qed.

Lemma zeros_uint k d :
  zeros k ++ DecimalString.NilEmpty.string_of_uint d
  = DecimalString.NilEmpty.string_of_uint (Nat.iter k Decimal.D0 d).
Proof. induction k as [| k IH]; simpl; [reflexivity | now rewrite IH]. Qed.

Lemma of_uint_zeros k d : Z.of_uint (Nat.iter k Decimal.D0 d) = Z.of_uint d.
Proof. induction k as [| k IH]; simpl; [reflexivity | exact IH]. Qed.

Lemma str_int_nonneg z :
  0 <= z ->
  exists d, str_int z = DecimalString.NilEmpty.string_of_uint d /\
            Z.of_uint d = z.
Proof.
  intros Hz. unfold str_int. pose proof (DecimalZ.of_to z) as Hof.
  destruct z as [| p | p]; [| | lia].
  - exists Decimal.zero. split; reflexivity.
  - cbn [Z.to_int] in *. exists (Pos.to_uint p). split; [| exact Hof].
    cbn [DecimalString.NilZero.string_of_int].
    unfold DecimalString.NilZero.string_of_uint.
    destruct (Pos.to_uint p) eqn:Hp; try reflexivity.
    exfalso. apply (DecimalPos.Unsigned.to_uint_nonnil p). exact Hp.
Qed.

Lemma zfill_nonneg w z :
  0 <= z -> so_digitos (zfill w z) = true /\ valor_decimal (zfill w z) = Some z.
Proof.
  intros Hz. destruct (str_int_nonneg z Hz) as (d & Hs & Hd).
  unfold zfill. rewrite Hs, zeros_uint. split.
  - apply string_of_uint_digitos.
  - unfold valor_decimal. rewrite DecimalString.NilEmpty.usu. cbn [option_map].
    now rewrite of_uint_zeros, Hd.
Qed.

Lemma formato_03d_nonneg z :
  0 <= z ->
  so_digitos (PdfExtractor.formato_03d z) = true /\
  valor_decimal (PdfExtractor.formato_03d z) = Some z.
Proof.
  intros Hz. unfold PdfExtractor.formato_03d.
  assert (H : (z <? 0) = false) by (apply Z.ltb_ge; lia). rewrite H.
  now apply zfill_nonneg.
Qed.

Lemma formato_03d_inj a b :
  0 <= a -> 0 <= b -> PdfExtractor.formato_03d a = PdfExtractor.formato_03d b -> a = b.
Proof.
  intros Ha Hb Heq.
  destruct (formato_03d_nonneg a Ha) as [_ Hva].
  destruct (formato_03d_nonneg b Hb) as [_ Hvb].
  rewrite Heq in Hva. congruence.
Qed.

(* ---------- splitting at the first underscore ---------- *)

Lemma digitos_ate_sublinhado p : forall p' x y,
  so_digitos p = true -> so_digitos p' = true ->
  p ++ String "_" x = p' ++ String "_" y -> p = p' /\ x = y.
Proof.
  induction p as [| c p IH]; intros [| c' p'] x y Hp Hp'; simpl.
  - intros [= ->]. auto.
  - intros [= <- _]. simpl in Hp'. discriminate.
  - intros [= -> _]. simpl in Hp. discriminate.
  - intros [= <- H]. simpl in Hp, Hp'.
    apply andb_true_iff in Hp as [_ Hp]. apply andb_true_iff in Hp' as [_ Hp'].
    destruct (IH p' x y Hp Hp' H) as [-> ->]. auto.
Qed.

Lemma digitos_sem_sublinhado p : forall p' y,
  so_digitos p = true -> p <> p' ++ String "_" y.
Proof.
  induction p as [| c p IH]; intros [| c' p'] y Hp; simpl; try discriminate.
  - intros [= -> _]. simpl in Hp. discriminate.
  - intros [= _ H]. simpl in Hp. apply andb_true_iff in Hp as [_ Hp].
    exact (IH p' y Hp H).
Qed.

Lemma append_inv_head a : forall x y, a ++ x = a ++ y -> x = y.
Proof.
  induction a as [| c a IH]; intros x y; simpl; [auto |].
  intros [= H]. auto.
Qed.

(** X26. [_make_filename] gives different names to different pages and
    images of a document: for page and image indices that are not negative,
    equal names under one base name and suffix mean the same page index and
    the same image index, and the name of a page is never the name of an
    image. *)
Theorem make_filename_injetivo base_name suffix p p' i i' :
  0 <= p -> 0 <= p' ->
  (forall j, i = Some j -> 0 <= j) -> (forall j, i' = Some j -> 0 <= j) ->
  PdfExtractor._make_filename base_name p i suffix
  = PdfExtractor._make_filename base_name p' i' suffix ->
  p = p' /\ i = i'.
Proof.
  intros Hp Hp' Hi Hi'. unfold PdfExtractor._make_filename.
  set (base := match base_name with
               | EmptyString => "pdf"
               | _ => PdfExtractor._safe_name base_name
               end).
  destruct (formato_03d_nonneg (p + 1)) as [Hd _]; [lia |].
  destruct (formato_03d_nonneg (p' + 1)) as [Hd' _]; [lia |].
  assert (Hpp : PdfExtractor.formato_03d (p + 1) = PdfExtractor.formato_03d (p' + 1) -> p = p').
  { intros H. apply formato_03d_inj in H; lia. }
  destruct i as [j |], i' as [j' |]; intros H;
    do 4 apply append_inv_head in H.
  - apply digitos_ate_sublinhado in H as [H1 H2]; [| assumption | assumption].
    apply append_inv_head with (a := "img_") in H2.
    split; [auto |]. f_equal.
    apply formato_03d_inj; [apply (Hi j eq_refl) | apply (Hi' j' eq_refl) | exact H2].
  - exfalso. symmetry in H. revert H.
    now apply digitos_sem_sublinhado.
  - exfalso. revert H. now apply digitos_sem_sublinhado.
  - split; [auto | reflexivity].
Qed.

Lemma make_filename_injetivo_witness :
  PdfExtractor._make_filename "nota fiscal" 0 (Some 2) "embedded"
  = "nota_fiscal__embedded_001_img_002" /\
  (0 = 0 /\ Some 2 = Some 2).
Proof.
  split; [reflexivity |].
  apply (make_filename_injetivo "nota fiscal" "embedded" 0 0 (Some 2) (Some 2));
    try lia; try reflexivity; intros j [= <-]; lia.
Defined.
